(** * Knowledge Pipeline: a shallow embedding of the ingestion orchestration

  The development follows the layout of the repository:

  - [Py]        the Python builtins the sources rely on (strings, dicts);
  - [TextTools] [src/utils/text_tools.py]: classification and tag generation;
  - [Pipeline]  [src/pipeline.py]: ingestion, repair and sync over a
                file-system store, with the external collaborators taken
                as parameters;
  - [Main]      [main.py]: the debounce manager, the periodic scanner, the
                worker loop and the interleaving of the threads.

  Strings are byte strings ([string]); time stamps (Python floats, in
  seconds) are exact rationals ([Q]). *)

From Stdlib Require Import Ascii QArith Lqa.
From stdpp Require Import base gmap sets list strings sorting pretty.
Local Close Scope Q_scope.

(* ===================================================================== *)
(** * Python builtins *)
(* ===================================================================== *)

Module Py.

Definition chars (s : string) : list ascii := String.list_ascii_of_string s.
Definition str (l : list ascii) : string := String.string_of_list_ascii l.

(** [str.isspace] on the ASCII range: TAB, LF, VT, FF, CR, the four
    separators 0x1c..0x1f and the blank. *)
Definition isspace (c : ascii) : bool :=
  let n := Ascii.nat_of_ascii c in
  ((9 <=? n) && (n <=? 13)) || ((28 <=? n) && (n <=? 32)).

Definition lower_char (c : ascii) : ascii :=
  let n := Ascii.nat_of_ascii c in
  if (65 <=? n) && (n <=? 90) then Ascii.ascii_of_nat (n + 32) else c.

(** [s.lower()] *)
Definition lower (s : string) : string := str (lower_char <$> chars s).

(** truthiness of a [str]: [bool(s)] *)
Definition truthy (s : string) : bool := negb (String.eqb s "").

(** [s[:n]] *)
Definition slice_to (n : nat) (s : string) : string := str (take n (chars s)).

Fixpoint dropwhile {A} (p : A → bool) (l : list A) : list A :=
  match l with
  | [] => []
  | x :: l' => if p x then dropwhile p l' else l
  end.

Definition lstrip_chars (l : list ascii) : list ascii := dropwhile isspace l.
Definition rstrip_chars (l : list ascii) : list ascii :=
  rev (dropwhile isspace (rev l)).

(** [s.strip()] *)
Definition strip (s : string) : string :=
  str (rstrip_chars (lstrip_chars (chars s))).

(** [s.split()]: maximal runs of non-blank characters. *)
Fixpoint split_go (cur : list ascii) (l : list ascii) : list string :=
  match l with
  | [] => match cur with [] => [] | _ => [str (rev cur)] end
  | c :: l' =>
      if isspace c
      then match cur with
           | [] => split_go [] l'
           | _ => str (rev cur) :: split_go [] l'
           end
      else split_go (c :: cur) l'
  end.
Definition split (s : string) : list string := split_go [] (chars s).

(** [sep.join(l)] *)
Definition join (sep : string) (l : list string) : string :=
  String.concat sep l.

(** [p] is a prefix of [s]: [s.startswith(p)] *)
Definition startswith (s p : string) : bool := String.prefix p s.

(** [s.endswith(p)] *)
Definition endswith (s p : string) : bool :=
  String.prefix (String.rev p) (String.rev s).

(** [sub in s] *)
Fixpoint contains (s sub : string) : bool :=
  String.prefix sub s ||
  match s with
  | EmptyString => false
  | String _ s' => contains s' sub
  end.

(** [s.upper()] and [s.title()] *)
Definition upper_char (c : ascii) : ascii :=
  let n := Ascii.nat_of_ascii c in
  if (97 <=? n) && (n <=? 122) then Ascii.ascii_of_nat (n - 32) else c.

Definition isalpha (c : ascii) : bool :=
  let n := Ascii.nat_of_ascii c in
  ((65 <=? n) && (n <=? 90)) || ((97 <=? n) && (n <=? 122)).

Fixpoint title_go (prev_cased : bool) (l : list ascii) : list ascii :=
  match l with
  | [] => []
  | c :: l' =>
      (if prev_cased then lower_char c else upper_char c)
        :: title_go (isalpha c) l'
  end.
Definition title (s : string) : string := str (title_go false (chars s)).

(** [s.split(sep)] for a non-empty separator: [skip] counts the
    characters of a separator occurrence still to be consumed. *)
Fixpoint split_on_go (sep : string) (skip : nat) (cur : list ascii)
    (s : string) : list string :=
  match s with
  | EmptyString => [str (rev cur)]
  | String c s' =>
      match skip with
      | S k => split_on_go sep k cur s'
      | O =>
          if String.prefix sep s
          then str (rev cur) :: split_on_go sep (String.length sep - 1) [] s'
          else split_on_go sep 0 (c :: cur) s'
      end
  end.
Definition split_on (s sep : string) : list string :=
  split_on_go sep 0 [] s.

(** [s.replace(old, new)] for a non-empty [old] *)
Definition replace (s old new : string) : string :=
  join new (split_on s old).

(** The dash of the file names. *)
Definition dash : ascii := Ascii.ascii_of_nat 45.

(** The line feed of the Python literals. *)
Definition nl : string := String (Ascii.ascii_of_nat 10) EmptyString.

(** ** Dictionaries

    A [dict] keeps its keys in insertion order: assigning to a present key
    replaces the value in place, assigning to a new key appends. *)
Definition dict (V : Type) : Type := list (string * V).

Fixpoint get {V} (d : dict V) (k : string) : option V :=
  match d with
  | [] => None
  | (k', v) :: d' => if decide (k' = k) then Some v else get d' k
  end.

Fixpoint set {V} (d : dict V) (k : string) (v : V) : dict V :=
  match d with
  | [] => [(k, v)]
  | (k', v') :: d' =>
      if decide (k' = k) then (k, v) :: d' else (k', v') :: set d' k v
  end.

Fixpoint del {V} (d : dict V) (k : string) : dict V :=
  match d with
  | [] => []
  | (k', v') :: d' =>
      if decide (k' = k) then d' else (k', v') :: del d' k
  end.

Definition keys {V} (d : dict V) : list string := d.*1.

(** The representation invariant of a dictionary. *)
Definition wf {V} (d : dict V) : Prop := NoDup (keys d).

End Py.

(* ===================================================================== *)
(** * Configuration ([src/config_loader.py]) *)
(* ===================================================================== *)

(** One entry of [content_types]; a missing or null YAML field reads as the
  default the sources pass to [.get]. *)
Record type_data := {
  is_default : bool;                 (* [.get('is_default') is True] *)
  detection_keywords : list string;  (* [.get('detection_keywords', [])] *)
  enable_analysis : bool;            (* [.get("enable_analysis", False)] *)
  target_subfolder : option string;  (* [.get("target_subfolder", ...)] *)
  collection_id : option string;     (* [.get("collection_id")] *)
  type_name : option string;         (* [.get("type_name", ...)] *)
  system_prompt : string;            (* [.get("system_prompt", "")] *)
  user_prompt : string               (* [.get("user_prompt", "")] *)
}.

Record PipelineConfig := {
  content_types : Py.dict type_data;
  paths_base : string;               (* [paths['base']] *)
  paths_output : string;             (* [paths['output']] *)
  paths_archive : string;            (* [paths['archive']] *)
  paths_batch : string;              (* [paths['batch']], the retry root *)
  focus_mode_id : option string;     (* [special_collections] *)
  metadata_system : string;          (* [metadata_prompt.get("system", "")] *)
  metadata_user : string             (* [metadata_prompt.get("user", "")] *)
}.

(* ===================================================================== *)
(** * [src/utils/text_tools.py] *)
(* ===================================================================== *)

Module TextTools.

(** [any(k.lower() in intro_text for k in keywords)], guarded by the
    truthiness of [keywords]. *)
Definition keywords_match (intro_text : string) (td : type_data) : bool :=
  let keywords := detection_keywords td in
  negb (bool_decide (keywords = [])) &&
  existsb (λ k, Py.contains intro_text (Py.lower k)) keywords.

(** The body of the [for] loop of [determine_content_type]: [inl k] is a
    [return k] from inside the loop, [inr d] the value of [default_type]
    when the loop runs to its end. *)
Fixpoint content_type_loop (intro_text : string)
    (items : list (string * type_data)) (default_type : option string)
    : string + option string :=
  match items with
  | [] => inr default_type
  | (type_key, td) :: items' =>
      let default_type :=
        if is_default td then Some type_key else default_type in
      if keywords_match intro_text td then inl type_key
      else content_type_loop intro_text items' default_type
  end.

Definition intro_text_of (text : string) : string :=
  Py.lower (Py.join " " (take 100 (Py.split (Py.slice_to 500 text)))).

(** [list(self.config.content_types.keys())[0] if self.config.content_types
    else "unknown"] *)
Definition first_key_or_unknown (config : PipelineConfig) : string :=
  match Py.keys (content_types config) with
  | k0 :: _ => k0
  | [] => "unknown"
  end.

Definition determine_content_type (config : PipelineConfig) (text : string)
    : string :=
  let intro_text := intro_text_of text in
  match content_type_loop intro_text (content_types config) None with
  | inl type_key => type_key
  | inr default_type =>
      match default_type with
      | Some k => if Py.truthy k then k else first_key_or_unknown config
      | None => first_key_or_unknown config
      end
  end.

(** [sorted(list(set(final_tags)))]: the set forgets order and
    multiplicity, [elements] lists it in some order, the sort fixes it. *)
Definition sorted (l : list string) : list string :=
  merge_sort String.le l.

Definition final_tags (spoken_tags : list string) : list string :=
  foldr (λ t acc, if Py.truthy (Py.strip t) then Py.strip t :: acc else acc)
        [] spoken_tags.

Definition generate_tags (text : string) (spoken_tags : list string)
    (entry_type : string) : list string :=
  sorted (elements (list_to_set (final_tags spoken_tags) : gset string)).

End TextTools.

(* ===================================================================== *)
(** * The file system ([os], [shutil], [open]) *)
(* ===================================================================== *)

(** The store holds the regular files: a path is mapped to the text of the
    file.  Directories are implicit ([os.makedirs] is a no-op here). *)
Module OS.

(** The exceptions of the modelled code, all of class [Exception];
    [LoopFuel] stands for a loop that does not end within its fuel. *)
Inductive exn :=
  | FileNotFoundError
  | SameFileError
  | TypeError
  | AttributeError
  | LoopFuel.

Inductive result (A : Type) :=
  | Ok (a : A)
  | Raise (e : exn).
Arguments Ok {A} a.
Arguments Raise {A} e.

Abbreviation store := (gmap string string).

(** Computations over the store that may raise; the store survives a raise,
    as the writes made before an exception stay on disk. *)
Definition M (A : Type) : Type := store → result A * store.

Definition ret {A} (a : A) : M A := λ fs, (Ok a, fs).
Definition raise {A} (e : exn) : M A := λ fs, (Raise e, fs).
Definition bind {A B} (m : M A) (k : A → M B) : M B :=
  λ fs, match m fs with
        | (Ok a, fs') => k a fs'
        | (Raise e, fs') => (Raise e, fs')
        end.
Definition lift {A} (r : result A) : M A := λ fs, (r, fs).

(** [try: m  except Exception: handler] *)
Definition try_except {A} (m : M A) (handler : exn → M A) : M A :=
  λ fs, match m fs with
        | (Ok a, fs') => (Ok a, fs')
        | (Raise e, fs') => handler e fs'
        end.

(** [os.path.exists] *)
Definition exists_ (path : string) (fs : store) : bool :=
  bool_decide (is_Some (fs !! path)).

(** [open(path, 'r').read()] *)
Definition read_file (path : string) : M string :=
  λ fs, match fs !! path with
        | Some content => (Ok content, fs)
        | None => (Raise FileNotFoundError, fs)
        end.

(** [open(path, 'w').write(content)] *)
Definition write_file (path content : string) : M unit :=
  λ fs, (Ok (), <[path := content]> fs).

(** [os.remove] *)
Definition remove (path : string) : M unit :=
  λ fs, match fs !! path with
        | Some _ => (Ok (), delete path fs)
        | None => (Raise FileNotFoundError, fs)
        end.

(** [shutil.copy2] *)
Definition copy2 (src dst : string) : M unit :=
  λ fs, match fs !! src with
        | Some content =>
            if decide (src = dst) then (Raise SameFileError, fs)
            else (Ok (), <[dst := content]> fs)
        | None => (Raise FileNotFoundError, fs)
        end.

(** [shutil.copy2] towards a folder that may be missing.  The store records
    files, not folders: [folder] is whether the folder of [dst] exists on
    disk, and opening [dst] raises [FileNotFoundError] when it does not. *)
Definition copy2_into (folder : bool) (src dst : string) : M unit :=
  λ fs, match fs !! src with
        | Some content =>
            if decide (src = dst) then (Raise SameFileError, fs)
            else if folder then (Ok (), <[dst := content]> fs)
            else (Raise FileNotFoundError, fs)
        | None => (Raise FileNotFoundError, fs)
        end.

(** [shutil.move] *)
Definition move (src dst : string) : M unit :=
  λ fs, match fs !! src with
        | Some content =>
            if decide (src = dst) then (Ok (), fs)
            else (Ok (), <[dst := content]> (delete src fs))
        | None => (Raise FileNotFoundError, fs)
        end.

(** [os.path.join(a, b)] *)
Definition join (a b : string) : string :=
  if Py.startswith b "/" then b
  else if negb (Py.truthy a) || Py.endswith a "/" then a +:+ b
  else a +:+ "/" +:+ b.

(** [os.path.basename] *)
Definition basename (path : string) : string :=
  List.last (Py.split_on path "/") "".

End OS.

Notation "'let*' x ':=' m 'in' k" := (OS.bind m (λ x, k))
  (at level 10, x name, m at level 100, k at level 200,
   format "'[v' 'let*'  x  :=  m  'in' '/' k ']'").
Notation "m ';;' k" := (OS.bind m (λ _, k))
  (at level 100, k at level 200, right associativity).

(* ===================================================================== *)
(** * [src/pipeline.py] *)
(* ===================================================================== *)

Module Pipeline.
Import OS.

(** YAML values of a front-matter block. *)
Inductive yval :=
  | YNull
  | YBool (b : bool)
  | YStr (s : string)
  | YSeq (l : list string).

(** The outcome of [yaml.safe_load]: a [YAMLError], a document that is not
    a mapping, or a mapping. *)
Inductive loaded :=
  | LoadError
  | LoadOther
  | LoadDict (fm : Py.dict yval).

(** The dictionary [extract_metadata_from_text] returns. *)
Record metadata := {
  date : string;
  time : string;
  clean_text : string;
  spoken_tags : list string
}.

(** The dictionary [_enrich_content] returns. *)
Record ai_meta := {
  title : string;
  language : string;
  emotions : list string;
  characters : list string;
  summary : string
}.

(** The JSON object of an enrichment answer; [None] is an absent key. *)
Record ai_json := {
  j_title : option string;
  j_language : option string;
  j_emotions : option (list string);
  j_characters : option (list string);
  j_summary : option string
}.

(** The external collaborators and libraries of the pipeline, by their
    contracts: the Open WebUI client ([src/utils/llm_client.py], which
    catches every exception of the HTTP layer), the transcriber, the YAML
    and JSON codecs, and the regular-expression metadata extractor of
    [text_tools.py]; and [isdir], the folders present on disk when the
    repair copies a document to its official path.  The other writes go to
    folders the code has created: [__init__] makes the archive folder and
    the retry root, and the ingestion makes its target folder. *)
Record Env := {
  chat_completion : string → string → string;
  check_health : bool;
  upload_file : string → string → option string;
  link_to_collection : string → string → bool;
  transcribe : string → result string;
  yaml_safe_load : string → loaded;
  yaml_dump : Py.dict yval → string;
  json_loads : string → option ai_json;
  extract_metadata_from_text : string → string → metadata;
  repr_list : list string → string;
  normpath : string → string;
  isdir : string → bool
}.

(** [bool(v)] *)
Definition ytruthy (v : yval) : bool :=
  match v with
  | YNull => false
  | YBool b => b
  | YStr s => Py.truthy s
  | YSeq l => negb (bool_decide (l = []))
  end.

(** [f"{v}"] *)
Definition yformat (env : Env) (v : yval) : string :=
  match v with
  | YNull => "None"
  | YBool true => "True"
  | YBool false => "False"
  | YStr s => s
  | YSeq l => repr_list env l
  end.

(** [self.config.content_types.get(entry_type)]; a list is not hashable. *)
Definition content_types_get (config : PipelineConfig) (entry_type : yval)
    : result (option type_data) :=
  match entry_type with
  | YStr s => Ok (Py.get (content_types config) s)
  | YSeq _ => Raise TypeError
  | _ => Ok None
  end.

(** [self.text_input_dir], as [__init__] sets it. *)
Definition text_input_dir (config : PipelineConfig) : string :=
  if negb (Py.truthy (paths_batch config))
     || Py.contains (paths_batch config) "_BATCH_SYNC"
  then join (paths_base config) "_INPUT_TEXT"
  else paths_batch config.

Definition defaults : ai_meta :=
  {| title := "Untitled"; language := "en"; emotions := [];
     characters := []; summary := "" |}.

Definition _enrich_content (env : Env) (config : PipelineConfig)
    (text : string) : ai_meta :=
  let sys_prompt := metadata_system config in
  let user_prompt :=
    metadata_user config +:+ Py.nl +:+ Py.nl +:+ "TEXT:" +:+ Py.nl
      +:+ Py.slice_to 2500 text in
  let response := chat_completion env sys_prompt user_prompt in
  if negb (Py.truthy response) then defaults
  else
    let clean :=
      Py.strip (Py.replace (Py.replace response "```json" "") "```" "") in
    match json_loads env clean with
    | None => defaults
    | Some data =>
        let data_title :=
          match j_title data with
          | Some t => if Py.truthy t then t else "Untitled"
          | None => "Untitled"
          end in
        {| title := data_title;
           language := default (language defaults) (j_language data);
           emotions := default (emotions defaults) (j_emotions data);
           characters := default (characters defaults) (j_characters data);
           summary := default (summary defaults) (j_summary data) |}
    end.

Definition _run_analysis (env : Env) (config : PipelineConfig)
    (entry_type : string) (text : string) : string :=
  match Py.get (content_types config) entry_type with
  | None => ""
  | Some type_cfg =>
      chat_completion env (system_prompt type_cfg)
        (user_prompt type_cfg +:+ Py.nl +:+ Py.nl +:+ "TRANSCRIPT:" +:+ Py.nl
           +:+ text)
  end.

(** The text of a document: front-matter, transcript, optional tail. *)
Definition render (env : Env) (fm : Py.dict yval) (body tail : string)
    : string :=
  "---" +:+ Py.nl +:+ yaml_dump env fm +:+ "---" +:+ Py.nl +:+ Py.nl
    +:+ "## Transcript" +:+ Py.nl +:+ Py.nl +:+ body +:+ tail.

Definition analysis_section (analysis : string) : string :=
  Py.nl +:+ Py.nl +:+ "## Analysis" +:+ Py.nl +:+ Py.nl +:+ analysis.

Definition _construct_markdown (env : Env) (config : PipelineConfig)
    (file_id : string) (meta : metadata) (ai : ai_meta)
    (entry_type : string) (tags : list string) (analysis : string)
    (original_filename : string) : string :=
  let type_config := Py.get (content_types config) entry_type in
  let display_type :=
    default (Py.title (Py.replace entry_type "_" " "))
            (type_config ≫= type_name) in
  let title_ := if Py.truthy (title ai) then title ai else "Untitled" in
  let frontmatter : Py.dict yval :=
    [ ("id", YStr file_id);
      ("language", YStr (language ai));
      ("title", YStr title_);
      ("aliases", YSeq [original_filename]);
      ("date", YStr (date meta));
      ("time", YStr (time meta));
      ("type", YStr display_type);
      ("tags", YSeq tags);
      ("emotions", YSeq (emotions ai));
      ("characters", YSeq (characters ai));
      ("summary", YStr (summary ai));
      ("related", YStr "");
      ("focus", YBool false) ] in
  render env frontmatter (clean_text meta)
    (if Py.truthy analysis then analysis_section analysis else "").

(** ["FOCUS" in tags] *)
Definition focus_in (tags : yval) : result bool :=
  match tags with
  | YSeq l => Ok (bool_decide ("FOCUS" ∈ l))
  | YStr s => Ok (Py.contains s "FOCUS")
  | _ => Raise TypeError
  end.

(** [_sync_file]; [linked] and [focused] are the two calls of
    [link_to_collection], whose answers the function does not use. *)
Definition _sync_file (env : Env) (config : PipelineConfig)
    (filepath : string) (entry_type : yval) (tags : yval)
    (force_focus : yval) : result bool :=
  let filename := basename filepath in
  match upload_file env filepath filename with
  | None => Ok false
  | Some fid =>
      if negb (Py.truthy fid) then Ok false
      else
        match content_types_get config entry_type with
        | Raise e => Raise e
        | Ok type_cfg =>
            let linked :=
              match type_cfg ≫= collection_id with
              | Some cid =>
                  if Py.truthy cid then link_to_collection env fid cid
                  else false
              | None => false
              end in
            match (if ytruthy force_focus then Ok true else focus_in tags) with
            | Raise e => Raise e
            | Ok should_focus =>
                let focused :=
                  match focus_mode_id config with
                  | Some fmid =>
                      if should_focus && Py.truthy fmid
                      then link_to_collection env fid fmid
                      else false
                  | None => false
                  end in
                Ok true
            end
        end
  end.

(** The path tried by the disambiguation loop for a value of [counter]. *)
Definition final_file_id_of (base_id : string) (counter : nat) : string :=
  base_id +:+ "-" +:+ pretty counter.

Definition final_filename_of (base_id : string) (counter : nat) : string :=
  final_file_id_of base_id counter +:+ ".md".

Definition final_path_of (target_dir base_id : string) (counter : nat)
    : string :=
  join target_dir (final_filename_of base_id counter).

(** The [while True] loop of [_run_ingestion_pipeline]; [None] when the
    fuel is used up before the loop breaks. *)
Fixpoint counter_loop (fs : store) (target_dir base_id : string)
    (fuel counter : nat) : option nat :=
  match fuel with
  | O => None
  | S fuel' =>
      if negb (exists_ (final_path_of target_dir base_id counter) fs)
      then Some counter
      else counter_loop fs target_dir base_id fuel' (S counter)
  end.

(** The loop started at [counter = 1]; a store of [n] files is left after
    at most [n + 1] tests. *)
Definition find_counter (fs : store) (target_dir base_id : string)
    : option nat :=
  counter_loop fs target_dir base_id (S (size fs)) 1.

Definition target_dir_of (config : PipelineConfig) (entry_type : string)
    : string :=
  let type_config := Py.get (content_types config) entry_type in
  let subfolder := default "Personal Diary" (type_config ≫= target_subfolder) in
  join (paths_output config) subfolder.

(** The entry type and [base_id] that [_run_ingestion_pipeline] computes
    for a text. *)
Definition entry_type_of (env : Env) (config : PipelineConfig)
    (text source_path : string) : string :=
  TextTools.determine_content_type config
    (clean_text (extract_metadata_from_text env text source_path)).

Definition base_id_of (env : Env) (config : PipelineConfig)
    (text source_path : string) : string :=
  date (extract_metadata_from_text env text source_path) +:+ "-"
    +:+ entry_type_of env config text source_path.

Definition _run_ingestion_pipeline (env : Env) (config : PipelineConfig)
    (text original_filename source_path : string) (is_text_file : bool)
    : M string :=
  let meta := extract_metadata_from_text env text source_path in
  let entry_type :=
    TextTools.determine_content_type config (clean_text meta) in
  let tags :=
    TextTools.generate_tags (clean_text meta) (spoken_tags meta) entry_type in
  let ai := _enrich_content env config (clean_text meta) in
  let analysis_required :=
    default false (enable_analysis <$> Py.get (content_types config) entry_type) in
  let analysis_content :=
    if analysis_required
    then _run_analysis env config entry_type (clean_text meta) else "" in
  let target_dir := target_dir_of config entry_type in
  let base_id := date meta +:+ "-" +:+ entry_type in
  λ fs,
    match find_counter fs target_dir base_id with
    | None => (Raise LoopFuel, fs)
    | Some counter =>
        let final_file_id := final_file_id_of base_id counter in
        let final_filename := final_filename_of base_id counter in
        let final_path := final_path_of target_dir base_id counter in
        let md_content :=
          _construct_markdown env config final_file_id meta ai entry_type
            tags analysis_content original_filename in
        (write_file final_path md_content ;;
         let missing_metadata := String.eqb (title ai) "Untitled" in
         let missing_analysis :=
           analysis_required && negb (Py.truthy analysis_content) in
         if missing_metadata || missing_analysis then
           (if negb is_text_file
            then copy2 final_path (join (text_input_dir config) final_filename)
            else ret ()) ;;
           ret final_path
         else
           let* synced :=
             lift (_sync_file env config final_path (YStr entry_type)
                     (YSeq tags) (YBool false)) in
           ret final_path) fs
    end.

(** The completion check of [_run_ingestion_pipeline] for a text: neither
    [missing_metadata] nor [missing_analysis]. *)
Definition fully_completed (env : Env) (config : PipelineConfig)
    (text source_path : string) : bool :=
  let meta := extract_metadata_from_text env text source_path in
  let entry_type := entry_type_of env config text source_path in
  let ai := _enrich_content env config (clean_text meta) in
  let analysis_required :=
    default false (enable_analysis <$> Py.get (content_types config) entry_type) in
  let analysis_content :=
    if analysis_required
    then _run_analysis env config entry_type (clean_text meta) else "" in
  negb (String.eqb (title ai) "Untitled"
        || analysis_required && negb (Py.truthy analysis_content)).

(** The document [_run_ingestion_pipeline] writes for a text when the loop
    stops at [counter]. *)
Definition document_of (env : Env) (config : PipelineConfig)
    (text original_filename source_path : string) (counter : nat) : string :=
  let meta := extract_metadata_from_text env text source_path in
  let entry_type := entry_type_of env config text source_path in
  let tags :=
    TextTools.generate_tags (clean_text meta) (spoken_tags meta) entry_type in
  let ai := _enrich_content env config (clean_text meta) in
  let analysis_required :=
    default false (enable_analysis <$> Py.get (content_types config) entry_type) in
  let analysis_content :=
    if analysis_required
    then _run_analysis env config entry_type (clean_text meta) else "" in
  _construct_markdown env config
    (final_file_id_of (base_id_of env config text source_path) counter)
    meta ai entry_type tags analysis_content original_filename.

(** The folder and the path of that document, and its copy in the retry
    root. *)
Definition ingestion_dir (env : Env) (config : PipelineConfig)
    (text source_path : string) : string :=
  target_dir_of config (entry_type_of env config text source_path).

Definition ingestion_path (env : Env) (config : PipelineConfig)
    (text source_path : string) (counter : nat) : string :=
  final_path_of (ingestion_dir env config text source_path)
    (base_id_of env config text source_path) counter.

Definition retry_copy_path (env : Env) (config : PipelineConfig)
    (text source_path : string) (counter : nat) : string :=
  join (text_input_dir config)
    (final_filename_of (base_id_of env config text source_path) counter).

(** The arguments of one call of [_run_ingestion_pipeline]. *)
Record ingestion_input := {
  in_text : string;
  in_original_filename : string;
  in_source_path : string;
  in_is_text_file : bool
}.

Definition ingest (env : Env) (config : PipelineConfig)
    (i : ingestion_input) : M string :=
  _run_ingestion_pipeline env config (in_text i) (in_original_filename i)
    (in_source_path i) (in_is_text_file i).

(** [current_title in ["Untitled", None, "null"]] *)
Definition title_is_sentinel (current_title : yval) : bool :=
  match current_title with
  | YStr s => String.eqb s "Untitled" || String.eqb s "null"
  | YNull => true
  | _ => false
  end.

(** The fallback title of the repair pipeline:
    [f"Recovered Entry {fm.get('date', '')}".strip()] *)
Definition recovered_title (env : Env) (fm : Py.dict yval) : string :=
  Py.strip ("Recovered Entry " +:+ yformat env (default (YStr "") (Py.get fm "date"))).

(** The title block of [_run_repair_pipeline]: [None] is the early
    [return filepath] of the offline branch, otherwise the front-matter and
    [file_changed] after the block. *)
Definition repair_title (env : Env) (config : PipelineConfig)
    (body_text : string) (fm : Py.dict yval)
    : option (Py.dict yval * bool) :=
  let current_title := default (YStr "Untitled") (Py.get fm "title") in
  if title_is_sentinel current_title then
    let new_meta := _enrich_content env config body_text in
    if negb (String.eqb (title new_meta) "Untitled") then
      let fm := Py.set fm "title" (YStr (title new_meta)) in
      let fm := Py.set fm "summary" (YStr (summary new_meta)) in
      let fm := Py.set fm "emotions" (YSeq (emotions new_meta)) in
      let fm := Py.set fm "characters" (YSeq (characters new_meta)) in
      Some (fm, true)
    else if negb (check_health env) then None
    else Some (Py.set fm "title" (YStr (recovered_title env fm)), true)
  else Some (fm, false).

(** [fm.get('title') != "Untitled"] *)
Definition title_fixed (fm : Py.dict yval) : bool :=
  match Py.get fm "title" with
  | Some (YStr s) => negb (String.eqb s "Untitled")
  | _ => true
  end.

(** [_run_repair_pipeline] from the parsed front-matter on. *)
Definition repair_document (env : Env) (config : PipelineConfig)
    (filepath content part2 body_text : string) (fm0 : Py.dict yval)
    : M (option string) :=
  let filename := basename filepath in
  let entry_type := default (YStr "journal_entry") (Py.get fm0 "type") in
  let tags := default (YSeq []) (Py.get fm0 "tags") in
  match repair_title env config body_text fm0 with
  | None => ret (Some filepath)
  | Some (fm, title_changed) =>
      let* type_config := lift (content_types_get config entry_type) in
      let analysis_required :=
        default false (enable_analysis <$> type_config) in
      let has_analysis := Py.contains content "## Analysis" in
      let new_analysis_section :=
        if analysis_required && negb has_analysis then
          let analysis_text :=
            match entry_type with
            | YStr s => _run_analysis env config s body_text
            | _ => ""
            end in
          if Py.truthy analysis_text then analysis_section analysis_text
          else ""
        else "" in
      let file_changed := title_changed || Py.truthy new_analysis_section in
      (if file_changed then
         let tail :=
           if has_analysis then
             Py.nl +:+ Py.nl +:+ "## Analysis"
               +:+ List.last (Py.split_on part2 "## Analysis") ""
           else new_analysis_section in
         write_file filepath (render env fm body_text tail)
       else ret ()) ;;
      let* success :=
        lift (_sync_file env config filepath entry_type tags
                (default (YBool false) (Py.get fm "focus"))) in
      let is_fixed :=
        title_fixed fm
        && (negb analysis_required || has_analysis
            || Py.truthy new_analysis_section) in
      if is_fixed && success then
        let official_dir :=
          join (paths_output config)
            (default "Personal Diary" (type_config ≫= target_subfolder)) in
        let official_path := join official_dir filename in
        try_except
          (copy2_into (isdir env official_dir) filepath official_path ;;
           remove filepath ;;
           ret (Some official_path))
          (λ _, ret (Some filepath))
      else ret (Some filepath)
  end.

(** [body_text], from [parts[2]]. *)
Definition body_text_of (part2 : string) : string :=
  let body_parts := Py.split_on part2 "## Transcript" in
  if 1 <? length body_parts
  then Py.strip (List.hd "" (Py.split_on (List.last body_parts "")
                               "## Analysis"))
  else Py.strip part2.

Definition _run_repair_pipeline (env : Env) (config : PipelineConfig)
    (filepath content : string) : M (option string) :=
  match Py.split_on content "---" with
  | _ :: frontmatter_str :: part2 :: _ =>
      let body_text := body_text_of part2 in
      match yaml_safe_load env frontmatter_str with
      | LoadError => ret None
      | LoadOther => raise AttributeError
      | LoadDict fm =>
          repair_document env config filepath content part2 body_text fm
      end
  | _ => ret None
  end.

Definition process_text_file (env : Env) (config : PipelineConfig)
    (filepath : string) : M (option string) :=
  let filename := basename filepath in
  try_except
    (let* content := read_file filepath in
     if Py.startswith content "---" then
       _run_repair_pipeline env config filepath content
     else
       let* final_path :=
         _run_ingestion_pipeline env config content filename filepath true in
       (if Py.truthy final_path
        then try_except (remove filepath) (λ _, ret ())
        else ret ()) ;;
       ret (Some final_path))
    (λ _, ret None).

Definition process_audio (env : Env) (config : PipelineConfig)
    (filepath : string) : M (option string) :=
  let filename := basename filepath in
  match transcribe env filepath with
  | Raise _ => ret None
  | Ok transcript_text =>
      if negb (Py.truthy transcript_text) then ret None
      else
        let* final_path :=
          _run_ingestion_pipeline env config transcript_text filename
            filepath false in
        (if Py.truthy final_path
         then move filepath (join (paths_archive config) filename)
         else ret ()) ;;
        ret (Some final_path)
  end.

Definition sync_existing_file (env : Env) (config : PipelineConfig)
    (filepath : string) : M unit :=
  let filename := basename filepath in
  try_except
    (let* content := read_file filepath in
     match Py.split_on content "---" with
     | _ :: frontmatter_str :: _ :: _ =>
         match yaml_safe_load env frontmatter_str with
         | LoadError => ret ()
         | LoadOther => raise AttributeError
         | LoadDict fm =>
             let entry_type := default (YStr "journal_entry") (Py.get fm "type") in
             let tags := default (YSeq []) (Py.get fm "tags") in
             let is_focus := default (YBool false) (Py.get fm "focus") in
             let* success :=
               lift (_sync_file env config filepath entry_type tags is_focus) in
             if negb success then
               let target := join (text_input_dir config) filename in
               if negb (String.eqb (normpath env filepath) (normpath env target))
               then copy2 filepath target
               else ret ()
             else ret ()
         end
     | _ => ret ()
     end)
    (λ _, ret ()).

End Pipeline.

(* ===================================================================== *)
(** * [main.py] *)
(* ===================================================================== *)

Module Main.

(** The task types ['audio'], ['text'] and ['sync_update']. *)
Inductive task_type := audio | text | sync_update.

Global Instance task_type_eq_dec : EqDecision task_type.
Proof. solve_decision. Defined.

Definition job : Type := task_type * string.

(** ** DebounceManager *)

Record DebounceManager := {
  delay : Q;
  pending : Py.dict (Q * task_type)
}.

(** [DebounceManager(delay_seconds)] *)
Definition DebounceManager_init (delay_seconds : Q) : DebounceManager :=
  {| delay := delay_seconds; pending := [] |}.

(** [schedule]; [now] is the value of [time.time()]. *)
Definition schedule (now : Q) (self : DebounceManager) (filepath : string)
    (task : task_type) : DebounceManager :=
  {| delay := delay self;
     pending := Py.set (pending self) filepath ((now + delay self)%Q, task) |}.

Definition cancel_task (self : DebounceManager) (filepath : string)
    : DebounceManager :=
  {| delay := delay self;
     pending := if bool_decide (is_Some (Py.get (pending self) filepath))
                then Py.del (pending self) filepath
                else pending self |}.

(** The locked block of [_monitor]: the loop over
    [list(self.pending.items())], threading [to_process] and [pending]. *)
Fixpoint collect_due (now : Q) (items : list (string * (Q * task_type)))
    (to_process : list (string * task_type))
    (pend : Py.dict (Q * task_type))
    : list (string * task_type) * Py.dict (Q * task_type) :=
  match items with
  | [] => (to_process, pend)
  | (filepath, (execute_at, task)) :: items' =>
      if Qle_bool execute_at now
      then collect_due now items' (to_process ++ [(filepath, task)])
             (Py.del pend filepath)
      else collect_due now items' to_process pend
  end.

Definition monitor_collect (now : Q) (self : DebounceManager)
    : list (string * task_type) * DebounceManager :=
  let '(to_process, pend) :=
    collect_due now (pending self) [] (pending self) in
  (to_process, {| delay := delay self; pending := pend |}).

(** One round of the second loop of [_monitor]: the jobs put for an entry of
    [to_process], given the answer of [filepath in processing_files]. *)
Definition monitor_emit (in_flight : bool) (entry : string * task_type)
    : list job :=
  if in_flight then [] else [(entry.2, entry.1)].

(** ** PeriodicScanner *)

(** [f.lower().endswith(('.txt', '.md'))] *)
Definition text_extension (f : string) : bool :=
  Py.endswith (Py.lower f) ".txt" || Py.endswith (Py.lower f) ".md".

(** [f.lower().endswith(('.m4a', '.mp3', '.wav'))] *)
Definition audio_extension (f : string) : bool :=
  Py.endswith (Py.lower f) ".m4a" || Py.endswith (Py.lower f) ".mp3"
  || Py.endswith (Py.lower f) ".wav".

(** The list comprehension of [_scan] over [os.listdir(self.folder)]. *)
Definition scan_candidates (listing : list string) : list string :=
  List.filter text_extension listing.

(** The body of the [for] loop of [_scan] for one file: [in_flight] is the
    answer of [filepath in processing_files], [now] the value of
    [time.time()], [mtime] that of [os.path.getmtime(filepath)], [None]
    when it raises [OSError]. *)
Definition scan_file (folder f : string) (in_flight : bool) (now : Q)
    (mtime : option Q) : list job :=
  let filepath := OS.join folder f in
  if in_flight then []
  else match mtime with
       | None => []
       | Some m => if Qlt_le_dec (now - m) 1 then [] else [(text, filepath)]
       end.

(** What one scanner pass observes of its environment, per file path. *)
Record observation := {
  in_flight : string → bool;
  clock : string → Q;
  getmtime : string → option Q
}.

(** One pass of [_scan] after the sleep: [listing] is [None] when the
    folder does not exist. *)
Definition _scan (folder : string) (listing : option (list string))
    (obs : observation) : list job :=
  match listing with
  | None => []
  | Some names =>
      flat_map
        (λ f, let filepath := OS.join folder f in
              scan_file folder f (in_flight obs filepath) (clock obs filepath)
                (getmtime obs filepath))
        (scan_candidates names)
  end.

(** ** Watchdog handlers *)

Inductive fs_event :=
  | Created (is_directory : bool) (src_path : string)
  | Moved (is_directory : bool) (src_path dest_path : string)
  | Modified (is_directory : bool) (src_path : string).

Definition AudioHandler (event : fs_event) : list job :=
  match event with
  | Created is_directory src_path =>
      if negb is_directory && audio_extension src_path
      then [(audio, src_path)] else []
  | Moved is_directory _ dest_path =>
      if negb is_directory && audio_extension dest_path
      then [(audio, dest_path)] else []
  | Modified _ _ => []
  end.

Definition InputTextHandler (event : fs_event) : list job :=
  match event with
  | Created is_directory src_path =>
      if negb is_directory && text_extension src_path
      then [(text, src_path)] else []
  | Moved is_directory _ dest_path =>
      if negb is_directory && text_extension dest_path
      then [(text, dest_path)] else []
  | Modified _ _ => []
  end.

(** [KnowledgeHandler]: the debouncer after the event. *)
Definition KnowledgeHandler (now : Q) (processing_files : gset string)
    (debouncer : DebounceManager) (event : fs_event) : DebounceManager :=
  match event with
  | Modified is_directory filepath =>
      if negb is_directory then
        if negb (Py.endswith (Py.lower filepath) ".md") then debouncer
        else if bool_decide (filepath ∈ processing_files) then debouncer
        else schedule now debouncer filepath sync_update
      else debouncer
  | _ => debouncer
  end.

(** ** The worker and the threads *)

(** Where a worker thread stands in its loop: blocked in [job_queue.get()],
    holding a job not yet marked, inside the [try] block, inside the
    [finally] block before the release. *)
Inductive stage :=
  | Idle
  | Dequeued (j : job)
  | Running (j : job)
  | Cooldown (j : job).

(** How the [try] block of the worker ends: the file was gone, the
    pipeline call returned ([created_file]), or an exception was raised. *)
Inductive outcome :=
  | Skipped
  | Returned (created_file : option string)
  | Raised (e : OS.exn).

Record State := {
  job_queue : list job;
  processing_files : gset string;
  debouncer : DebounceManager;
  workers : list stage;
  to_process : list (string * task_type);   (* local to [_monitor] *)
  scan_folder : string;                     (* [PeriodicScanner.folder] *)
  scan_files : list string                  (* local to [_scan] *)
}.

Definition set_queue (q : list job) (s : State) : State :=
  {| job_queue := q; processing_files := processing_files s;
     debouncer := debouncer s; workers := workers s;
     to_process := to_process s; scan_folder := scan_folder s;
     scan_files := scan_files s |}.

Definition set_processing (pf : gset string) (s : State) : State :=
  {| job_queue := job_queue s; processing_files := pf;
     debouncer := debouncer s; workers := workers s;
     to_process := to_process s; scan_folder := scan_folder s;
     scan_files := scan_files s |}.

Definition set_debouncer (d : DebounceManager) (s : State) : State :=
  {| job_queue := job_queue s; processing_files := processing_files s;
     debouncer := d; workers := workers s;
     to_process := to_process s; scan_folder := scan_folder s;
     scan_files := scan_files s |}.

Definition set_workers (w : list stage) (s : State) : State :=
  {| job_queue := job_queue s; processing_files := processing_files s;
     debouncer := debouncer s; workers := w;
     to_process := to_process s; scan_folder := scan_folder s;
     scan_files := scan_files s |}.

Definition set_to_process (t : list (string * task_type)) (s : State)
    : State :=
  {| job_queue := job_queue s; processing_files := processing_files s;
     debouncer := debouncer s; workers := workers s;
     to_process := t; scan_folder := scan_folder s;
     scan_files := scan_files s |}.

Definition set_scan_files (fsl : list string) (s : State) : State :=
  {| job_queue := job_queue s; processing_files := processing_files s;
     debouncer := debouncer s; workers := workers s;
     to_process := to_process s; scan_folder := scan_folder s;
     scan_files := fsl |}.

(** [job_queue.put] *)
Definition put (jobs : list job) (s : State) : State :=
  set_queue (job_queue s ++ jobs) s.

(** The atomic actions of the threads.  A lock-protected block is one
    action; the actions of different threads interleave freely. *)
Inductive label :=
  | AudioEvent (event : fs_event)
  | InputTextEvent (event : fs_event)
  | KnowledgeEvent (now : Q) (event : fs_event)
  | MonitorCollect (now : Q)
  | MonitorEmit
  | ScanList (listing : option (list string))
  | ScanFile (now : Q) (mtime : option Q)
  | MainPut (j : job)
  | WorkerGet (i : nat)
  | WorkerMark (i : nat)
  | WorkerFinish (i : nat) (o : outcome)
  | WorkerRelease (i : nat).

(** The [try] block of [worker] over the store: the existence test, the
    dispatch on the task type, and the way the block ends. *)
Definition dispatch (env : Pipeline.Env) (config : PipelineConfig) (j : job)
    : OS.M (option string) :=
  match j.1 with
  | audio => Pipeline.process_audio env config j.2
  | text => Pipeline.process_text_file env config j.2
  | sync_update =>
      OS.bind (Pipeline.sync_existing_file env config j.2) (λ _, OS.ret None)
  end.

Definition try_block (env : Pipeline.Env) (config : PipelineConfig) (j : job)
    (fs : OS.store) : outcome * OS.store :=
  if OS.exists_ j.2 fs then
    match dispatch env config j fs with
    | (OS.Ok created_file, fs') => (Returned created_file, fs')
    | (OS.Raise e, fs') => (Raised e, fs')
    end
  else (Skipped, fs).

(** The end of the [try] block: [debouncer.cancel_task(created_file)] when
    the pipeline returned a path. *)
Definition worker_finish (o : outcome) (d : DebounceManager)
    : DebounceManager :=
  match o with
  | Returned (Some created_file) =>
      if Py.truthy created_file then cancel_task d created_file else d
  | _ => d
  end.

(** [step l s] is the state after action [l], [None] when [l] cannot be
    taken in [s] ([get] on an empty queue blocks; a thread is not at that
    point of its code). *)
Definition step (l : label) (s : State) : option State :=
  match l with
  | AudioEvent event => Some (put (AudioHandler event) s)
  | InputTextEvent event => Some (put (InputTextHandler event) s)
  | KnowledgeEvent now event =>
      Some (set_debouncer
              (KnowledgeHandler now (processing_files s) (debouncer s) event) s)
  | MonitorCollect now =>
      match to_process s with
      | [] =>
          let '(due, d) := monitor_collect now (debouncer s) in
          Some (set_to_process due (set_debouncer d s))
      | _ :: _ => None
      end
  | MonitorEmit =>
      match to_process s with
      | [] => None
      | entry :: rest =>
          Some (put (monitor_emit
                       (bool_decide (entry.1 ∈ processing_files s)) entry)
                  (set_to_process rest s))
      end
  | ScanList listing =>
      match scan_files s with
      | [] => Some (set_scan_files (scan_candidates (default [] listing)) s)
      | _ :: _ => None
      end
  | ScanFile now mtime =>
      match scan_files s with
      | [] => None
      | f :: rest =>
          Some (put (scan_file (scan_folder s) f
                       (bool_decide (OS.join (scan_folder s) f
                                       ∈ processing_files s)) now mtime)
                  (set_scan_files rest s))
      end
  | MainPut j => Some (put [j] s)
  | WorkerGet i =>
      match workers s !! i, job_queue s with
      | Some Idle, j :: q =>
          Some (set_workers (<[i := Dequeued j]> (workers s)) (set_queue q s))
      | _, _ => None
      end
  | WorkerMark i =>
      match workers s !! i with
      | Some (Dequeued j) =>
          Some (set_workers (<[i := Running j]> (workers s))
                  (set_processing ({[ j.2 ]} ∪ processing_files s) s))
      | _ => None
      end
  | WorkerFinish i o =>
      match workers s !! i with
      | Some (Running j) =>
          Some (set_workers (<[i := Cooldown j]> (workers s))
                  (set_debouncer (worker_finish o (debouncer s)) s))
      | _ => None
      end
  | WorkerRelease i =>
      match workers s !! i with
      | Some (Cooldown j) =>
          Some (set_workers (<[i := Idle]> (workers s))
                  (set_processing (processing_files s ∖ {[ j.2 ]}) s))
      | _ => None
      end
  end.

(** The state [main] builds: one worker thread runs, nothing is in flight,
    the queue is empty and the debouncer ([delay_seconds=15]) has no entry.
    The jobs of the initial scan are put by [MainPut] actions. *)
Definition initial (batch : string) : State :=
  {| job_queue := [];
     processing_files := ∅;
     debouncer := DebounceManager_init 15;
     workers := [Idle];
     to_process := [];
     scan_folder := batch;
     scan_files := [] |}.

(** The states of the executions of [main]. *)
Inductive reachable (batch : string) : State → Prop :=
  | reachable_initial : reachable batch (initial batch)
  | reachable_step s l s' :
      reachable batch s →
      step l s = Some s' →
      reachable batch s'.

(** The jobs a worker is executing a pipeline pass for. *)
Definition passes (s : State) : list job :=
  omap (λ w, match w with Running j => Some j | _ => None end) (workers s).

(** ** Traces of the debounce manager

    The calls a debounce manager receives over time: [schedule], 
    [cancel_task], and the ticks of [_monitor], each with the clock value it
    reads and with the answers of [filepath in processing_files]. *)
Inductive call :=
  | Schedule (now : Q) (filepath : string) (task : task_type)
  | Cancel (filepath : string)
  | Tick (now : Q) (in_flight : string → bool).

(** A whole tick of [_monitor]: the jobs put and the manager afterwards. *)
Definition _monitor (now : Q) (in_flight : string → bool)
    (self : DebounceManager) : list job * DebounceManager :=
  let '(due, self') := monitor_collect now self in
  (flat_map (λ entry, monitor_emit (in_flight entry.1) entry) due, self').

Definition call_step (c : call) (st : DebounceManager * list job)
    : DebounceManager * list job :=
  match c with
  | Schedule now filepath task => (schedule now st.1 filepath task, st.2)
  | Cancel filepath => (cancel_task st.1 filepath, st.2)
  | Tick now in_flight =>
      let '(jobs, self') := _monitor now in_flight st.1 in
      (self', st.2 ++ jobs)
  end.

(** The manager and the queue after a trace, oldest call first. *)
Definition run (trace : list call) (st : DebounceManager * list job)
    : DebounceManager * list job :=
  foldl (λ st c, call_step c st) st trace.

(** [burst self_delay p t k trace]: [trace] is a burst of schedule calls for
    [p], the last at time [t] with task [k]; every tick inside the burst
    comes before the fire time of the entry then pending for [p], and no
    call cancels [p]. Calls for other paths are free. *)
Inductive burst (d : Q) (p : string) : Q → task_type → list call → Prop :=
  | burst_first t k :
      burst d p t k [Schedule t p k]
  | burst_again t k trace t' k' :
      burst d p t k trace →
      burst d p t' k' (trace ++ [Schedule t' p k'])
  | burst_tick t k trace now in_flight :
      burst d p t k trace →
      (now < t + d)%Q →
      burst d p t k (trace ++ [Tick now in_flight])
  | burst_other_schedule t k trace t' q k' :
      burst d p t k trace →
      q ≠ p →
      burst d p t k (trace ++ [Schedule t' q k'])
  | burst_other_cancel t k trace q :
      burst d p t k trace →
      q ≠ p →
      burst d p t k (trace ++ [Cancel q]).

(** The jobs of a queue for a path. *)
Definition jobs_for (p : string) (q : list job) : list job :=
  List.filter (λ j : job, bool_decide (j.2 = p)) q.

(** The entries [_monitor] collects at time [now], and those it leaves. *)
Definition is_due (now : Q) (entry : string * (Q * task_type)) : bool :=
  Qle_bool entry.2.1 now.

Definition due_of (now : Q) (pend : Py.dict (Q * task_type))
    : list (string * task_type) :=
  (λ entry, (entry.1, entry.2.2)) <$> List.filter (is_due now) pend.

Definition keep_of (now : Q) (pend : Py.dict (Q * task_type))
    : Py.dict (Q * task_type) :=
  List.filter (λ entry, negb (is_due now entry)) pend.

(** Executions: the state after a list of actions, oldest first. *)
Fixpoint steps (ls : list label) (s : State) : option State :=
  match ls with
  | [] => Some s
  | l :: ls' =>
      match step l s with
      | Some s' => steps ls' s'
      | None => None
      end
  end.

(** The actions of one scanner pass and of one monitor tick when no other
    thread runs in between. *)
Definition scan_labels (folder : string) (names : list string)
    (obs : observation) : list label :=
  ScanList (Some names)
    :: ((λ f, ScanFile (clock obs (OS.join folder f))
                (getmtime obs (OS.join folder f)))
          <$> scan_candidates names).

Definition monitor_labels (now : Q) (self : DebounceManager) : list label :=
  MonitorCollect now
    :: replicate (length (monitor_collect now self).1) MonitorEmit.

(** The worker thread an action belongs to. *)
Definition worker_of (l : label) : option nat :=
  match l with
  | WorkerGet i | WorkerMark i | WorkerFinish i _ | WorkerRelease i => Some i
  | _ => None
  end.

(** The jobs of the workers that hold a path in the in-flight set: those
    inside the [try] block or the [finally] block. *)
Definition holds (s : State) (i : nat) (j : job) : Prop :=
  workers s !! i = Some (Running j) ∨ workers s !! i = Some (Cooldown j).

(** The invariant of the executions of [main]: one worker thread, and the
    path of the job it holds is in flight. *)
Definition invariant (s : State) : Prop :=
  length (workers s) = 1 ∧
  ∀ i j, holds s i j → j.2 ∈ processing_files s.

(** A variant of [main] that would start two worker threads. *)
Definition initial_two_workers (batch : string) : State :=
  {| job_queue := [];
     processing_files := ∅;
     debouncer := DebounceManager_init 15;
     workers := [Idle; Idle];
     to_process := [];
     scan_folder := batch;
     scan_files := [] |}.

End Main.

(* ===================================================================== *)
(** * Concrete configurations and collaborators *)
(* ===================================================================== *)

Module Scenarios.

Definition journal : type_data :=
  {| is_default := true; detection_keywords := ["Journal"; "diary"];
     enable_analysis := false; target_subfolder := Some "Journal";
     collection_id := None; type_name := None;
     system_prompt := ""; user_prompt := "" |}.

Definition meeting : type_data :=
  {| is_default := false; detection_keywords := ["meeting"; "Diary"];
     enable_analysis := true; target_subfolder := Some "Meetings";
     collection_id := None; type_name := None;
     system_prompt := ""; user_prompt := "" |}.

Definition idea : type_data :=
  {| is_default := false; detection_keywords := [];
     enable_analysis := false; target_subfolder := None;
     collection_id := None; type_name := None;
     system_prompt := ""; user_prompt := "" |}.

Definition config_of (types : Py.dict type_data) : PipelineConfig :=
  {| content_types := types; paths_base := "/vault";
     paths_output := "/vault/KNOWLEDGE"; paths_archive := "/vault/ARCHIVE";
     paths_batch := "/vault/_INPUT_TEXT"; focus_mode_id := None;
     metadata_system := ""; metadata_user := "" |}.

(** A vault with the two content types [journal] (the default) and
    [meeting]. *)
Definition vault : PipelineConfig :=
  config_of [("journal", journal); ("meeting", meeting)].

(** What [extract_metadata_from_text] returns for a text without tag, date
    or time tokens, starting with a capital letter, in a file created on
    2025-01-01 whose name holds no time stamp. *)
Definition plain_metadata (text source_path : string) : Pipeline.metadata :=
  {| Pipeline.date := "2025-01-01"; Pipeline.time := "unknown";
     Pipeline.clean_text := text; Pipeline.spoken_tags := [] |}.

(** A block-style YAML writer and a reader for the front-matter blocks of
    the scenarios. *)
Definition yaml_value (v : Pipeline.yval) : string :=
  match v with
  | Pipeline.YNull => "null"
  | Pipeline.YBool true => "true"
  | Pipeline.YBool false => "false"
  | Pipeline.YStr s => s
  | Pipeline.YSeq l => "[" +:+ Py.join ", " l +:+ "]"
  end.

Definition dump (fm : Py.dict Pipeline.yval) : string :=
  Py.join "" ((λ kv, kv.1 +:+ ": " +:+ yaml_value kv.2 +:+ Py.nl) <$> fm).

Definition untitled_frontmatter : Py.dict Pipeline.yval :=
  [ ("title", Pipeline.YStr "Untitled");
    ("date", Pipeline.YStr "2025-01-01");
    ("type", Pipeline.YStr "Journal") ].

Definition load (s : string) : Pipeline.loaded :=
  if String.eqb s (Py.nl +:+ dump untitled_frontmatter)
  then Pipeline.LoadDict untitled_frontmatter
  else Pipeline.LoadError.

(** The enrichment service is down: no chat answer, no upload, and the
    health check fails. *)
Definition llm_down : Pipeline.Env :=
  {| Pipeline.chat_completion := λ _ _, "";
     Pipeline.check_health := false;
     Pipeline.upload_file := λ _ _, None;
     Pipeline.link_to_collection := λ _ _, false;
     Pipeline.transcribe := λ _, OS.Ok "Hello world";
     Pipeline.yaml_safe_load := load;
     Pipeline.yaml_dump := dump;
     Pipeline.json_loads := λ _, None;
     Pipeline.extract_metadata_from_text := plain_metadata;
     Pipeline.repr_list := λ l, "[" +:+ Py.join ", " l +:+ "]";
     Pipeline.normpath := λ p, p;
     Pipeline.isdir := λ _, false |}.

(** The service is reachable and stores files, but the model gives no
    usable answer. *)
Definition llm_mute : Pipeline.Env :=
  {| Pipeline.chat_completion := λ _ _, "";
     Pipeline.check_health := true;
     Pipeline.upload_file := λ _ _, Some "file-1";
     Pipeline.link_to_collection := λ _ _, true;
     Pipeline.transcribe := λ _, OS.Ok "Hello world";
     Pipeline.yaml_safe_load := load;
     Pipeline.yaml_dump := dump;
     Pipeline.json_loads := λ _, None;
     Pipeline.extract_metadata_from_text := plain_metadata;
     Pipeline.repr_list := λ l, "[" +:+ Py.join ", " l +:+ "]";
     Pipeline.normpath := λ p, p;
     Pipeline.isdir := λ _, false |}.

(** The model answers with a title, but every upload fails. *)
Definition sync_down : Pipeline.Env :=
  {| Pipeline.chat_completion := λ _ _, "{title: A greeting}";
     Pipeline.check_health := true;
     Pipeline.upload_file := λ _ _, None;
     Pipeline.link_to_collection := λ _ _, false;
     Pipeline.transcribe := λ _, OS.Ok "Hello world";
     Pipeline.yaml_safe_load := load;
     Pipeline.yaml_dump := dump;
     Pipeline.json_loads := λ _,
       Some {| Pipeline.j_title := Some "A greeting";
               Pipeline.j_language := None; Pipeline.j_emotions := None;
               Pipeline.j_characters := None; Pipeline.j_summary := None |};
     Pipeline.extract_metadata_from_text := plain_metadata;
     Pipeline.repr_list := λ l, "[" +:+ Py.join ", " l +:+ "]";
     Pipeline.normpath := λ p, p;
     Pipeline.isdir := λ _, false |}.

Definition note_txt : string := "/vault/_INPUT_TEXT/note.txt".
Definition memo_m4a : string := "/vault/INPUT/memo.m4a".
Definition journal_1 : string :=
  "/vault/KNOWLEDGE/Journal/2025-01-01-journal-1.md".
Definition journal_2 : string :=
  "/vault/KNOWLEDGE/Journal/2025-01-01-journal-2.md".
Definition journal_3 : string :=
  "/vault/KNOWLEDGE/Journal/2025-01-01-journal-3.md".

Definition note_input (text : string) : Pipeline.ingestion_input :=
  {| Pipeline.in_text := text;
     Pipeline.in_original_filename := "note.txt";
     Pipeline.in_source_path := note_txt;
     Pipeline.in_is_text_file := true |}.

(** A persisted but untitled document waiting in the retry root. *)
Definition untitled_md : string := "/vault/_INPUT_TEXT/2025-01-01-journal-1.md".

Definition untitled_content : string :=
  Pipeline.render llm_down untitled_frontmatter "Hello world" "".

(** The state of [main] after a note was queued, dequeued and marked. *)
Definition note_job : Main.job := (Main.text, note_txt).

Definition note_dequeued : Main.State :=
  {| Main.job_queue := [];
     Main.processing_files := ∅;
     Main.debouncer := Main.DebounceManager_init 15;
     Main.workers := [Main.Dequeued note_job];
     Main.to_process := [];
     Main.scan_folder := "/vault/_INPUT_TEXT";
     Main.scan_files := [] |}.

Definition note_running : Main.State :=
  {| Main.job_queue := [];
     Main.processing_files := {[ note_txt ]} ∪ ∅;
     Main.debouncer := Main.DebounceManager_init 15;
     Main.workers := [Main.Running note_job];
     Main.to_process := [];
     Main.scan_folder := "/vault/_INPUT_TEXT";
     Main.scan_files := [] |}.

(** What a scanner pass sees at time 100: nothing in flight, a file last
    written at 40 and the others half a second ago. *)
Definition settled : Main.observation :=
  {| Main.in_flight := λ _, false; Main.clock := λ _, 100%Q;
     Main.getmtime := λ p, if String.eqb p "/vault/_INPUT_TEXT/old.md"
                      then Some 40%Q else Some (995 # 10)%Q |}.

End Scenarios.

(* ===================================================================== *)
(** * [src/utils/text_tools.py]: the date of a file name *)
(* ===================================================================== *)

Module FilenameDate.

(** [\d] on the ASCII range. *)
Definition isdigit (c : ascii) : bool :=
  let n := Ascii.nat_of_ascii c in
  (48 <=? n) && (n <=? 57).

(** The groups [(year, month, day, hour, minute)] of a match. *)
Definition groups : Type :=
  list ascii * list ascii * list ascii * list ascii * list ascii.

(** A match of [(\d{w})(\d{2})(\d{2})_(\d{2})(\d{2})\d{2}] at the head
    of [l]. *)
Definition match_here (w : nat) (l : list ascii) : option groups :=
  let year := take w l in
  let month := take 2 (drop w l) in
  let day := take 2 (drop (w + 2) l) in
  let sep := take 1 (drop (w + 4) l) in
  let hour := take 2 (drop (w + 5) l) in
  let minute := take 2 (drop (w + 7) l) in
  let second := take 2 (drop (w + 9) l) in
  if (w + 11 <=? length l)
     && forallb isdigit (year ++ month ++ day)
     && bool_decide (sep = ["_"%char])
     && forallb isdigit (hour ++ minute ++ second)
  then Some (year, month, day, hour, minute)
  else None.

(** [re.search]: the match at the leftmost position that has one. *)
Fixpoint search (w : nat) (l : list ascii) : option groups :=
  match match_here w l with
  | Some g => Some g
  | None =>
      match l with
      | [] => None
      | _ :: l' => search w l'
      end
  end.

Definition _get_date_from_filename (filepath : string)
    : option string * option string :=
  let filename := OS.basename filepath in
  match search 2 (Py.chars filename) with
  | Some (year, month, day, hour, minute) =>
      (Some ("20" +:+ Py.str year +:+ "-" +:+ Py.str month +:+ "-"
               +:+ Py.str day),
       Some (Py.str hour +:+ ":" +:+ Py.str minute))
  | None =>
      match search 4 (Py.chars filename) with
      | Some (year, month, day, hour, minute) =>
          (Some (Py.str year +:+ "-" +:+ Py.str month +:+ "-" +:+ Py.str day),
           Some (Py.str hour +:+ ":" +:+ Py.str minute))
      | None => (None, None)
      end
  end.

End FilenameDate.

(* ===================================================================== *)
(** * [src/config_loader.py]: path normalization *)
(* ===================================================================== *)

Module ConfigLoader.

(** What [load_config] reads from [settings.yaml]: the [paths] mapping,
    whose values are strings or null and whose [base] is a string when it
    is present, and the sections the pipeline uses. *)
Record settings := {
  paths : Py.dict (option string);
  s_content_types : Py.dict type_data;
  s_focus_mode_id : option string;
  s_metadata_system : string;
  s_metadata_user : string
}.

(** [paths.get("base", "")] *)
Definition base_of (paths : Py.dict (option string)) : string :=
  match Py.get paths "base" with
  | Some (Some b) => b
  | _ => ""
  end.

(** [paths.get(key)] as the truthiness tests of [resolve] see it: a missing
    key, null and the empty string are all falsy. *)
Definition raw_of (paths : Py.dict (option string)) (key : string)
    : option string :=
  match Py.get paths key with
  | Some (Some v) => if Py.truthy v then Some v else None
  | _ => None
  end.

(** [os.path.isabs] *)
Definition isabs (p : string) : bool := Py.startswith p "/".

(** [s.upper()] *)
Definition upper (s : string) : string :=
  Py.str (Py.upper_char <$> Py.chars s).

(** The nested function [resolve] of [load_config]. *)
Definition resolve (paths : Py.dict (option string)) (p_name : string)
    (fallback_key : option string) : string :=
  let base := base_of paths in
  let raw := raw_of paths p_name in
  let raw :=
    match raw, fallback_key with
    | None, Some fk => if Py.truthy fk then raw_of paths fk else None
    | _, _ => raw
    end in
  match raw with
  | None =>
      if String.eqb p_name "input_text_folder"
      then OS.join base "_INPUT_TEXT"
      else OS.join base (upper p_name)
  | Some r =>
      if Py.truthy base && negb (isabs r) then OS.join base r else r
  end.

(** [normalized_paths["input"]] *)
Definition input_of (paths : Py.dict (option string)) : string :=
  resolve paths "input_folder" None.

(** The paths and sections of the object [load_config] constructs. *)
Definition load_config (y : settings) : PipelineConfig :=
  {| content_types := s_content_types y;
     paths_base := base_of (paths y);
     paths_output := resolve (paths y) "knowledge_folder" None;
     paths_archive := resolve (paths y) "archive_folder" None;
     paths_batch :=
       resolve (paths y) "input_text_folder" (Some "batch_sync_folder");
     focus_mode_id := s_focus_mode_id y;
     metadata_system := s_metadata_system y;
     metadata_user := s_metadata_user y |}.

End ConfigLoader.

(* ===================================================================== *)
(** * Further collaborators and configurations *)
(* ===================================================================== *)

Module Fixtures.
Import Scenarios.

(** The transcriber fails on every recording. *)
Definition deaf : Pipeline.Env :=
  {| Pipeline.chat_completion := λ _ _, "";
     Pipeline.check_health := true;
     Pipeline.upload_file := λ _ _, Some "file-1";
     Pipeline.link_to_collection := λ _ _, true;
     Pipeline.transcribe := λ _, OS.Raise OS.FileNotFoundError;
     Pipeline.yaml_safe_load := load;
     Pipeline.yaml_dump := dump;
     Pipeline.json_loads := λ _, None;
     Pipeline.extract_metadata_from_text := plain_metadata;
     Pipeline.repr_list := λ l, "[" +:+ Py.join ", " l +:+ "]";
     Pipeline.normpath := λ p, p;
     Pipeline.isdir := λ _, false |}.

(** A titled document whose sync failed, waiting in the retry root. *)
Definition titled_frontmatter : Py.dict Pipeline.yval :=
  [ ("title", Pipeline.YStr "A greeting");
    ("date", Pipeline.YStr "2025-01-01");
    ("type", Pipeline.YStr "Journal");
    ("tags", Pipeline.YSeq []) ].

Definition titled_content : string :=
  Pipeline.render llm_down titled_frontmatter "Hello world" "".

Definition load_titled (s : string) : Pipeline.loaded :=
  if String.eqb s (Py.nl +:+ dump titled_frontmatter)
  then Pipeline.LoadDict titled_frontmatter
  else load s.

(** The service is back: the model answers with a title and uploads
    succeed. *)
Definition online : Pipeline.Env :=
  {| Pipeline.chat_completion := λ _ _, "{title: A greeting}";
     Pipeline.check_health := true;
     Pipeline.upload_file := λ _ _, Some "file-1";
     Pipeline.link_to_collection := λ _ _, true;
     Pipeline.transcribe := λ _, OS.Ok "Hello world";
     Pipeline.yaml_safe_load := load_titled;
     Pipeline.yaml_dump := dump;
     Pipeline.json_loads := λ _,
       Some {| Pipeline.j_title := Some "A greeting";
               Pipeline.j_language := None; Pipeline.j_emotions := None;
               Pipeline.j_characters := None; Pipeline.j_summary := None |};
     Pipeline.extract_metadata_from_text := plain_metadata;
     Pipeline.repr_list := λ l, "[" +:+ Py.join ", " l +:+ "]";
     Pipeline.normpath := λ p, p;
     Pipeline.isdir := λ _, false |}.

Definition diary_1 : string :=
  "/vault/KNOWLEDGE/Personal Diary/2025-01-01-journal-1.md".

(** Settings of an installation that still names the retry root by its
    former key. *)
Definition legacy_settings : ConfigLoader.settings :=
  {| ConfigLoader.paths :=
       [("base", Some "/vault"); ("knowledge_folder", Some "KNOWLEDGE");
        ("archive_folder", Some "/srv/archive"); ("input_folder", None);
        ("batch_sync_folder", Some "_BATCH_SYNC")];
     ConfigLoader.s_content_types := [("journal", journal)];
     ConfigLoader.s_focus_mode_id := None;
     ConfigLoader.s_metadata_system := "";
     ConfigLoader.s_metadata_user := "" |}.

(** A text of 500 characters without a keyword. *)
Definition filler : string := Py.str (replicate 500 "x"%char).

(** A document whose front-matter gives a list as its type, and
    collaborators that read it: the service is reachable and stores files,
    but the model gives no usable answer. *)
Definition listed_frontmatter : Py.dict Pipeline.yval :=
  [ ("title", Pipeline.YStr "Untitled");
    ("date", Pipeline.YStr "2025-01-01");
    ("type", Pipeline.YSeq ["Journal"; "Idea"]) ].

Definition load_listed (s : string) : Pipeline.loaded :=
  if String.eqb s (Py.nl +:+ dump listed_frontmatter)
  then Pipeline.LoadDict listed_frontmatter
  else load s.

Definition mute_listed : Pipeline.Env :=
  {| Pipeline.chat_completion := λ _ _, "";
     Pipeline.check_health := true;
     Pipeline.upload_file := λ _ _, Some "file-1";
     Pipeline.link_to_collection := λ _ _, true;
     Pipeline.transcribe := λ _, OS.Ok "Hello world";
     Pipeline.yaml_safe_load := load_listed;
     Pipeline.yaml_dump := dump;
     Pipeline.json_loads := λ _, None;
     Pipeline.extract_metadata_from_text := plain_metadata;
     Pipeline.repr_list := λ l, "[" +:+ Py.join ", " l +:+ "]";
     Pipeline.normpath := λ p, p;
     Pipeline.isdir := λ _, false |}.

(** The collaborators [env] on a disk where exactly the folders [dirs]
    exist. *)
Definition with_folders (dirs : list string) (env : Pipeline.Env)
    : Pipeline.Env :=
  {| Pipeline.chat_completion := Pipeline.chat_completion env;
     Pipeline.check_health := Pipeline.check_health env;
     Pipeline.upload_file := Pipeline.upload_file env;
     Pipeline.link_to_collection := Pipeline.link_to_collection env;
     Pipeline.transcribe := Pipeline.transcribe env;
     Pipeline.yaml_safe_load := Pipeline.yaml_safe_load env;
     Pipeline.yaml_dump := Pipeline.yaml_dump env;
     Pipeline.json_loads := Pipeline.json_loads env;
     Pipeline.extract_metadata_from_text :=
       Pipeline.extract_metadata_from_text env;
     Pipeline.repr_list := Pipeline.repr_list env;
     Pipeline.normpath := Pipeline.normpath env;
     Pipeline.isdir := λ d, bool_decide (d ∈ dirs) |}.

(** The default subfolder of the knowledge folder, and a document filed
    there earlier. *)
Definition diary_dir : string := "/vault/KNOWLEDGE/Personal Diary".
Definition older_md : string :=
  "/vault/KNOWLEDGE/Personal Diary/2024-12-31-journal-1.md".

(** The configuration with its content types forgotten. *)
Definition without_types (config : PipelineConfig) : PipelineConfig :=
  {| content_types := [];
     paths_base := paths_base config;
     paths_output := paths_output config;
     paths_archive := paths_archive config;
     paths_batch := paths_batch config;
     focus_mode_id := focus_mode_id config;
     metadata_system := metadata_system config;
     metadata_user := metadata_user config |}.

End Fixtures.

(* ===================================================================== *)
(** * Facts about the builtins *)
(* ===================================================================== *)

Module PyFacts.
Import Py.

Lemma str_chars s : str (chars s) = s.
Proof. apply String.string_of_list_ascii_of_string. Qed.

Lemma chars_str l : chars (str l) = l.
Proof. apply String.list_ascii_of_string_of_list_ascii. Qed.

Lemma chars_app s1 s2 : chars (s1 +:+ s2) = chars s1 ++ chars s2.
Proof. induction s1 as [|c s1 IH]; simpl; [done|]. by rewrite <- IH. Qed.

Lemma chars_inj s1 s2 : chars s1 = chars s2 → s1 = s2.
Proof. intros H. by rewrite <- (str_chars s1), <- (str_chars s2), H. Qed.

Lemma str_app_assoc s1 s2 s3 : (s1 +:+ s2) +:+ s3 = s1 +:+ s2 +:+ s3.
Proof. apply chars_inj. by rewrite !chars_app, app_assoc. Qed.

Lemma str_app_inv_tail s1 s2 t : s1 +:+ t = s2 +:+ t → s1 = s2.
Proof.
  intros H. apply chars_inj.
  apply (f_equal chars) in H. rewrite !chars_app in H.
  by apply app_inv_tail in H.
Qed.

Lemma truthy_spec s : truthy s = true ↔ s ≠ "".
Proof.
  unfold truthy. destruct (String.eqb_spec s ""); simpl; split; try done.
Qed.

Lemma dropwhile_keeps_last {A} (p : A → bool) l c :
  p c = false → c ∈ dropwhile p (l ++ [c]).
Proof.
  intros Hc. induction l as [|x l IH]; simpl.
  - rewrite Hc. set_solver.
  - destruct (p x); [done|]. set_solver.
Qed.

Lemma dropwhile_head {A} (p : A → bool) l :
  dropwhile p l = [] ∨ ∃ c l', dropwhile p l = c :: l' ∧ p c = false.
Proof.
  induction l as [|x l IH]; simpl; [by left|].
  destruct (p x) eqn:E; [done|]. right. eauto.
Qed.

(** A stripped string that is not empty holds a character that is not a
    blank. *)
Lemma strip_not_blank s :
  strip s ≠ "" → forallb isspace (chars (strip s)) = false.
Proof.
  unfold strip, rstrip_chars, lstrip_chars. rewrite chars_str.
  destruct (dropwhile_head isspace (chars s)) as [->|(c & l' & -> & Hc)].
  { simpl. done. }
  intros _. simpl rev.
  pose proof (dropwhile_keeps_last isspace (rev l') c Hc) as Hin.
  apply not_true_is_false. intros Hall.
  rewrite forallb_forall in Hall.
  specialize (Hall c). rewrite Hall in Hc; [done|].
  apply in_rev. rewrite rev_involutive. by apply list_elem_of_In.
Qed.

(** ** Dictionaries *)

Lemma get_set_eq {V} (d : dict V) k v : get (set d k v) k = Some v.
Proof.
  induction d as [|[k' v'] d IH]; simpl.
  - by rewrite decide_True.
  - destruct (decide (k' = k)) as [->|Hne]; simpl.
    + by rewrite decide_True.
    + by rewrite decide_False.
Qed.

Lemma get_set_ne {V} (d : dict V) k k' v :
  k ≠ k' → get (set d k v) k' = get d k'.
Proof.
  intros Hne. induction d as [|[k0 v0] d IH]; simpl.
  - by rewrite decide_False.
  - destruct (decide (k0 = k)) as [->|Hne0]; simpl.
    + by rewrite !decide_False.
    + by rewrite IH.
Qed.

Lemma keys_set {V} (d : dict V) k v :
  keys (set d k v) = if bool_decide (k ∈ keys d) then keys d else keys d ++ [k].
Proof.
  unfold keys. induction d as [|[k0 v0] d IH]; csimpl; [done|].
  destruct (decide (k0 = k)) as [->|Hne]; csimpl.
  - rewrite bool_decide_true by set_solver. done.
  - rewrite IH. destruct (bool_decide (k ∈ d.*1)) eqn:E.
    + apply bool_decide_eq_true in E. rewrite bool_decide_true by set_solver. done.
    + apply bool_decide_eq_false in E. rewrite bool_decide_false by set_solver. done.
Qed.

Lemma wf_set {V} (d : dict V) k v : wf d → wf (set d k v).
Proof.
  unfold wf. rewrite keys_set. intros Hnd.
  destruct (bool_decide (k ∈ keys d)) eqn:E; [done|].
  apply bool_decide_eq_false in E.
  apply NoDup_app. split_and!; [done| |apply NoDup_singleton].
  intros x Hx Hx'. apply list_elem_of_singleton in Hx'. by subst.
Qed.

Lemma keys_del_subseteq {V} (d : dict V) k : keys (del d k) ⊆ keys d.
Proof.
  unfold keys. induction d as [|[k0 v0] d IH]; csimpl; [done|].
  destruct (decide (k0 = k)); csimpl; set_solver.
Qed.

Lemma wf_del {V} (d : dict V) k : wf d → wf (del d k).
Proof.
  unfold wf, keys. induction d as [|[k0 v0] d IH]; csimpl; [done|].
  intros [Hnotin Hnd]%NoDup_cons.
  destruct (decide (k0 = k)); csimpl; [done|].
  apply NoDup_cons. split; [|by apply IH].
  intros Hin. apply Hnotin. by apply (keys_del_subseteq d k).
Qed.

Lemma get_None_keys {V} (d : dict V) k : get d k = None ↔ k ∉ keys d.
Proof.
  unfold keys. induction d as [|[k0 v0] d IH]; csimpl.
  - split; [set_solver|done].
  - destruct (decide (k0 = k)) as [->|Hne].
    + split; [done|set_solver].
    + rewrite IH. set_solver.
Qed.

Lemma get_del_eq {V} (d : dict V) k : wf d → get (del d k) k = None.
Proof.
  unfold wf, keys. induction d as [|[k0 v0] d IH]; csimpl; [done|].
  intros [Hnotin Hnd]%NoDup_cons.
  destruct (decide (k0 = k)) as [->|Hne]; csimpl.
  - by apply get_None_keys.
  - rewrite decide_False by done. by apply IH.
Qed.

Lemma get_del_ne {V} (d : dict V) k k' :
  k ≠ k' → get (del d k) k' = get d k'.
Proof.
  intros Hne. induction d as [|[k0 v0] d IH]; simpl; [done|].
  destruct (decide (k0 = k)) as [->|Hne0]; simpl.
  - by rewrite decide_False.
  - by rewrite IH.
Qed.

Lemma get_Some_elem {V} (d : dict V) k v : get d k = Some v → (k, v) ∈ d.
Proof.
  induction d as [|[k0 v0] d IH]; simpl; [done|].
  destruct (decide (k0 = k)) as [->|Hne].
  - intros [= ->]. set_solver.
  - intros H. apply IH in H. set_solver.
Qed.

Lemma elem_get_Some {V} (d : dict V) k v : wf d → (k, v) ∈ d → get d k = Some v.
Proof.
  unfold wf, keys. induction d as [|[k0 v0] d IH]; csimpl.
  - intros _ H. by apply not_elem_of_nil in H.
  - intros [Hnotin Hnd]%NoDup_cons Hin.
    apply elem_of_cons in Hin as [[= -> ->]|Hin].
    + by rewrite decide_True.
    + destruct (decide (k0 = k)) as [->|Hne]; [|by apply IH].
      exfalso. apply Hnotin. apply list_elem_of_fmap. by exists (k, v).
Qed.

End PyFacts.

(* ===================================================================== *)
(** * Classification and tags ([text_tools.py]) *)
(* ===================================================================== *)

Module TextToolsSpec.
Import TextTools Scenarios.

Lemma content_type_loop_first_match intro pre k td post d0 :
  Forall (λ e, keywords_match intro e.2 = false) pre →
  keywords_match intro td = true →
  content_type_loop intro (pre ++ (k, td) :: post) d0 = inl k.
Proof.
  intros Hpre Hm. revert d0.
  induction Hpre as [|[k' td'] pre Hk' _ IH]; intros d0; simpl.
  - by rewrite Hm.
  - simpl in Hk'. rewrite Hk'. apply IH.
Qed.

Lemma content_type_loop_no_default intro items d0 :
  Forall (λ e, keywords_match intro e.2 = false) items →
  Forall (λ e, is_default e.2 = false) items →
  content_type_loop intro items d0 = inr d0.
Proof.
  intros Hm Hd. revert d0.
  induction items as [|[k td] items IH]; intros d0; simpl; [done|].
  apply Forall_cons in Hm as [Hm1 Hm]. apply Forall_cons in Hd as [Hd1 Hd].
  simpl in *. rewrite Hm1, Hd1. by apply IH.
Qed.

Lemma content_type_loop_last_default intro pre k td post d0 :
  Forall (λ e, keywords_match intro e.2 = false) (pre ++ (k, td) :: post) →
  is_default td = true →
  Forall (λ e, is_default e.2 = false) post →
  content_type_loop intro (pre ++ (k, td) :: post) d0 = inr (Some k).
Proof.
  intros Hm Hd Hpost. revert d0.
  induction pre as [|[k' td'] pre IH]; intros d0; simpl in *.
  - apply Forall_cons in Hm as [Hm1 Hm]. simpl in Hm1.
    rewrite Hm1, Hd. by apply content_type_loop_no_default.
  - apply Forall_cons in Hm as [Hm1 Hm]. simpl in Hm1.
    rewrite Hm1. by apply IH.
Qed.

(** C6 (as amended).  Classification returns the first content type, in the
    order of the configuration, one of whose keywords occurs in the
    lower-cased leading excerpt; when no type matches, the last type marked
    default (its key not being the empty string); when no type matches and
    none is marked default, the first key of the configuration, or the
    literal "unknown" for an empty configuration. *)
Theorem determine_content_type_spec (config : PipelineConfig) (text : string) :
  let items := content_types config in
  let intro := intro_text_of text in
  (∀ pre k td post,
      items = pre ++ (k, td) :: post →
      Forall (λ e, keywords_match intro e.2 = false) pre →
      keywords_match intro td = true →
      determine_content_type config text = k) ∧
  (∀ pre k td post,
      items = pre ++ (k, td) :: post →
      Forall (λ e, keywords_match intro e.2 = false) items →
      is_default td = true →
      Forall (λ e, is_default e.2 = false) post →
      k ≠ "" →
      determine_content_type config text = k) ∧
  (Forall (λ e, keywords_match intro e.2 = false) items →
   Forall (λ e, is_default e.2 = false) items →
   determine_content_type config text = first_key_or_unknown config).
Proof.
  intros items intro. unfold determine_content_type. fold intro. fold items.
  split_and!.
  - intros pre k td post -> Hpre Hm.
    by rewrite (content_type_loop_first_match intro pre k td post None).
  - intros pre k td post Hitems Hm Hd Hpost Hk. rewrite Hitems in Hm |- *.
    rewrite (content_type_loop_last_default intro pre k td post None) by done.
    apply PyFacts.truthy_spec in Hk. by rewrite Hk.
  - intros Hm Hd. by rewrite content_type_loop_no_default.
Qed.

Example classify_tie_break :
  determine_content_type
    (config_of [("meeting", meeting); ("journal", journal)])
    "Dear DIARY,  today" = "meeting".
Proof. reflexivity. Qed.

Lemma determine_content_type_spec_witness :
  determine_content_type
    (config_of [("idea", idea); ("meeting", meeting); ("journal", journal)])
    "Dear DIARY,  today" = "meeting" ∧
  determine_content_type
    (config_of [("idea", idea); ("journal", journal); ("meeting", meeting)])
    "nothing special" = "journal" ∧
  determine_content_type
    (config_of [("idea", idea); ("meeting", meeting)])
    "nothing special" = "idea".
Proof.
  split_and!.
  - apply (proj1 (determine_content_type_spec
             (config_of [("idea", idea); ("meeting", meeting); ("journal", journal)])
             "Dear DIARY,  today")
             [("idea", idea)] "meeting" meeting [("journal", journal)]).
    + reflexivity.
    + repeat constructor.
    + reflexivity.
  - apply (proj1 (proj2 (determine_content_type_spec
             (config_of [("idea", idea); ("journal", journal); ("meeting", meeting)])
             "nothing special"))
             [("idea", idea)] "journal" journal [("meeting", meeting)]).
    + reflexivity.
    + repeat constructor.
    + reflexivity.
    + repeat constructor.
    + discriminate.
  - apply (proj2 (proj2 (determine_content_type_spec
             (config_of [("idea", idea); ("meeting", meeting)])
             "nothing special"))).
    + repeat constructor.
    + repeat constructor.
Defined.

(** C6, the claim as stated fails: with an empty configuration no type is
    available, and the classification returns "unknown", which is not a
    configured type. *)
Lemma determine_content_type_empty_config :
  Forall (λ e, keywords_match (intro_text_of "nothing special") e.2 = false)
    (content_types (config_of [])) ∧
  Forall (λ e, is_default e.2 = false) (content_types (config_of [])) ∧
  determine_content_type (config_of []) "nothing special" = "unknown" ∧
  ¬ (∃ td, ("unknown", td) ∈ content_types (config_of [])) ∧
  head (Py.keys (content_types (config_of [])))
    ≠ Some (determine_content_type (config_of []) "nothing special").
Proof.
  split_and!; [constructor|constructor|reflexivity| |discriminate].
  intros [td H]. simpl in H. by apply not_elem_of_nil in H.
Qed.

Lemma elem_of_final_tags t l :
  t ∈ final_tags l ↔ ∃ t0, t0 ∈ l ∧ Py.strip t0 = t ∧ Py.truthy t = true.
Proof.
  unfold final_tags. induction l as [|x l IH]; simpl.
  - split; [intros H; by apply not_elem_of_nil in H|].
    intros (t0 & H & _). by apply not_elem_of_nil in H.
  - destruct (Py.truthy (Py.strip x)) eqn:E.
    + rewrite elem_of_cons, IH. split.
      * intros [->|(t0 & Hin & Hs & Ht)].
        -- exists x. split_and!; [by left|done|done].
        -- exists t0. split_and!; [by right|done|done].
      * intros (t0 & Hin & Hs & Ht).
        apply elem_of_cons in Hin as [->|Hin]; [by left|].
        right. by exists t0.
    + rewrite IH. split.
      * intros (t0 & Hin & Hs & Ht). exists t0. split_and!; [by right|done|done].
      * intros (t0 & Hin & Hs & Ht).
        apply elem_of_cons in Hin as [->|Hin]; [congruence|].
        by exists t0.
Qed.

Lemma elem_of_generate_tags t text l entry_type :
  t ∈ generate_tags text l entry_type ↔ t ∈ final_tags l.
Proof.
  unfold generate_tags, sorted.
  rewrite merge_sort_Permutation, elem_of_elements, elem_of_list_to_set.
  done.
Qed.

Lemma generate_tags_same_elements text text' l l' entry_type entry_type' :
  (∀ t, t ∈ l ↔ t ∈ l') →
  generate_tags text l entry_type = generate_tags text' l' entry_type'.
Proof.
  intros Hsame. unfold generate_tags. f_equal. f_equal.
  apply set_eq. intros t. rewrite !elem_of_list_to_set, !elem_of_final_tags.
  split; intros (t0 & Hin & Hs & Ht); exists t0; split_and!; try done;
    by apply Hsame.
Qed.

(** C10.  Tag generation returns a sorted list without duplicates, no entry
    of which is empty or made of blanks only; the result depends on the set
    of the spoken tags alone, not on their order or multiplicity, and not
    on the text or the entry type. *)
Theorem generate_tags_spec (text : string) (spoken_tags : list string)
    (entry_type : string) :
  let tags := generate_tags text spoken_tags entry_type in
  Sorted String.le tags ∧
  NoDup tags ∧
  (∀ t, t ∈ tags → t ≠ "" ∧ forallb Py.isspace (Py.chars t) = false) ∧
  (∀ spoken_tags', spoken_tags' ≡ₚ spoken_tags →
     generate_tags text spoken_tags' entry_type = tags) ∧
  (∀ spoken_tags', (∀ t, t ∈ spoken_tags' ↔ t ∈ spoken_tags) →
     generate_tags text spoken_tags' entry_type = tags) ∧
  (∀ text' entry_type',
     generate_tags text' spoken_tags entry_type' = tags).
Proof.
  intros tags. split_and!.
  - apply (Sorted_merge_sort String.le).
  - unfold tags, generate_tags, sorted.
    rewrite merge_sort_Permutation. apply NoDup_elements.
  - intros t Ht. apply elem_of_generate_tags, elem_of_final_tags in Ht.
    destruct Ht as (t0 & _ & <- & Ht). apply PyFacts.truthy_spec in Ht.
    split; [done|]. by apply PyFacts.strip_not_blank.
  - intros l' Hperm. apply generate_tags_same_elements.
    intros t. by rewrite Hperm.
  - intros l' Hsame. by apply generate_tags_same_elements.
  - intros text' entry_type'. by apply generate_tags_same_elements.
Qed.

Example generate_tags_example :
  generate_tags "any text" ["work"; "  "; " idea "; "work"; ""; "Idea"] "journal"
  = ["Idea"; "idea"; "work"].
Proof. vm_compute. reflexivity. Qed.

Lemma generate_tags_spec_witness :
  generate_tags "t" ["b"; "a"; "b"] "journal"
  = generate_tags "t" ["a"; "b"] "journal" ∧
  generate_tags "t" [" b"; "a "] "journal"
  = generate_tags "t" ["a "; " b"] "journal".
Proof.
  split.
  - apply (proj1 (proj2 (proj2 (proj2 (proj2
             (generate_tags_spec "t" ["a"; "b"] "journal")))))).
    intros t. rewrite !elem_of_cons. naive_solver.
  - apply (proj1 (proj2 (proj2 (proj2
             (generate_tags_spec "t" ["a "; " b"] "journal"))))).
    apply Permutation_swap.
Defined.

End TextToolsSpec.

(* ===================================================================== *)
(** * The pipeline ([pipeline.py]) *)
(* ===================================================================== *)

Module PipelineSpec.
Import OS Pipeline PyFacts Scenarios.

(** ** The names tried by the disambiguation loop *)

Lemma pretty_N_char_not_dash x : pretty_N_char x ≠ Py.dash.
Proof. unfold pretty_N_char. by repeat case_match. Qed.

Lemma pretty_N_go_digits x s :
  ∃ ds, Py.chars (pretty_N_go x s) = ds ++ Py.chars s ∧ Py.dash ∉ ds.
Proof.
  revert s. induction (N.lt_wf_0 x) as [x _ IH]; intros s.
  destruct (decide (0 < x)%N) as [Hpos|Hzero].
  - rewrite pretty_N_go_step by done.
    destruct (IH (x `div` 10)%N) with
      (s := String (pretty_N_char (x `mod` 10)) s) as (ds & Hds & Hnotin).
    { by apply N.div_lt. }
    exists (ds ++ [pretty_N_char (x `mod` 10)]). split.
    + rewrite Hds. simpl. by rewrite <- app_assoc.
    + rewrite elem_of_app, list_elem_of_singleton.
      intros [?|Heq]; [done|]. by apply (pretty_N_char_not_dash (x `mod` 10)%N).
  - assert (x = 0%N) as -> by lia. exists []. split; [done|].
    apply not_elem_of_nil.
Qed.

Lemma pretty_nat_no_dash (n : nat) : Py.dash ∉ Py.chars (pretty n).
Proof.
  unfold pretty, pretty_nat, pretty, pretty_N. case_decide.
  - simpl. rewrite !elem_of_cons. intros [?|H']; [done|].
    by apply not_elem_of_nil in H'.
  - destruct (pretty_N_go_digits (N.of_nat n) "") as (ds & Hds & Hnotin).
    rewrite Hds. simpl. by rewrite app_nil_r.
Qed.

(** Two lists cut at their last occurrence of [d] are cut at the same
    place. *)
Lemma split_at_last {A} (d : A) l1 t1 l2 t2 :
  d ∉ t1 → d ∉ t2 →
  l1 ++ d :: t1 = l2 ++ d :: t2 → l1 = l2 ∧ t1 = t2.
Proof.
  intros H1 H2 Heq.
  assert (rev t1 ++ d :: rev l1 = rev t2 ++ d :: rev l2) as Hrev.
  { apply (f_equal (@rev A)) in Heq.
    rewrite !rev_app_distr in Heq. simpl in Heq.
    by rewrite <- !app_assoc in Heq. }
  assert (d ∉ rev t1) as H1' by (by rewrite list_elem_of_In, <- in_rev, <- list_elem_of_In).
  assert (d ∉ rev t2) as H2' by (by rewrite list_elem_of_In, <- in_rev, <- list_elem_of_In).
  clear Heq H1 H2.
  assert (rev t1 = rev t2 ∧ rev l1 = rev l2) as [Ht Hl].
  { revert Hrev H1' H2'. generalize (rev t1) (rev t2) (rev l1) (rev l2).
    clear. intros u. induction u as [|x u IH]; intros [|y v] a b Heq Hu Hv;
      simplify_eq/=.
    - done.
    - exfalso. apply Hv. by left.
    - exfalso. apply Hu. by left.
    - destruct (IH v a b) as [-> ->]; [done| | |done].
      + intros ?. apply Hu. by right.
      + intros ?. apply Hv. by right. }
  split.
  - by rewrite <- (rev_involutive l1), Hl, rev_involutive.
  - by rewrite <- (rev_involutive t1), Ht, rev_involutive.
Qed.

Lemma chars_md_no_dash : Py.dash ∉ Py.chars ".md".
Proof.
  simpl. rewrite !elem_of_cons. intros [?|[?|[?|H]]]; try done.
  by apply not_elem_of_nil in H.
Qed.

(** The characters of a candidate name, cut at its last dash. *)
Lemma chars_final_filename base_id n :
  Py.chars (final_filename_of base_id n)
  = Py.chars base_id ++ Py.dash :: (Py.chars (pretty n) ++ Py.chars ".md").
Proof.
  unfold final_filename_of, final_file_id_of.
  rewrite !chars_app. simpl. by rewrite <- app_assoc.
Qed.

Lemma tail_no_dash (n : nat) : Py.dash ∉ Py.chars (pretty n) ++ Py.chars ".md".
Proof.
  rewrite elem_of_app. intros [H|H].
  - by apply (pretty_nat_no_dash n).
  - by apply chars_md_no_dash.
Qed.

Lemma final_filename_inj base_id n m :
  final_filename_of base_id n = final_filename_of base_id m → n = m.
Proof.
  intros H. apply (f_equal Py.chars) in H.
  rewrite !chars_final_filename in H.
  apply split_at_last in H as [_ H]; [|apply tail_no_dash..].
  apply app_inv_tail in H. apply chars_inj in H.
  by apply (inj pretty) in H.
Qed.

Lemma startswith_slash s :
  Py.startswith s "/"
  = match Py.chars s with
    | c :: _ => bool_decide (c = Ascii.ascii_of_nat 47)
    | [] => false
    end.
Proof.
  unfold Py.startswith. destruct s as [|c s]; [done|].
  change (String.prefix "/" (String c s))
    with (if Ascii.ascii_dec "/" c then String.prefix "" s else false).
  change (Py.chars (String c s)) with (c :: Py.chars s).
  destruct (Ascii.ascii_dec "/" c) as [<-|Hne].
  - rewrite bool_decide_true by done. by destruct s.
  - rewrite bool_decide_false; [done|]. intros ->. by apply Hne.
Qed.

Lemma startswith_final_filename base_id (n m : nat) :
  Py.startswith (final_filename_of base_id n) "/"
  = Py.startswith (final_filename_of base_id m) "/".
Proof.
  rewrite !startswith_slash, !chars_final_filename.
  by destruct (Py.chars base_id).
Qed.

(** [os.path.join d name] is either [name] or a prefix put before it. *)
Lemma join_cases a b :
  (Py.startswith b "/" = true ∧ join a b = b) ∨
  (Py.startswith b "/" = false ∧ ∃ a', join a b = a' +:+ b ∧
      ∀ b', Py.startswith b' "/" = false → join a b' = a' +:+ b').
Proof.
  unfold join. destruct (Py.startswith b "/") eqn:E; [by left|right].
  split; [done|].
  destruct (negb (Py.truthy a) || Py.endswith a "/") eqn:E'.
  - exists a. split; [done|]. intros b' Hb. by rewrite Hb.
  - exists (a +:+ "/"). split.
    + by rewrite str_app_assoc.
    + intros b' Hb. by rewrite Hb, str_app_assoc.
Qed.

(** Candidate names of one base never collide, even across folders. *)
Lemma final_path_cross_inj dir1 dir2 base_id n m :
  join dir1 (final_filename_of base_id n)
  = join dir2 (final_filename_of base_id m) → n = m.
Proof.
  intros H.
  pose proof (startswith_final_filename base_id n m) as Hsw.
  destruct (join_cases dir1 (final_filename_of base_id n))
    as [[Ha Hj1]|[Ha (a1 & Hj1 & _)]];
  destruct (join_cases dir2 (final_filename_of base_id m))
    as [[Hb Hj2]|[Hb (a2 & Hj2 & _)]]; try congruence.
  - rewrite Hj1, Hj2 in H. by apply final_filename_inj in H.
  - rewrite Hj1, Hj2 in H. apply (f_equal Py.chars) in H.
    rewrite !chars_app, !chars_final_filename in H.
    rewrite !app_assoc in H.
    apply split_at_last in H as [_ H]; [|apply tail_no_dash..].
    apply app_inv_tail in H. apply chars_inj in H.
    by apply (inj pretty) in H.
Qed.

Global Instance final_path_inj target_dir base_id :
  Inj (=) (=) (final_path_of target_dir base_id).
Proof. intros n m H. by apply final_path_cross_inj in H. Qed.

Lemma exists_spec path (fs : store) :
  exists_ path fs = true ↔ is_Some (fs !! path).
Proof. unfold exists_. apply bool_decide_eq_true. Qed.

Lemma exists_false path (fs : store) :
  exists_ path fs = false ↔ fs !! path = None.
Proof.
  unfold exists_. rewrite bool_decide_eq_false. symmetry. apply eq_None_not_Some.
Qed.

(** ** The disambiguation loop *)

Lemma counter_loop_Some fs target_dir base_id fuel counter n :
  counter_loop fs target_dir base_id fuel counter = Some n →
  counter ≤ n ∧
  fs !! final_path_of target_dir base_id n = None ∧
  ∀ m, counter ≤ m < n → is_Some (fs !! final_path_of target_dir base_id m).
Proof.
  revert counter. induction fuel as [|fuel IH]; intros counter; simpl; [done|].
  destruct (exists_ (final_path_of target_dir base_id counter) fs) eqn:E; simpl.
  - intros H. apply IH in H as (Hle & Hfree & Hused).
    split_and!; [lia|done|].
    intros m Hm. destruct (decide (m = counter)) as [->|Hne].
    + by apply exists_spec.
    + apply Hused. lia.
  - intros [= <-]. split_and!; [done|by apply exists_false|]. intros m Hm. lia.
Qed.

Lemma counter_loop_None fs target_dir base_id fuel counter :
  counter_loop fs target_dir base_id fuel counter = None →
  ∀ m, counter ≤ m < counter + fuel →
       final_path_of target_dir base_id m ∈ dom fs.
Proof.
  revert counter. induction fuel as [|fuel IH]; intros counter; simpl.
  - intros _ m Hm. lia.
  - destruct (exists_ (final_path_of target_dir base_id counter) fs) eqn:E;
      simpl; [|done].
    intros H m Hm. destruct (decide (m = counter)) as [->|Hne].
    + apply elem_of_dom. by apply exists_spec.
    + apply (IH (S counter)); [done|lia].
Qed.

(** The loop terminates: a finite store cannot hold all of [size fs + 1]
    candidate names. *)
Lemma find_counter_total fs target_dir base_id :
  is_Some (find_counter fs target_dir base_id).
Proof.
  unfold find_counter.
  destruct (counter_loop fs target_dir base_id (S (size fs)) 1) as [n|] eqn:E;
    [by eexists|].
  exfalso.
  pose proof (counter_loop_None _ _ _ _ _ E) as Hall.
  set (names := final_path_of target_dir base_id <$> seq 1 (S (size fs))).
  assert (NoDup names) as Hnd.
  { apply (NoDup_fmap_2 _). apply NoDup_seq. }
  assert ((list_to_set names : gset string) ⊆ dom fs) as Hsub.
  { intros p Hp. apply elem_of_list_to_set in Hp.
    apply list_elem_of_fmap in Hp as (m & -> & Hm).
    apply elem_of_seq in Hm. apply Hall. lia. }
  apply subseteq_size in Hsub.
  rewrite size_list_to_set in Hsub by done.
  rewrite size_dom in Hsub. unfold names in Hsub.
  rewrite length_fmap, length_seq in Hsub. lia.
Qed.

Lemma find_counter_spec fs target_dir base_id :
  ∃ n, find_counter fs target_dir base_id = Some n ∧
       1 ≤ n ∧
       fs !! final_path_of target_dir base_id n = None ∧
       ∀ m, 1 ≤ m < n → is_Some (fs !! final_path_of target_dir base_id m).
Proof.
  destruct (find_counter_total fs target_dir base_id) as [n Hn].
  exists n. split; [done|]. by apply counter_loop_Some in Hn.
Qed.

(** The counter is determined by the candidate names present. *)
Lemma find_counter_unique fs target_dir base_id n :
  1 ≤ n →
  fs !! final_path_of target_dir base_id n = None →
  (∀ m, 1 ≤ m < n → is_Some (fs !! final_path_of target_dir base_id m)) →
  find_counter fs target_dir base_id = Some n.
Proof.
  intros Hn Hfree Hused.
  destruct (find_counter_spec fs target_dir base_id) as (k & -> & Hk & Hkfree & Hkused).
  f_equal. destruct (decide (k < n)) as [Hlt|Hge].
  - destruct (Hused k) as [? Hs]; [lia|]. congruence.
  - destruct (decide (n < k)) as [Hlt'|Hge']; [|lia].
    destruct (Hkused n) as [? Hs]; [lia|]. congruence.
Qed.

(** ** Ingestion *)

(** With a string entry type, a list of tags and no forced focus,
    [_sync_file] cannot raise; it answers [False] when the upload fails. *)
Lemma sync_file_ingestion env config filepath entry_type tags :
  ∃ b, _sync_file env config filepath (YStr entry_type) (YSeq tags)
         (YBool false) = Ok b ∧
       (upload_file env filepath (basename filepath) = None → b = false).
Proof.
  unfold _sync_file.
  destruct (upload_file env filepath (basename filepath)) as [fid|];
    [|by exists false].
  destruct (Py.truthy fid); simpl; [by exists true|by exists false].
Qed.

(** [_run_ingestion_pipeline] by cases. *)
Lemma run_ingestion_unfold env config text original_filename source_path
    is_text_file (fs : store) :
  ∃ n,
    find_counter fs (ingestion_dir env config text source_path)
      (base_id_of env config text source_path) = Some n ∧
    let final_path := ingestion_path env config text source_path n in
    let fs1 :=
      <[final_path :=
          document_of env config text original_filename source_path n]> fs in
    _run_ingestion_pipeline env config text original_filename source_path
      is_text_file fs
    = if fully_completed env config text source_path || is_text_file
      then (Ok final_path, fs1)
      else (copy2 final_path (retry_copy_path env config text source_path n) ;;
            ret final_path) fs1.
Proof.
  destruct (find_counter_total fs (ingestion_dir env config text source_path)
              (base_id_of env config text source_path)) as [n Hn].
  exists n. split; [done|].
  unfold _run_ingestion_pipeline, fully_completed, ingestion_path,
    retry_copy_path, document_of.
  unfold ingestion_dir, base_id_of, entry_type_of in *.
  rewrite Hn. unfold bind at 1, write_file at 1.
  destruct (String.eqb _ "Untitled" || _) eqn:Hpartial; simpl negb.
  - destruct is_text_file; simpl; [done|]. done.
  - rewrite orb_true_l. unfold bind, lift, ret.
    edestruct sync_file_ingestion as (b & -> & _). done.
Qed.

Lemma final_path_not_empty target_dir base_id n :
  Py.truthy (final_path_of target_dir base_id n) = true.
Proof.
  apply truthy_spec. intros H. apply (f_equal Py.chars) in H.
  unfold final_path_of in H.
  destruct (join_cases target_dir (final_filename_of base_id n))
    as [[_ Hj]|[_ (a' & Hj & _)]]; rewrite Hj in H.
  - rewrite chars_final_filename in H. by destruct (Py.chars base_id).
  - rewrite chars_app, chars_final_filename in H.
    by destruct (Py.chars a'), (Py.chars base_id).
Qed.

(** What one ingestion does to the candidate names: it takes the smallest
    free counter, writes the document there and leaves the other
    candidates as they were; it returns the path, unless the copy to the
    retry root is refused because it is the document itself. *)
Lemma run_ingestion_effect env config text original_filename source_path
    is_text_file (fs : store) :
  let dir := ingestion_dir env config text source_path in
  let base_id := base_id_of env config text source_path in
  ∃ n,
    find_counter fs dir base_id = Some n ∧
    1 ≤ n ∧
    fs !! final_path_of dir base_id n = None ∧
    (∀ m, 1 ≤ m < n → is_Some (fs !! final_path_of dir base_id m)) ∧
    let out :=
      _run_ingestion_pipeline env config text original_filename source_path
        is_text_file fs in
    (out.1 = Ok (final_path_of dir base_id n) ∨ out.1 = Raise SameFileError) ∧
    out.2 !! final_path_of dir base_id n
      = Some (document_of env config text original_filename source_path n) ∧
    (∀ dir' m, m ≠ n →
       out.2 !! final_path_of dir' base_id m = fs !! final_path_of dir' base_id m).
Proof.
  intros dir base_id.
  destruct (run_ingestion_unfold env config text original_filename source_path
              is_text_file fs) as (n & Hn & Hrun).
  exists n. split; [done|].
  pose proof Hn as Hspec. apply counter_loop_Some in Hspec as (H1 & Hfree & Hused).
  split_and!; [done|done|done|].
  cbv zeta in Hrun. rewrite Hrun.
  unfold ingestion_path. fold dir base_id.
  assert (∀ dir' m, m ≠ n →
            final_path_of dir base_id n ≠ final_path_of dir' base_id m) as Hne.
  { intros dir' m Hm Heq. apply final_path_cross_inj in Heq. congruence. }
  destruct (fully_completed env config text source_path || is_text_file).
  - simpl. split_and!; [by left|by rewrite lookup_insert_eq|].
    intros dir' m Hm. rewrite lookup_insert_ne; [done|by apply Hne].
  - unfold bind, copy2, ret. rewrite lookup_insert_eq.
    case_decide as Hsame; simpl.
    + split_and!; [by right|by rewrite lookup_insert_eq|].
      intros dir' m Hm. rewrite lookup_insert_ne; [done|by apply Hne].
    + split_and!; [by left| |].
      * rewrite lookup_insert_ne by done. by rewrite lookup_insert_eq.
      * intros dir' m Hm. unfold retry_copy_path. fold base_id.
        rewrite lookup_insert_ne.
        { rewrite lookup_insert_ne; [done|by apply Hne]. }
        intros Heq. apply final_path_cross_inj in Heq. congruence.
Qed.

(** C7.  The document of an ingestion is written to
    [<date>-<content-type>-<n>.md] in the target folder, [n] being the
    smallest positive integer whose file name is not taken there; so three
    ingestions with the same date and content type, started where the
    names -1, -2 and -3 are free, write -1, -2 and -3 in turn. *)
Theorem ingestion_filename_disambiguation (env : Env) (config : PipelineConfig) :
  (∀ text original_filename source_path is_text_file (fs : store),
     let meta := extract_metadata_from_text env text source_path in
     let entry_type := entry_type_of env config text source_path in
     let dir := target_dir_of config entry_type in
     let name n :=
       join dir (date meta +:+ "-" +:+ entry_type +:+ "-" +:+ pretty n +:+ ".md") in
     ∃ n : nat,
       1 ≤ n ∧
       fs !! name n = None ∧
       (∀ m, 1 ≤ m < n → is_Some (fs !! name m)) ∧
       let out :=
         _run_ingestion_pipeline env config text original_filename
           source_path is_text_file fs in
       (out.1 = Ok (name n) ∨ out.1 = Raise SameFileError) ∧
       out.2 !! name n
         = Some (document_of env config text original_filename source_path n)) ∧
  (∀ i1 i2 i3 d entry_type (fs : store),
     let dir := target_dir_of config entry_type in
     let name n :=
       join dir (d +:+ "-" +:+ entry_type +:+ "-" +:+ pretty n +:+ ".md") in
     Forall (λ i,
         date (extract_metadata_from_text env (in_text i) (in_source_path i)) = d
         ∧ entry_type_of env config (in_text i) (in_source_path i) = entry_type)
       [i1; i2; i3] →
     Forall (λ n, fs !! name n = None) [1; 2; 3] →
     let out1 := ingest env config i1 fs in
     let out2 := ingest env config i2 out1.2 in
     let out3 := ingest env config i3 out2.2 in
     (out1.1 = Ok (name 1) ∨ out1.1 = Raise SameFileError) ∧
     (out2.1 = Ok (name 2) ∨ out2.1 = Raise SameFileError) ∧
     (out3.1 = Ok (name 3) ∨ out3.1 = Raise SameFileError) ∧
     is_Some (out1.2 !! name 1) ∧ out1.2 !! name 2 = None ∧
     is_Some (out2.2 !! name 2) ∧ out2.2 !! name 3 = None ∧
     is_Some (out3.2 !! name 3)).
Proof.
  assert (∀ dir d entry_type (n : nat),
            join dir (d +:+ "-" +:+ entry_type +:+ "-" +:+ pretty n +:+ ".md")
            = final_path_of dir (d +:+ "-" +:+ entry_type) n) as Hname.
  { intros. unfold final_path_of, final_filename_of, final_file_id_of.
    by rewrite !str_app_assoc. }
  split.
  - intros text original_filename source_path is_text_file fs meta entry_type
      dir name.
    destruct (run_ingestion_effect env config text original_filename
                source_path is_text_file fs)
      as (n & _ & Hn & Hfree & Hused & Hres & Hdoc & _).
    exists n. unfold name. setoid_rewrite Hname. done.
  - intros i1 i2 i3 d entry_type fs dir name Hsame Hfree out1 out2 out3.
    unfold name in *. rewrite !Hname. setoid_rewrite Hname in Hfree.
    apply Forall_cons in Hsame as [[Hd1 Ht1] Hsame].
    apply Forall_cons in Hsame as [[Hd2 Ht2] Hsame].
    apply Forall_cons in Hsame as [[Hd3 Ht3] _].
    apply Forall_cons in Hfree as [Hf1 Hfree].
    apply Forall_cons in Hfree as [Hf2 Hfree].
    apply Forall_cons in Hfree as [Hf3 _].
    set (b := d +:+ "-" +:+ entry_type) in *.
    (* first document *)
    destruct (run_ingestion_effect env config (in_text i1)
                (in_original_filename i1) (in_source_path i1)
                (in_is_text_file i1) fs)
      as (n1 & _ & Hn1 & _ & Hused1 & Hres1 & Hdoc1 & Hrest1).
    unfold ingestion_dir, base_id_of in Hused1, Hres1, Hdoc1, Hrest1.
    rewrite Hd1, Ht1 in Hused1, Hres1, Hdoc1, Hrest1.
    fold b dir in Hused1, Hres1, Hdoc1, Hrest1.
    assert (n1 = 1) as ->.
    { destruct (decide (n1 = 1)) as [|Hne]; [done|].
      destruct (Hused1 1) as [? Hs]; [lia|]. congruence. }
    fold (ingest env config i1 fs) in Hres1, Hdoc1, Hrest1. fold out1 in Hres1, Hdoc1, Hrest1.
    assert (out1.2 !! final_path_of dir b 2 = None) as Hf2'.
    { rewrite Hrest1 by lia. done. }
    assert (out1.2 !! final_path_of dir b 3 = None) as Hf3'.
    { rewrite Hrest1 by lia. done. }
    (* second document *)
    destruct (run_ingestion_effect env config (in_text i2)
                (in_original_filename i2) (in_source_path i2)
                (in_is_text_file i2) out1.2)
      as (n2 & _ & Hn2 & Hfree2 & Hused2 & Hres2 & Hdoc2 & Hrest2).
    unfold ingestion_dir, base_id_of in Hfree2, Hused2, Hres2, Hdoc2, Hrest2.
    rewrite Hd2, Ht2 in Hfree2, Hused2, Hres2, Hdoc2, Hrest2.
    fold b dir in Hfree2, Hused2, Hres2, Hdoc2, Hrest2.
    assert (n2 = 2) as ->.
    { destruct (decide (n2 = 1)) as [->|Hne1]; [congruence|].
      destruct (decide (n2 = 2)) as [|Hne2]; [done|].
      destruct (Hused2 2) as [? Hs]; [lia|]. congruence. }
    fold (ingest env config i2 out1.2) in Hres2, Hdoc2, Hrest2.
    fold out2 in Hres2, Hdoc2, Hrest2.
    assert (out2.2 !! final_path_of dir b 3 = None) as Hf3''.
    { rewrite Hrest2 by lia. done. }
    assert (is_Some (out2.2 !! final_path_of dir b 1)) as Hs1.
    { rewrite Hrest2 by lia. by rewrite Hdoc1. }
    (* third document *)
    destruct (run_ingestion_effect env config (in_text i3)
                (in_original_filename i3) (in_source_path i3)
                (in_is_text_file i3) out2.2)
      as (n3 & _ & Hn3 & Hfree3 & Hused3 & Hres3 & Hdoc3 & Hrest3).
    unfold ingestion_dir, base_id_of in Hfree3, Hused3, Hres3, Hdoc3, Hrest3.
    rewrite Hd3, Ht3 in Hfree3, Hused3, Hres3, Hdoc3, Hrest3.
    fold b dir in Hfree3, Hused3, Hres3, Hdoc3, Hrest3.
    assert (n3 = 3) as ->.
    { destruct (decide (n3 = 1)) as [->|Hne1].
      { destruct Hs1 as [? Hs1]. congruence. }
      destruct (decide (n3 = 2)) as [->|Hne2]; [congruence|].
      destruct (decide (n3 = 3)) as [|Hne3]; [done|].
      destruct (Hused3 3) as [? Hs]; [lia|]. congruence. }
    fold (ingest env config i3 out2.2) in Hres3, Hdoc3. fold out3 in Hres3, Hdoc3.
    split_and!; try done; by eexists.
Qed.

Lemma ingestion_filename_disambiguation_witness :
  let out1 := ingest llm_down vault (note_input "Hello world") ∅ in
  let out2 := ingest llm_down vault (note_input "Hello again") out1.2 in
  let out3 := ingest llm_down vault (note_input "Hello there") out2.2 in
  (out1.1 = Ok journal_1 ∨ out1.1 = Raise SameFileError) ∧
  (out2.1 = Ok journal_2 ∨ out2.1 = Raise SameFileError) ∧
  (out3.1 = Ok journal_3 ∨ out3.1 = Raise SameFileError) ∧
  is_Some (out1.2 !! journal_1) ∧ out1.2 !! journal_2 = None ∧
  is_Some (out2.2 !! journal_2) ∧ out2.2 !! journal_3 = None ∧
  is_Some (out3.2 !! journal_3).
Proof.
  apply (proj2 (ingestion_filename_disambiguation llm_down vault)
           (note_input "Hello world") (note_input "Hello again")
           (note_input "Hello there") "2025-01-01" "journal" ∅).
  - repeat constructor.
  - repeat constructor.
Defined.

(** ** Text input *)

(** A text file without front-matter is ingested, and its source is removed
    whether or not the document is complete: [_run_ingestion_pipeline]
    returns the path of the document in both cases, and
    [process_text_file] removes the source whenever a path comes back. *)
Lemma process_text_file_raw env config filepath content (fs : store) :
  fs !! filepath = Some content →
  Py.startswith content "---" = false →
  ∃ n,
    let final_path := ingestion_path env config content filepath n in
    fs !! final_path = None ∧
    process_text_file env config filepath fs
    = (Ok (Some final_path),
       delete filepath
         (<[final_path :=
              document_of env config content (basename filepath) filepath n]> fs)).
Proof.
  intros Hfile Hraw.
  destruct (run_ingestion_unfold env config content (basename filepath)
              filepath true fs) as (n & Hn & Hrun).
  exists n. cbv zeta in *.
  apply counter_loop_Some in Hn as (_ & Hfree & _).
  split; [done|].
  unfold process_text_file, try_except, bind at 1, read_file.
  rewrite Hfile, Hraw. unfold bind at 1. rewrite Hrun, orb_true_r.
  unfold ingestion_path. rewrite final_path_not_empty.
  unfold bind, remove, ret.
  rewrite lookup_insert_ne by congruence. by rewrite Hfile.
Qed.

(** C2, evaluated where the code departs from it: the enrichment service is
    down, the text note is ingested as an untitled (incomplete) document,
    and the source note is removed all the same; nothing is left in the
    retry root. *)
Theorem text_source_removed_on_partial :
  let fs := {[ note_txt := "Hello world" ]} : store in
  let out := process_text_file llm_down vault note_txt fs in
  fully_completed llm_down vault "Hello world" note_txt = false ∧
  out.1 = Ok (Some journal_1) ∧
  out.2 !! note_txt = None ∧
  dom out.2 = {[ journal_1 ]}.
Proof.
  intros fs out.
  destruct (process_text_file_raw llm_down vault note_txt "Hello world" fs)
    as (n & Hfree & Hrun); [by apply lookup_singleton_eq|done|].
  cbv zeta in Hrun. fold out in Hrun.
  split_and!.
  - reflexivity.
  - vm_compute. reflexivity.
  - rewrite Hrun. simpl. apply lookup_delete_eq.
  - vm_compute. reflexivity.
Qed.

(** ** Sync failure *)

(** A complete ingestion ignores the answer of [_sync_file]: the document is
    written and its path returned, and no other file is touched. *)
Lemma run_ingestion_complete env config text original_filename source_path
    is_text_file (fs : store) :
  fully_completed env config text source_path = true →
  ∃ n,
    let final_path := ingestion_path env config text source_path n in
    fs !! final_path = None ∧
    _run_ingestion_pipeline env config text original_filename source_path
      is_text_file fs
    = (Ok final_path,
       <[final_path :=
           document_of env config text original_filename source_path n]> fs).
Proof.
  intros Hfull.
  destruct (run_ingestion_unfold env config text original_filename
              source_path is_text_file fs) as (n & Hn & Hrun).
  exists n. cbv zeta in *.
  apply counter_loop_Some in Hn as (_ & Hfree & _).
  split; [done|]. by rewrite Hrun, Hfull.
Qed.

(** C3, evaluated where the code departs from it: the model titles the
    transcript of a voice memo, so the ingestion is complete, and every
    upload fails.  [_sync_file] answers [False] without raising and the call
    returns the path of the document, which stays in the knowledge folder;
    but no copy of it reaches the retry root. *)
Theorem sync_failure_leaves_no_retry_copy :
  let fs := {[ memo_m4a := "RIFF" ]} : store in
  let out := process_audio sync_down vault memo_m4a fs in
  fully_completed sync_down vault "Hello world" memo_m4a = true ∧
  (∀ path name, upload_file sync_down path name = None) ∧
  _sync_file sync_down vault journal_1 (YStr "journal") (YSeq []) (YBool false)
    = Ok false ∧
  out.1 = Ok (Some journal_1) ∧
  is_Some (out.2 !! journal_1) ∧
  out.2 !! retry_copy_path sync_down vault "Hello world" memo_m4a 1 = None ∧
  dom out.2 = {[ journal_1; "/vault/ARCHIVE/memo.m4a" ]}.
Proof.
  intros fs out.
  split_and!.
  - reflexivity.
  - done.
  - reflexivity.
  - vm_compute. reflexivity.
  - vm_compute. by eexists.
  - vm_compute. reflexivity.
  - vm_compute. reflexivity.
Qed.

(** ** Repair *)

Lemma content_types_get_scalar config (fm : Py.dict yval) :
  (∀ l, Py.get fm "type" ≠ Some (YSeq l)) →
  ∃ type_config,
    content_types_get config (default (YStr "journal_entry") (Py.get fm "type"))
    = Ok type_config.
Proof.
  intros Hscalar. destruct (Py.get fm "type") as [[| | |l]|] eqn:E; simpl;
    try by eexists.
  by destruct (Hscalar l).
Qed.

(** The end of [_run_repair_pipeline], after the file was rewritten with
    [new_content]: the text stays at [filepath], or it is moved to the
    official path. *)
Lemma repair_move_cases (folder : bool)
    (filepath official_path new_content : string) (fs : store) :
  let out :=
    try_except
      (copy2_into folder filepath official_path ;; remove filepath ;;
       ret (Some official_path))
      (λ _, ret (Some filepath)) (<[filepath := new_content]> fs) in
  out.2 !! filepath = Some new_content ∨
  (out.1 = Ok (Some official_path) ∧
   out.2 !! filepath = None ∧
   out.2 !! official_path = Some new_content).
Proof.
  unfold try_except, bind, copy2_into, remove, ret.
  rewrite lookup_insert_eq.
  destruct (decide (filepath = official_path)) as [Heq|Hne]; simpl.
  - left. apply lookup_insert_eq.
  - destruct folder; simpl; [|left; apply lookup_insert_eq].
    rewrite lookup_insert_ne by done. rewrite lookup_insert_eq. simpl.
    right. split_and!; [done|apply lookup_delete_eq|].
    rewrite lookup_delete_ne by done. apply lookup_insert_eq.
Qed.

(** [repair_document] when the title is the sentinel and the enrichment
    gives none: the early return of the offline branch, and the rewrite with
    the fallback title of the online branch. *)
Lemma repair_document_offline env config filepath content part2 fm (fs : store) :
  title_is_sentinel (default (YStr "Untitled") (Py.get fm "title")) = true →
  title (_enrich_content env config (body_text_of part2)) = "Untitled" →
  check_health env = false →
  repair_document env config filepath content part2 (body_text_of part2) fm fs
  = (Ok (Some filepath), fs).
Proof.
  intros Hsentinel Hnotitle Hdown.
  unfold repair_document, repair_title.
  rewrite Hsentinel, Hnotitle, Hdown. done.
Qed.

Lemma repair_document_fallback env config filepath content part2 fm
    type_config (fs : store) :
  title_is_sentinel (default (YStr "Untitled") (Py.get fm "title")) = true →
  title (_enrich_content env config (body_text_of part2)) = "Untitled" →
  check_health env = true →
  content_types_get config (default (YStr "journal_entry") (Py.get fm "type"))
    = Ok type_config →
  ∃ tail (is_fixed : bool),
    let fm' := Py.set fm "title" (YStr (recovered_title env fm)) in
    let official_dir :=
      join (paths_output config)
        (default "Personal Diary" (type_config ≫= target_subfolder)) in
    let official_path := join official_dir (basename filepath) in
    repair_document env config filepath content part2 (body_text_of part2) fm fs
    = (let* success :=
         lift (_sync_file env config filepath
                 (default (YStr "journal_entry") (Py.get fm "type"))
                 (default (YSeq []) (Py.get fm "tags"))
                 (default (YBool false) (Py.get fm' "focus"))) in
       if is_fixed && success then
         try_except
           (copy2_into (isdir env official_dir) filepath official_path ;;
            remove filepath ;;
            ret (Some official_path))
           (λ _, ret (Some filepath))
       else ret (Some filepath))
        (<[filepath := render env fm' (body_text_of part2) tail]> fs).
Proof.
  intros Hsentinel Hnotitle Hup Htc.
  unfold repair_document, repair_title.
  rewrite Hsentinel, Hnotitle, Hup.
  change (negb (String.eqb "Untitled" "Untitled")) with false.
  change (negb true) with false. cbv beta iota.
  unfold bind at 1, lift at 1. rewrite Htc. cbv beta iota.
  rewrite orb_true_l. cbv beta iota zeta.
  unfold bind at 1, write_file at 1.
  by eexists _, _.
Qed.

(** C8 (as amended).  A repair input whose title is still the sentinel and
    for which the enrichment again yields no title: when the health check
    fails, the path is returned and no file is changed; when it succeeds
    and the type of the front-matter is a scalar, as the pipeline writes
    it, the title becomes the fallback built from the date of the
    front-matter and the file is rewritten with it (and then stays in place
    or is moved to its official path). *)
Theorem repair_untitled_without_title (env : Env) (config : PipelineConfig)
    (filepath content pre frontmatter_str part2 : string) (rest : list string)
    (fm : Py.dict yval) (fs : store) :
  Py.split_on content "---" = pre :: frontmatter_str :: part2 :: rest →
  yaml_safe_load env frontmatter_str = LoadDict fm →
  title_is_sentinel (default (YStr "Untitled") (Py.get fm "title")) = true →
  title (_enrich_content env config (body_text_of part2)) = "Untitled" →
  let out := _run_repair_pipeline env config filepath content fs in
  (check_health env = false → out = (Ok (Some filepath), fs)) ∧
  (check_health env = true →
   (∀ l, Py.get fm "type" ≠ Some (YSeq l)) →
   let fallback :=
     Py.strip ("Recovered Entry "
               +:+ yformat env (default (YStr "") (Py.get fm "date"))) in
   let fm' := Py.set fm "title" (YStr fallback) in
   Py.get fm' "title" = Some (YStr fallback) ∧
   ∃ tail official_path,
     let new_content := render env fm' (body_text_of part2) tail in
     out.2 !! filepath = Some new_content ∨
     (out.1 = Ok (Some official_path) ∧
      out.2 !! filepath = None ∧
      out.2 !! official_path = Some new_content)).
Proof.
  intros Hsplit Hload Hsentinel Hnotitle out.
  assert (out = repair_document env config filepath content part2
                  (body_text_of part2) fm fs) as Hout.
  { unfold out, _run_repair_pipeline. by rewrite Hsplit, Hload. }
  clearbody out. split.
  - intros Hdown. rewrite Hout. by apply repair_document_offline.
  - intros Hup Hscalar fallback fm'. split; [apply get_set_eq|].
    destruct (content_types_get_scalar config fm Hscalar) as [type_config Htc].
    destruct (repair_document_fallback env config filepath content part2 fm
                type_config fs Hsentinel Hnotitle Hup Htc)
      as (tail & is_fixed & Hrun).
    cbv zeta in Hrun. unfold recovered_title in Hrun.
    fold fallback in Hrun. fold fm' in Hrun.
    exists tail.
    exists (join (join (paths_output config)
                    (default "Personal Diary" (type_config ≫= target_subfolder)))
              (basename filepath)).
    cbv zeta. rewrite Hout. clear Hout.
    unfold bind at 1, lift at 1 in Hrun.
    destruct (_sync_file env config filepath _ _ _) as [success|e];
      cbv beta iota in Hrun.
    + destruct (is_fixed && success); rewrite Hrun.
      * exact (repair_move_cases _ _ _ _ _).
      * left. simpl. apply lookup_insert_eq.
    + rewrite Hrun. left. simpl. apply lookup_insert_eq.
Qed.

Lemma repair_untitled_without_title_witness :
  let fs := {[ untitled_md := untitled_content ]} : store in
  _run_repair_pipeline llm_down vault untitled_md untitled_content fs
  = (Ok (Some untitled_md), fs) ∧
  let out := _run_repair_pipeline llm_mute vault untitled_md untitled_content fs in
  let fm' :=
    Py.set untitled_frontmatter "title" (YStr "Recovered Entry 2025-01-01") in
  Py.get fm' "title" = Some (YStr "Recovered Entry 2025-01-01") ∧
  ∃ tail official_path,
    let new_content := render llm_mute fm' "Hello world" tail in
    out.2 !! untitled_md = Some new_content ∨
    (out.1 = Ok (Some official_path) ∧
     out.2 !! untitled_md = None ∧
     out.2 !! official_path = Some new_content).
Proof.
  intros fs. split.
  - apply (proj1 (repair_untitled_without_title llm_down vault untitled_md
             untitled_content ""
             (Py.nl +:+ dump untitled_frontmatter)
             (Py.nl +:+ Py.nl +:+ "## Transcript" +:+ Py.nl +:+ Py.nl
                +:+ "Hello world")
             [] untitled_frontmatter fs
             eq_refl eq_refl eq_refl eq_refl)).
    reflexivity.
  - apply (proj2 (repair_untitled_without_title llm_mute vault untitled_md
             untitled_content ""
             (Py.nl +:+ dump untitled_frontmatter)
             (Py.nl +:+ Py.nl +:+ "## Transcript" +:+ Py.nl +:+ Py.nl
                +:+ "Hello world")
             [] untitled_frontmatter fs
             eq_refl eq_refl eq_refl eq_refl)).
    + reflexivity.
    + intros l. discriminate.
Defined.

(** The claim as stated fails for a front-matter whose type is a list: the
    title is the sentinel, the enrichment yields none and the service is
    reachable, but the lookup of the type raises [TypeError] before the
    file is written, so the document is left as it was and
    [process_text_file] answers [None]. *)
Lemma repair_list_valued_type_not_rewritten :
  let content := render Fixtures.mute_listed Fixtures.listed_frontmatter
                   "Hello world" "" in
  let part2 := Py.nl +:+ Py.nl +:+ "## Transcript" +:+ Py.nl +:+ Py.nl
                 +:+ "Hello world" in
  let fs := {[ untitled_md := content ]} : store in
  Py.split_on content "---"
  = [""; Py.nl +:+ dump Fixtures.listed_frontmatter; part2] ∧
  yaml_safe_load Fixtures.mute_listed (Py.nl +:+ dump Fixtures.listed_frontmatter)
  = LoadDict Fixtures.listed_frontmatter ∧
  title_is_sentinel
    (default (YStr "Untitled") (Py.get Fixtures.listed_frontmatter "title"))
  = true ∧
  title (_enrich_content Fixtures.mute_listed vault (body_text_of part2))
  = "Untitled" ∧
  check_health Fixtures.mute_listed = true ∧
  _run_repair_pipeline Fixtures.mute_listed vault untitled_md content fs
  = (Raise TypeError, fs) ∧
  process_text_file Fixtures.mute_listed vault untitled_md fs = (Ok None, fs).
Proof.
  intros content part2 fs. split_and!; reflexivity.
Qed.

End PipelineSpec.

(* ===================================================================== *)
(** * The orchestration ([main.py]) *)
(* ===================================================================== *)

Module MainSpec.
Import Main PyFacts Scenarios.

(** ** The periodic scanner *)

Lemma elem_of_scan_file j folder f busy now mtime :
  j ∈ scan_file folder f busy now mtime ↔
  j = (text, OS.join folder f) ∧ busy = false ∧
  ∃ m, mtime = Some m ∧ (1 <= now - m)%Q.
Proof.
  unfold scan_file. destruct busy.
  { split; [intros H; by apply not_elem_of_nil in H|]. by intros (_ & ? & _). }
  destruct mtime as [m|].
  - destruct (Qlt_le_dec (now - m) 1) as [Hlt|Hle].
    + split; [intros H; by apply not_elem_of_nil in H|].
      intros (_ & _ & m' & [= <-] & Hle). by apply Qle_not_lt in Hle.
    + rewrite list_elem_of_singleton. split.
      * intros ->. split_and!; [done..|]. by exists m.
      * by intros (-> & _).
  - split; [intros H; by apply not_elem_of_nil in H|].
    by intros (_ & _ & m' & ? & _).
Qed.

(** C9.  In a scanner pass, a listed file with an allowed extension is
    submitted as a text job exactly when its path is not in flight and its
    modification time is at least one second old. *)
Theorem scanner_selects_stable_idle (folder : string) (names : list string)
    (obs : observation) (f : string) :
  f ∈ names →
  text_extension f = true →
  let filepath := OS.join folder f in
  (text, filepath) ∈ _scan folder (Some names) obs ↔
  in_flight obs filepath = false ∧
  ∃ m, getmtime obs filepath = Some m ∧ (1 <= clock obs filepath - m)%Q.
Proof.
  intros Hin Hext filepath. unfold _scan, scan_candidates.
  rewrite list_elem_of_In, in_flat_map. split.
  - intros (f' & Hf' & Hjob). apply list_elem_of_In in Hjob.
    apply elem_of_scan_file in Hjob as (Heq & Hidle & m & Hm & Hage).
    injection Heq as Heq. fold filepath in Heq. rewrite <- Heq in *.
    split; [done|]. by exists m.
  - intros (Hidle & m & Hm & Hage). exists f. split.
    + apply filter_In. split; [by apply list_elem_of_In|done].
    + apply list_elem_of_In, elem_of_scan_file. fold filepath.
      split_and!; [done..|]. by exists m.
Qed.

Lemma scanner_selects_stable_idle_witness :
  (text, "/vault/_INPUT_TEXT/old.md")
    ∈ _scan "/vault/_INPUT_TEXT" (Some ["old.md"; "fresh.txt"]) settled ∧
  ¬ (text, "/vault/_INPUT_TEXT/fresh.txt")
    ∈ _scan "/vault/_INPUT_TEXT" (Some ["old.md"; "fresh.txt"]) settled.
Proof.
  split.
  - apply (proj2 (scanner_selects_stable_idle "/vault/_INPUT_TEXT"
                    ["old.md"; "fresh.txt"] settled "old.md"
                    ltac:(by left) eq_refl)).
    split; [reflexivity|]. exists 40%Q. split; [reflexivity|]. by vm_compute.
  - intros H.
    apply (proj1 (scanner_selects_stable_idle "/vault/_INPUT_TEXT"
                    ["old.md"; "fresh.txt"] settled "fresh.txt"
                    ltac:(by right; left) eq_refl)) in H.
    destruct H as (_ & m & [= <-] & Hage). by vm_compute in Hage.
Defined.

(** ** The debounce manager *)

Lemma del_app_head {V} (kept rest : Py.dict V) p v :
  p ∉ Py.keys kept → Py.del (kept ++ (p, v) :: rest) p = kept ++ rest.
Proof.
  unfold Py.keys. induction kept as [|[k0 v0] kept IH]; csimpl; intros Hnotin.
  - by rewrite decide_True.
  - rewrite decide_False by set_solver. f_equal. apply IH. set_solver.
Qed.

Lemma collect_due_spec now kept items to_process :
  Py.wf (kept ++ items) →
  collect_due now items to_process (kept ++ items)
  = (to_process ++ due_of now items, kept ++ keep_of now items).
Proof.
  revert kept to_process.
  induction items as [|[p [e k]] items IH]; intros kept to_process Hwf.
  - unfold due_of, keep_of. simpl. by rewrite !app_nil_r.
  - unfold due_of, keep_of, is_due in *. simpl.
    destruct (Qle_bool e now) eqn:E; simpl.
    + rewrite del_app_head.
      * rewrite IH; [by rewrite <- app_assoc|].
        unfold Py.wf, Py.keys in *. rewrite fmap_app in *. csimpl in Hwf.
        apply NoDup_app in Hwf as (H1 & H2 & H3).
        apply NoDup_cons in H3 as [H3 H4].
        apply NoDup_app. split_and!; [done| |done]. set_solver.
      * unfold Py.wf, Py.keys in *. rewrite fmap_app in Hwf. csimpl in Hwf.
        apply NoDup_app in Hwf as (H1 & H2 & H3). set_solver.
    + specialize (IH (kept ++ [(p, (e, k))]) to_process).
      rewrite <- !app_assoc in IH. simpl in IH. by apply IH.
Qed.

Lemma monitor_collect_spec now self :
  Py.wf (pending self) →
  monitor_collect now self
  = (due_of now (pending self),
     {| delay := delay self; pending := keep_of now (pending self) |}).
Proof.
  intros Hwf. unfold monitor_collect.
  pose proof (collect_due_spec now [] (pending self) [] Hwf) as H.
  simpl in H. by rewrite H.
Qed.

Lemma wf_filter {V} (f : string * V → bool) (d : Py.dict V) :
  Py.wf d → Py.wf (List.filter f d).
Proof.
  unfold Py.wf, Py.keys. induction d as [|[k0 v0] d IH]; csimpl; [done|].
  intros [Hnotin Hnd]%NoDup_cons. destruct (f (k0, v0)); csimpl; [|by apply IH].
  apply NoDup_cons. split; [|by apply IH].
  intros Hin. apply Hnotin. apply list_elem_of_fmap in Hin as ([k1 v1] & -> & Hin).
  apply list_elem_of_In, filter_In in Hin as [Hin _].
  apply list_elem_of_fmap. exists (k1, v1). split; [done|].
  by apply list_elem_of_In.
Qed.

Lemma get_filter {V} (f : string * V → bool) (d : Py.dict V) p :
  Py.wf d →
  Py.get (List.filter f d) p
  = Py.get d p ≫= (λ v, if f (p, v) then Some v else None).
Proof.
  unfold Py.wf, Py.keys. induction d as [|[k0 v0] d IH]; csimpl; [done|].
  intros [Hnotin Hnd]%NoDup_cons.
  destruct (decide (k0 = p)) as [->|Hne]; csimpl.
  - destruct (f (p, v0)); csimpl.
    + by rewrite decide_True.
    + rewrite IH by done. apply get_None_keys in Hnotin. by rewrite Hnotin.
  - destruct (f (k0, v0)); csimpl.
    + rewrite decide_False by done. by apply IH.
    + by apply IH.
Qed.

(** The jobs a tick submits for a path: one, when its entry is due and the
    path is not in flight. *)
Lemma jobs_for_monitor now busy (d : Py.dict (Q * task_type)) p :
  Py.wf d →
  jobs_for p (flat_map (λ entry, monitor_emit (busy entry.1) entry) (due_of now d))
  = match Py.get d p with
    | Some (e, k) =>
        if Qle_bool e now then (if busy p then [] else [(k, p)]) else []
    | None => []
    end.
Proof.
  unfold Py.wf, Py.keys, due_of, jobs_for, is_due.
  induction d as [|[k0 [e0 t0]] d IH]; csimpl; [done|].
  intros [Hnotin Hnd]%NoDup_cons.
  assert (Py.get d k0 = None) as Hnone by (by apply get_None_keys).
  destruct (Qle_bool e0 now) eqn:E; csimpl.
  - rewrite List.filter_app, IH by done. unfold monitor_emit. simpl.
    destruct (decide (k0 = p)) as [->|Hne].
    + rewrite Hnone, app_nil_r, E. destruct (busy p); simpl; [done|].
      by rewrite bool_decide_true.
    + destruct (busy k0); simpl; [done|]. by rewrite bool_decide_false.
  - rewrite IH by done. destruct (decide (k0 = p)) as [->|Hne]; [|done].
    by rewrite Hnone, E.
Qed.

Lemma jobs_for_app p q1 q2 : jobs_for p (q1 ++ q2) = jobs_for p q1 ++ jobs_for p q2.
Proof. unfold jobs_for. apply List.filter_app. Qed.

Lemma run_app trace1 trace2 st :
  run (trace1 ++ trace2) st = run trace2 (run trace1 st).
Proof. unfold run. apply foldl_app. Qed.

(** Every call keeps the delay and the representation invariant. *)
Lemma call_step_wf c st :
  Py.wf (pending st.1) → Py.wf (pending (call_step c st).1).
Proof.
  intros Hwf. destruct c as [now q k|q|now busy]; simpl.
  - by apply wf_set.
  - case_bool_decide; [by apply wf_del|done].
  - unfold _monitor. rewrite monitor_collect_spec by done. simpl.
    by apply wf_filter.
Qed.

Lemma call_step_delay c st : delay (call_step c st).1 = delay st.1.
Proof.
  destruct c as [now q k|q|now busy]; simpl; [done..|].
  unfold _monitor, monitor_collect.
  by destruct (collect_due now (pending st.1) [] (pending st.1)).
Qed.

Lemma run_wf trace st :
  Py.wf (pending st.1) → Py.wf (pending (run trace st).1).
Proof.
  revert st. induction trace as [|c trace IH]; intros st Hwf; [done|].
  change (run (c :: trace) st) with (run trace (call_step c st)).
  apply IH. by apply call_step_wf.
Qed.

Lemma run_delay trace st : delay (run trace st).1 = delay st.1.
Proof.
  revert st. induction trace as [|c trace IH]; intros st; [done|].
  change (run (c :: trace) st) with (run trace (call_step c st)).
  rewrite IH. apply call_step_delay.
Qed.

(** A tick on a well-formed manager, for one path. *)
Lemma tick_effect now busy st p :
  Py.wf (pending st.1) →
  let st' := call_step (Tick now busy) st in
  match Py.get (pending st.1) p with
  | Some (e, k) =>
      if Qle_bool e now
      then Py.get (pending st'.1) p = None ∧
           jobs_for p st'.2
           = jobs_for p st.2 ++ (if busy p then [] else [(k, p)])
      else Py.get (pending st'.1) p = Some (e, k) ∧
           jobs_for p st'.2 = jobs_for p st.2
  | None =>
      Py.get (pending st'.1) p = None ∧ jobs_for p st'.2 = jobs_for p st.2
  end.
Proof.
  intros Hwf. simpl. unfold _monitor. rewrite monitor_collect_spec by done.
  simpl. rewrite jobs_for_app, jobs_for_monitor by done.
  unfold keep_of. rewrite get_filter by done. unfold is_due.
  destruct (Py.get (pending st.1) p) as [[e k]|]; simpl.
  - destruct (Qle_bool e now); simpl; [done|]. by rewrite app_nil_r.
  - by rewrite app_nil_r.
Qed.

Lemma burst_effect d p t k trace st :
  burst d p t k trace →
  delay st.1 = d →
  Py.wf (pending st.1) →
  Py.get (pending (run trace st).1) p = Some ((t + d)%Q, k) ∧
  jobs_for p (run trace st).2 = jobs_for p st.2.
Proof.
  intros Hburst Hd Hwf.
  induction Hburst as [t k|t k trace t' k' _ IH|t k trace now busy _ IH Hearly
                      |t k trace t' q k' _ IH Hq|t k trace q _ IH Hq].
  - simpl. rewrite Hd. split; [apply get_set_eq|done].
  - rewrite run_app. simpl. rewrite run_delay, Hd.
    split; [apply get_set_eq|]. apply IH.
  - destruct IH as [Hget Hjobs]. rewrite run_app.
    pose proof (tick_effect now busy (run trace st) p (run_wf trace st Hwf)) as Ht.
    cbv zeta in Ht. rewrite Hget in Ht.
    destruct (Qle_bool (t + d) now) eqn:E.
    { apply Qle_bool_iff in E. by apply Qle_not_lt in E. }
    change (run [Tick now busy] (run trace st))
      with (call_step (Tick now busy) (run trace st)).
    destruct Ht as [Hget' Hjobs']. split; [done|congruence].
  - destruct IH as [Hget Hjobs]. rewrite run_app. simpl.
    by rewrite get_set_ne.
  - destruct IH as [Hget Hjobs]. rewrite run_app. simpl.
    case_bool_decide; [|done]. by rewrite get_del_ne.
Qed.

(** C4 (as amended).  The pending map never holds two entries for a path.
    After a burst of schedule calls for [p], the last at time [t], the
    entry of [p] is the last one written, with fire time [t + delay], and
    nothing was submitted for [p] during the burst; the first tick at or
    after the fire time removes the entry and submits one job for [p] when
    [p] is not in flight at that tick, and none when it is. *)
Theorem debounce_coalescing (d : Q) (history trace : list call) (p : string)
    (t : Q) (k : task_type) :
  burst d p t k trace →
  let st0 := run history (DebounceManager_init d, []) in
  let st := run trace st0 in
  (∀ calls, Py.wf (pending (run calls (DebounceManager_init d, [])).1)) ∧
  Py.get (pending st.1) p = Some ((t + d)%Q, k) ∧
  jobs_for p st.2 = jobs_for p st0.2 ∧
  ∀ now busy, (t + d <= now)%Q →
    let st' := run [Tick now busy] st in
    Py.get (pending st'.1) p = None ∧
    jobs_for p st'.2 = jobs_for p st.2 ++ (if busy p then [] else [(k, p)]).
Proof.
  intros Hburst st0 st.
  assert (∀ calls, Py.wf (pending (run calls (DebounceManager_init d, [])).1))
    as Hwf.
  { intros calls. apply run_wf. simpl. apply NoDup_nil_2. }
  assert (delay st0.1 = d) as Hd by (unfold st0; by rewrite run_delay).
  destruct (burst_effect d p t k trace st0 Hburst Hd (Hwf history))
    as [Hget Hjobs].
  split_and!; [done..|].
  intros now busy Hdue st'.
  assert (Py.wf (pending st.1)) as Hwf'.
  { unfold st. apply run_wf, Hwf. }
  pose proof (tick_effect now busy st p Hwf') as Ht. cbv zeta in Ht.
  fold st in Hget. rewrite Hget in Ht.
  apply Qle_bool_iff in Hdue. by rewrite Hdue in Ht.
Qed.

Lemma debounce_coalescing_witness :
  let st := run [Schedule 0 "note.md" sync_update; Tick 1 (λ _, false);
                 Schedule (3 # 2) "note.md" sync_update]
              (DebounceManager_init 15, []) in
  Py.get (pending st.1) "note.md" = Some ((3 # 2) + 15, sync_update)%Q ∧
  jobs_for "note.md" (run [Tick 17 (λ _, false)] st).2
  = [(sync_update, "note.md")].
Proof.
  intros st.
  assert (burst 15 "note.md" (3 # 2) sync_update
            [Schedule 0 "note.md" sync_update; Tick 1 (λ _, false);
             Schedule (3 # 2) "note.md" sync_update]) as Hburst.
  { apply (burst_again 15 "note.md" 0 sync_update
             [Schedule 0 "note.md" sync_update; Tick 1 (λ _, false)]).
    apply (burst_tick 15 "note.md" 0 sync_update
             [Schedule 0 "note.md" sync_update]); [constructor|reflexivity]. }
  pose proof (debounce_coalescing 15 [] _ "note.md" (3 # 2) sync_update Hburst)
    as (_ & Hget & _ & Hfire).
  split; [exact Hget|].
  destruct (Hfire 17%Q (λ _, false)) as [_ Hjobs]; [by vm_compute|].
  exact Hjobs.
Defined.

(** C4, the claim as stated fails: a path scheduled once and in flight when
    its entry falls due gets no job at all; the entry is dropped. *)
Lemma debounce_drops_in_flight :
  let trace := [Schedule 0 "note.md" sync_update] in
  let st := run (trace ++ [Tick 15 (λ _, true)]) (DebounceManager_init 15, []) in
  burst 15 "note.md" 0 sync_update trace ∧
  (0 + 15 <= 15)%Q ∧
  jobs_for "note.md" st.2 = [] ∧
  pending st.1 = [].
Proof.
  split_and!; [constructor|by vm_compute|reflexivity|reflexivity].
Qed.

(** ** The passes as sequences of atomic actions *)

Lemma scan_file_steps folder names obs (s : State) :
  scan_folder s = folder →
  scan_files s = names →
  (∀ p, in_flight obs p = bool_decide (p ∈ processing_files s)) →
  ∃ s',
    steps ((λ f, ScanFile (clock obs (OS.join folder f))
                   (getmtime obs (OS.join folder f))) <$> names) s = Some s' ∧
    job_queue s'
    = job_queue s
      ++ flat_map (λ f, scan_file folder f (in_flight obs (OS.join folder f))
                          (clock obs (OS.join folder f))
                          (getmtime obs (OS.join folder f))) names ∧
    processing_files s' = processing_files s ∧
    debouncer s' = debouncer s ∧
    workers s' = workers s.
Proof.
  revert s. induction names as [|f names IH]; intros s Hfolder Hfiles Hobs.
  - exists s. simpl. by rewrite app_nil_r.
  - cbn [fmap list_fmap steps step]. rewrite Hfiles, Hfolder.
    edestruct (IH (put (scan_file folder f
                          (bool_decide (OS.join folder f ∈ processing_files s))
                          (clock obs (OS.join folder f))
                          (getmtime obs (OS.join folder f)))
                     (set_scan_files names s)))
      as (s' & Hsteps & Hq & Hpf & Hd & Hw); [done..|].
    exists s'. split; [exact Hsteps|].
    rewrite Hq, Hpf, Hd, Hw. simpl. rewrite Hobs, <- app_assoc. done.
Qed.

(** A scanner pass that no other thread interrupts puts the jobs of
    [_scan]. *)
Lemma scan_labels_pass names obs (s : State) :
  scan_files s = [] →
  (∀ p, in_flight obs p = bool_decide (p ∈ processing_files s)) →
  ∃ s',
    steps (scan_labels (scan_folder s) names obs) s = Some s' ∧
    job_queue s' = job_queue s ++ _scan (scan_folder s) (Some names) obs.
Proof.
  intros Hfiles Hobs. unfold scan_labels. cbn [steps step]. rewrite Hfiles.
  destruct (scan_file_steps (scan_folder s) (scan_candidates names) obs
              (set_scan_files (scan_candidates names) s))
    as (s' & Hsteps & Hq & _); [done..|].
  exists s'. split; [exact Hsteps|]. by rewrite Hq.
Qed.

Lemma monitor_emit_steps (due : list (string * task_type)) (s : State) :
  to_process s = due →
  ∃ s',
    steps (replicate (length due) MonitorEmit) s = Some s' ∧
    job_queue s'
    = job_queue s
      ++ flat_map (λ entry, monitor_emit
                              (bool_decide (entry.1 ∈ processing_files s))
                              entry) due ∧
    processing_files s' = processing_files s ∧
    debouncer s' = debouncer s.
Proof.
  revert s. induction due as [|entry due IH]; intros s Hdue.
  - exists s. simpl. by rewrite app_nil_r.
  - cbn [length replicate steps step]. rewrite Hdue.
    edestruct (IH (put (monitor_emit
                          (bool_decide (entry.1 ∈ processing_files s)) entry)
                     (set_to_process due s)))
      as (s' & Hsteps & Hq & Hpf & Hd); [done|].
    exists s'. split; [exact Hsteps|].
    rewrite Hq, Hpf, Hd. simpl. by rewrite <- app_assoc.
Qed.

(** A monitor tick that no other thread interrupts is the call [_monitor]
    of the traces, with the in-flight set of the state. *)
Lemma monitor_labels_tick now (s : State) :
  to_process s = [] →
  ∃ s',
    steps (monitor_labels now (debouncer s)) s = Some s' ∧
    (debouncer s', job_queue s')
    = call_step (Tick now (λ p, bool_decide (p ∈ processing_files s)))
        (debouncer s, job_queue s).
Proof.
  intros Hidle. unfold monitor_labels. cbn [steps step]. rewrite Hidle.
  simpl call_step. unfold _monitor.
  destruct (monitor_collect now (debouncer s)) as [due d] eqn:E.
  destruct (monitor_emit_steps due (set_to_process due (set_debouncer d s)))
    as (s' & Hsteps & Hq & _ & Hd); [done|].
  exists s'. split; [exact Hsteps|]. by rewrite Hq, Hd.
Qed.

(** ** The worker and the in-flight set *)

Lemma reachable_steps batch ls s s' :
  reachable batch s → steps ls s = Some s' → reachable batch s'.
Proof.
  revert s. induction ls as [|l ls IH]; intros s Hs; simpl.
  - by intros [= <-].
  - destruct (step l s) as [s1|] eqn:E; [|done].
    intros H. apply (IH s1); [|done]. by eapply reachable_step.
Qed.

(** An action of another thread leaves the stage of worker [i] as it is. *)
Lemma step_other_worker l i s s' :
  worker_of l ≠ Some i → step l s = Some s' →
  workers s' !! i = workers s !! i.
Proof.
  intros Hl Hstep. destruct l; simpl in Hstep, Hl; simplify_eq; try done.
  - destruct (to_process s); [|done].
    destruct (monitor_collect now (debouncer s)). by simplify_eq.
  - destruct (to_process s); by simplify_eq.
  - destruct (scan_files s); by simplify_eq.
  - destruct (scan_files s); by simplify_eq.
  - destruct (workers s !! i0) as [[]|], (job_queue s); simplify_eq.
    simpl. apply list_lookup_insert_ne. congruence.
  - destruct (workers s !! i0) as [[]|]; simplify_eq.
    simpl. apply list_lookup_insert_ne. congruence.
  - destruct (workers s !! i0) as [[]|]; simplify_eq.
    simpl. apply list_lookup_insert_ne. congruence.
  - destruct (workers s !! i0) as [[]|]; simplify_eq.
    simpl. apply list_lookup_insert_ne. congruence.
Qed.

Lemma steps_other_worker ls i s s' :
  Forall (λ l, worker_of l ≠ Some i) ls → steps ls s = Some s' →
  workers s' !! i = workers s !! i.
Proof.
  intros Hls. revert s. induction Hls as [|l ls Hl _ IH]; intros s; simpl.
  - by intros [= <-].
  - destruct (step l s) as [s1|] eqn:E; [|done].
    intros H. rewrite (IH s1 H). by eapply step_other_worker.
Qed.

Lemma invariant_initial batch : invariant (initial batch).
Proof.
  split; [done|]. intros i j [H|H]; by destruct i.
Qed.

Lemma invariant_step l s s' :
  invariant s → step l s = Some s' → invariant s'.
Proof.
  intros [Hlen Hin] Hstep. unfold invariant, holds in *.
  destruct l; simpl in Hstep.
  - by simplify_eq.
  - by simplify_eq.
  - by simplify_eq.
  - destruct (to_process s); [|done].
    destruct (monitor_collect now (debouncer s)). by simplify_eq.
  - destruct (to_process s); by simplify_eq.
  - destruct (scan_files s); by simplify_eq.
  - destruct (scan_files s); by simplify_eq.
  - by simplify_eq.
  - destruct (workers s !! i) as [[]|] eqn:Hw, (job_queue s); simplify_eq.
    simpl. rewrite length_insert. split; [done|].
    intros i' j' Hholds. apply (Hin i' j').
    apply lookup_lt_Some in Hw.
    assert (i = 0) as -> by lia.
    destruct (workers s) as [|w [|]]; simplify_eq/=.
    destruct i'; simpl in Hholds; naive_solver.
  - destruct (workers s !! i) as [[]|] eqn:Hw; simplify_eq.
    simpl. rewrite length_insert. split; [done|].
    intros i' j' Hholds.
    pose proof (lookup_lt_Some _ _ _ Hw).
    assert (i = 0) as -> by lia.
    destruct (workers s) as [|w [|]]; simplify_eq/=.
    destruct i'; simpl in Hholds; [|naive_solver].
    destruct Hholds as [[= ->]|[=]]. set_solver.
  - destruct (workers s !! i) as [[]|] eqn:Hw; simplify_eq.
    simpl. rewrite length_insert. split; [done|].
    intros i' j' Hholds.
    pose proof (lookup_lt_Some _ _ _ Hw).
    assert (i = 0) as -> by lia.
    destruct (workers s) as [|w [|]] eqn:Hws; simplify_eq/=.
    destruct i'; simpl in Hholds; [|naive_solver].
    destruct Hholds as [[=]|[= ->]]. apply (Hin 0 j'). by left.
  - destruct (workers s !! i) as [[]|] eqn:Hw; simplify_eq.
    simpl. rewrite length_insert. split; [done|].
    intros i' j' Hholds.
    pose proof (lookup_lt_Some _ _ _ Hw).
    assert (i = 0) as -> by lia.
    destruct (workers s) as [|w [|]] eqn:Hws; simplify_eq/=.
    destruct i'; simpl in Hholds; naive_solver.
Qed.

Lemma invariant_reachable batch s : reachable batch s → invariant s.
Proof.
  induction 1 as [|s l s' _ IH Hstep].
  - apply invariant_initial.
  - by eapply invariant_step.
Qed.

(** C1.  In every state of an execution of [main], whatever the event
    handlers, the debounce monitor and the scanner did, at most one pipeline
    pass is in progress for a path, and the path of a pass in progress is
    in the in-flight set (it stays there through the cooldown). *)
Theorem at_most_one_pass_in_flight (batch : string) (s : State) :
  reachable batch s →
  (∀ p, length (jobs_for p (passes s)) ≤ 1) ∧
  (∀ i j, workers s !! i = Some (Running j) → j.2 ∈ processing_files s) ∧
  (∀ i j, workers s !! i = Some (Cooldown j) → j.2 ∈ processing_files s).
Proof.
  intros Hreach. apply invariant_reachable in Hreach as [Hlen Hin].
  split_and!.
  - intros p. unfold jobs_for, passes.
    destruct (workers s) as [|w [|]]; simplify_eq/=.
    destruct w; simpl; try lia. case_bool_decide; simpl; lia.
  - intros i j H. apply (Hin i j). by left.
  - intros i j H. apply (Hin i j). by right.
Qed.

Lemma at_most_one_pass_in_flight_witness :
  length (jobs_for note_txt (passes note_running)) ≤ 1 ∧
  note_txt ∈ processing_files note_running.
Proof.
  assert (reachable "/vault/_INPUT_TEXT" note_running) as Hreach.
  { apply (reachable_steps "/vault/_INPUT_TEXT"
             [MainPut note_job; WorkerGet 0; WorkerMark 0]
             (initial "/vault/_INPUT_TEXT")); [constructor|reflexivity]. }
  destruct (at_most_one_pass_in_flight "/vault/_INPUT_TEXT" note_running Hreach)
    as (Hone & Hrun & _).
  split; [apply Hone|]. by apply (Hrun 0 note_job).
Defined.

(** With a second worker thread the in-flight set would not keep two passes
    for one path apart: a worker adds the path without testing it. *)
Remark two_workers_overlap :
  passes <$> steps [MainPut note_job; MainPut note_job; WorkerGet 0;
                    WorkerMark 0; WorkerGet 1; WorkerMark 1]
               (initial_two_workers "/vault/_INPUT_TEXT")
  = Some [note_job; note_job].
Proof. reflexivity. Qed.

(** The [finally] block: from the cooldown, the release removes the path
    and leaves the worker at the head of its loop, ready for the next job. *)
Lemma worker_release s i j :
  workers s !! i = Some (Cooldown j) →
  ∃ s',
    step (WorkerRelease i) s = Some s' ∧
    (j.2 ∉ processing_files s') ∧
    workers s' !! i = Some Idle ∧
    ∀ j' q, job_queue s' = j' :: q →
            ∃ s'', step (WorkerGet i) s' = Some s'' ∧
                   workers s'' !! i = Some (Dequeued j').
Proof.
  intros Hw. simpl. rewrite Hw. eexists. split; [done|]. simpl.
  assert (i < length (workers s)) as Hlt by (by apply lookup_lt_Some in Hw).
  split_and!.
  - set_solver.
  - by apply list_lookup_insert_eq.
  - intros j' q Hq. rewrite list_lookup_insert_eq, Hq by done.
    eexists. split; [done|]. simpl.
    apply list_lookup_insert_eq. by rewrite length_insert.
Qed.

(** A sync job never reports a created file, and its [try] block never
    ends with an exception: [sync_existing_file] catches them all. *)
Lemma try_block_sync_update env config filepath (fs : OS.store) :
  (try_block env config (sync_update, filepath) fs).1 = Skipped ∨
  (try_block env config (sync_update, filepath) fs).1 = Returned None.
Proof.
  unfold try_block, dispatch. simpl.
  destruct (OS.exists_ filepath fs); [right|by left].
  unfold OS.bind, Pipeline.sync_existing_file, OS.try_except.
  destruct (OS.bind (OS.read_file filepath) _ fs) as [[[]|e] fs']; done.
Qed.

(** C5.  For a dequeued job the worker marks the path and enters its [try]
    block; whatever way the block ends (the file was gone, the pipeline
    returned, an exception was raised), the worker reaches its [finally]
    block; and whatever the other threads do meanwhile, the release then
    removes the path of the job from the in-flight set and leaves the
    worker at the head of its loop, where it takes the next job of the
    queue. *)
Theorem worker_cleanup_always_runs (s : State) (i : nat) (j : job)
    (o : outcome) :
  workers s !! i = Some (Dequeued j) →
  ∃ s0,
    step (WorkerMark i) s = Some s0 ∧
    j.2 ∈ processing_files s0 ∧
    ∀ ls0 s0',
      Forall (λ l, worker_of l ≠ Some i) ls0 →
      steps ls0 s0 = Some s0' →
      ∃ s1,
        step (WorkerFinish i o) s0' = Some s1 ∧
        ∀ ls s2,
          Forall (λ l, worker_of l ≠ Some i) ls →
          steps ls s1 = Some s2 →
          ∃ s3,
            step (WorkerRelease i) s2 = Some s3 ∧
            (j.2 ∉ processing_files s3) ∧
            workers s3 !! i = Some Idle ∧
            ∀ j' q, job_queue s3 = j' :: q →
                    ∃ s4, step (WorkerGet i) s3 = Some s4 ∧
                          workers s4 !! i = Some (Dequeued j').
Proof.
  intros Hdeq. simpl. rewrite Hdeq. eexists. split; [done|].
  split; [simpl; set_solver|].
  intros ls0 s0' Hls0 Hsteps0.
  apply (steps_other_worker ls0 i) in Hsteps0 as Hw0; [|done].
  simpl in Hw0. rewrite list_lookup_insert_eq in Hw0
    by (by apply lookup_lt_Some in Hdeq).
  rewrite Hw0. eexists. split; [done|].
  intros ls s2 Hls Hsteps.
  apply (steps_other_worker ls i) in Hsteps as Hw; [|done].
  simpl in Hw. rewrite list_lookup_insert_eq in Hw
    by (by apply lookup_lt_Some in Hw0).
  by apply worker_release.
Qed.

Lemma worker_cleanup_always_runs_witness :
  ∃ s0 s1 s3,
    step (WorkerMark 0) note_dequeued = Some s0 ∧
    step (WorkerFinish 0 (Raised OS.TypeError)) s0 = Some s1 ∧
    step (WorkerRelease 0) s1 = Some s3 ∧
    (note_txt ∉ processing_files s3) ∧
    workers s3 !! 0 = Some Idle.
Proof.
  destruct (worker_cleanup_always_runs note_dequeued 0 note_job
              (Raised OS.TypeError) eq_refl) as (s0 & Hmark & _ & Hfinish).
  destruct (Hfinish [] s0 (Forall_nil_2 _) eq_refl) as (s1 & Hstep1 & Hrelease).
  destruct (Hrelease [] s1 (Forall_nil_2 _) eq_refl)
    as (s3 & Hstep3 & Hgone & Hidle & _).
  exists s0, s1, s3. auto.
Defined.

End MainSpec.

(* ===================================================================== *)
(** * Further properties of the pipeline ([pipeline.py]) *)
(* ===================================================================== *)

Module PipelineExtra.
Import OS Pipeline PyFacts Scenarios Fixtures PipelineSpec.

(** ** Enrichment *)

(** X1.  The title [_enrich_content] returns is never empty: an empty
    answer of the model, an answer that is no JSON object, and an object
    without a title (or with an empty one) all give the sentinel
    "Untitled"; in the first two cases the whole result is the default
    record. *)
Theorem enrich_content_title_never_empty (env : Env) (config : PipelineConfig)
    (text : string) :
  let ai := _enrich_content env config text in
  title ai ≠ "" ∧
  ((∀ s u, chat_completion env s u = "") → ai = defaults) ∧
  ((∀ c, json_loads env c = None) → ai = defaults) ∧
  ((∀ c data, json_loads env c = Some data →
       j_title data = None ∨ j_title data = Some "") →
   title ai = "Untitled").
Proof.
  intros ai. unfold ai, _enrich_content. split_and!.
  - destruct (Py.truthy (chat_completion env _ _)); simpl; [|done].
    destruct (json_loads env _) as [data|]; simpl; [|done].
    destruct (j_title data) as [t|]; [|done].
    destruct (Py.truthy t) eqn:E; [|done]. by apply truthy_spec.
  - intros Hmute. by rewrite Hmute.
  - intros Hbad. rewrite Hbad. by destruct (negb _).
  - intros Hnotitle.
    destruct (Py.truthy (chat_completion env _ _)); simpl; [|done].
    destruct (json_loads env _) as [data|] eqn:E; simpl; [|done].
    by destruct (Hnotitle _ _ E) as [-> | ->].
Qed.

Lemma enrich_content_title_never_empty_witness :
  _enrich_content llm_down vault "Hello world" = defaults ∧
  _enrich_content llm_mute vault "Hello world" = defaults.
Proof.
  split.
  - apply (proj1 (proj2 (enrich_content_title_never_empty llm_down vault
                           "Hello world"))).
    reflexivity.
  - apply (proj1 (proj2 (proj2 (enrich_content_title_never_empty llm_mute vault
                                  "Hello world")))).
    reflexivity.
Defined.

(** X2.  The enrichment sends the first 2500 characters of the text
    only: what follows them does not change its result.  Stated for an
    ASCII text, whose bytes are the characters that [text[:2500]]
    counts. *)
Theorem enrichment_reads_excerpt_only (env : Env) (config : PipelineConfig)
    (text suffix : string) :
  Forall (λ c, Ascii.nat_of_ascii c < 128) (Py.chars text) →
  2500 ≤ length (Py.chars text) →
  _enrich_content env config (text +:+ suffix) = _enrich_content env config text.
Proof.
  intros _ Hlen. unfold _enrich_content, Py.slice_to.
  by rewrite chars_app, take_app_le.
Qed.

Lemma enrichment_reads_excerpt_only_witness :
  let text := Py.str (replicate 2500 "x"%char) in
  _enrich_content sync_down vault (text +:+ " and more")
  = _enrich_content sync_down vault text.
Proof.
  intros text.
  apply (enrichment_reads_excerpt_only sync_down vault text " and more").
  - unfold text. rewrite chars_str. apply Forall_replicate. vm_compute. lia.
  - unfold text. rewrite chars_str, length_replicate. lia.
Defined.

(** ** Sync *)

(** X3.  For a scalar entry type and tags that can be searched (or a forced
    focus), [_sync_file] does not raise, and it answers [True] exactly when
    the upload returned a non-empty id: a failed link to the collection of
    the type or to the focus collection does not make the sync fail. *)
Theorem sync_file_result (env : Env) (config : PipelineConfig)
    (filepath : string) (entry_type tags force_focus : yval) :
  (∀ l, entry_type ≠ YSeq l) →
  ytruthy force_focus = true ∨ (∃ l, tags = YSeq l) ∨ (∃ s, tags = YStr s) →
  _sync_file env config filepath entry_type tags force_focus
  = Ok (match upload_file env filepath (basename filepath) with
        | Some fid => Py.truthy fid
        | None => false
        end).
Proof.
  intros Hscalar Htags. unfold _sync_file.
  destruct (upload_file env filepath (basename filepath)) as [fid|]; [|done].
  destruct (Py.truthy fid); simpl; [|done].
  assert (∃ tc, content_types_get config entry_type = Ok tc) as [tc ->].
  { destruct entry_type as [| | |l]; simpl; try by eexists.
    by destruct (Hscalar l). }
  destruct (ytruthy force_focus) eqn:E; [done|].
  destruct Htags as [?|[[l ->]|[s ->]]]; done.
Qed.

Lemma sync_file_result_witness :
  _sync_file llm_mute vault journal_1 (YStr "Journal") (YSeq ["FOCUS"])
    (YBool false) = Ok true ∧
  _sync_file sync_down vault journal_1 (YStr "Journal") (YSeq []) (YBool true)
  = Ok false.
Proof.
  split.
  - apply (sync_file_result llm_mute vault journal_1 (YStr "Journal")
             (YSeq ["FOCUS"]) (YBool false)).
    + intros l. discriminate.
    + right. left. by eexists.
  - apply (sync_file_result sync_down vault journal_1 (YStr "Journal")
             (YSeq []) (YBool true)).
    + intros l. discriminate.
    + by left.
Defined.

(** ** Audio input *)

(** X4.  When the transcriber raises or returns an empty transcript,
    [process_audio] returns [None] and touches no file: the recording is
    neither archived nor removed, and no document is written. *)
Theorem process_audio_without_transcript (env : Env) (config : PipelineConfig)
    (filepath : string) (fs : store) :
  (∀ text, transcribe env filepath = Ok text → text = "") →
  process_audio env config filepath fs = (Ok None, fs).
Proof.
  intros Hempty. unfold process_audio.
  destruct (transcribe env filepath) as [text|e]; [|done].
  by rewrite (Hempty text eq_refl).
Qed.

Lemma process_audio_without_transcript_witness :
  let fs := {[ memo_m4a := "RIFF" ]} : store in
  process_audio deaf vault memo_m4a fs = (Ok None, fs).
Proof.
  intros fs. apply (process_audio_without_transcript deaf vault memo_m4a fs).
  intros text. discriminate.
Defined.

(** X5.  With a transcript, [process_audio] writes the document at a fresh
    path and then either returns that path with the recording moved to the
    archive folder (it is gone from the input folder and the archive holds
    its bytes), or raises [SameFileError] with the recording left in place:
    that happens only for an incomplete document whose retry copy would be
    the document itself. *)
Theorem process_audio_archives (env : Env) (config : PipelineConfig)
    (filepath audio text : string) (fs : store) :
  fs !! filepath = Some audio →
  transcribe env filepath = Ok text →
  text ≠ "" →
  let out := process_audio env config filepath fs in
  let archive := join (paths_archive config) (basename filepath) in
  ∃ n,
    let final_path := ingestion_path env config text filepath n in
    let retry := retry_copy_path env config text filepath n in
    fs !! final_path = None ∧
    ((out.1 = Ok (Some final_path) ∧
      (filepath ≠ archive → out.2 !! filepath = None) ∧
      (retry ≠ filepath → out.2 !! archive = Some audio))
     ∨
     (out.1 = Raise SameFileError ∧
      final_path = retry ∧
      fully_completed env config text filepath = false ∧
      out.2 = <[final_path :=
                  document_of env config text (basename filepath) filepath n]> fs)).
Proof.
  intros Hfile Htr Htext out archive.
  destruct (run_ingestion_unfold env config text (basename filepath) filepath
              false fs) as (n & Hn & Hrun).
  exists n. cbv zeta in *.
  apply counter_loop_Some in Hn as (_ & Hfree & _).
  split; [done|].
  assert (ingestion_path env config text filepath n ≠ filepath) as Hne.
  { intros Heq. unfold ingestion_path in Heq. congruence. }
  assert (Py.truthy text = true) as Htruthy by by apply truthy_spec.
  set (final_path := ingestion_path env config text filepath n) in *.
  set (retry := retry_copy_path env config text filepath n) in *.
  set (doc := document_of env config text (basename filepath) filepath n) in *.
  set (finish := λ a : string,
         (if Py.truthy a then move filepath archive else ret ()) ;;
         ret (Some a)).
  assert (out = match (if fully_completed env config text filepath
                       then (Ok final_path, <[final_path := doc]> fs)
                       else (copy2 final_path retry ;; ret final_path)
                              (<[final_path := doc]> fs)) with
                | (Ok a, fs') => finish a fs'
                | (Raise e, fs') => (Raise e, fs')
                end) as Hout.
  { unfold out, process_audio. cbv zeta.
    rewrite Htr, Htruthy. change (negb true) with false. cbv iota.
    unfold bind at 1. by rewrite Hrun, orb_false_r. }
  clearbody out. subst out.
  assert (∀ content (fs' : store), fs' !! filepath = Some content →
            (finish final_path fs').1 = Ok (Some final_path) ∧
            (filepath ≠ archive → (finish final_path fs').2 !! filepath = None) ∧
            (finish final_path fs').2 !! archive = Some content) as Hmove.
  { intros content fs' Hsrc. unfold finish, final_path, ingestion_path.
    rewrite final_path_not_empty. unfold bind, move, ret. rewrite Hsrc.
    case_decide as Hsame; simpl.
    - split_and!; [done|done|by rewrite <- Hsame].
    - split_and!; [done| |apply lookup_insert_eq].
      intros _. rewrite lookup_insert_ne by done. apply lookup_delete_eq. }
  destruct (fully_completed env config text filepath) eqn:Hfull.
  - left. destruct (Hmove audio (<[final_path := doc]> fs)) as (H1 & H2 & H3).
    { by rewrite lookup_insert_ne. }
    done.
  - unfold bind, copy2, ret. rewrite lookup_insert_eq.
    case_decide as Hsame; [by right|]. cbv beta iota.
    left. destruct (decide (retry = filepath)) as [Heq|Hneq].
    + destruct (Hmove doc (<[retry := doc]> (<[final_path := doc]> fs)))
        as (H1 & H2 & H3).
      { rewrite Heq. apply lookup_insert_eq. }
      done.
    + destruct (Hmove audio (<[retry := doc]> (<[final_path := doc]> fs)))
        as (H1 & H2 & H3).
      { rewrite lookup_insert_ne by done. by rewrite lookup_insert_ne. }
      done.
Qed.

Lemma process_audio_archives_witness :
  let fs := {[ memo_m4a := "RIFF" ]} : store in
  let out := process_audio llm_down vault memo_m4a fs in
  ∃ n,
    let final_path := ingestion_path llm_down vault "Hello world" memo_m4a n in
    let retry := retry_copy_path llm_down vault "Hello world" memo_m4a n in
    fs !! final_path = None ∧
    ((out.1 = Ok (Some final_path) ∧
      (memo_m4a ≠ "/vault/ARCHIVE/memo.m4a" → out.2 !! memo_m4a = None) ∧
      (retry ≠ memo_m4a → out.2 !! "/vault/ARCHIVE/memo.m4a" = Some "RIFF"))
     ∨
     (out.1 = Raise SameFileError ∧
      final_path = retry ∧
      fully_completed llm_down vault "Hello world" memo_m4a = false ∧
      out.2 = <[final_path :=
                  document_of llm_down vault "Hello world" "memo.m4a"
                    memo_m4a n]> fs)).
Proof.
  intros fs.
  apply (process_audio_archives llm_down vault memo_m4a "RIFF" "Hello world" fs).
  - reflexivity.
  - reflexivity.
  - discriminate.
Defined.

(** ** Text input *)

Lemma process_text_file_ok env config filepath (fs : store) :
  ∃ r, (process_text_file env config filepath fs).1 = Ok r.
Proof.
  unfold process_text_file, try_except. cbv zeta.
  match goal with |- ∃ r, (match ?m with _ => _ end).1 = _ =>
    destruct m as [[r|e] fs'] end; by eexists.
Qed.

(** X6.  [process_text_file] never raises: whatever goes wrong inside is
    answered with [None].  For a path that is not there it returns [None]
    and touches no file. *)
Theorem process_text_file_never_raises (env : Env) (config : PipelineConfig)
    (filepath : string) (fs : store) :
  let out := process_text_file env config filepath fs in
  (∃ r, out.1 = Ok r) ∧
  (fs !! filepath = None → out = (Ok None, fs)).
Proof.
  intros out. split; [apply process_text_file_ok|].
  intros Hgone. unfold out, process_text_file, try_except. cbv zeta.
  unfold bind at 1, read_file at 1. by rewrite Hgone.
Qed.

(** X7.  A file that starts with the front-matter marker but has no
    front-matter that loads as a mapping (fewer than three [---] parts, a
    YAML error, or a YAML document that is no mapping) is answered with
    [None] and left as it is: it is neither ingested as raw text nor
    repaired nor removed, so it stays in the retry root. *)
Theorem process_text_file_malformed_frontmatter (env : Env)
    (config : PipelineConfig) (filepath content : string) (fs : store) :
  fs !! filepath = Some content →
  Py.startswith content "---" = true →
  (∀ pre s part2 rest fm,
     Py.split_on content "---" = pre :: s :: part2 :: rest →
     yaml_safe_load env s ≠ LoadDict fm) →
  process_text_file env config filepath fs = (Ok None, fs).
Proof.
  intros Hfile Hstart Hbad.
  unfold process_text_file, try_except. cbv zeta.
  unfold bind at 1, read_file at 1. rewrite Hfile, Hstart.
  unfold _run_repair_pipeline.
  destruct (Py.split_on content "---") as [|pre [|s [|part2 rest]]]; try done.
  specialize (Hbad pre s part2 rest).
  destruct (yaml_safe_load env s) as [| |fm]; try done.
  by destruct (Hbad fm).
Qed.

Lemma process_text_file_malformed_frontmatter_witness :
  let content := "---" +:+ Py.nl +:+ "title: [" +:+ Py.nl +:+ "---" +:+ Py.nl
                   +:+ "Hello world" in
  let fs := {[ untitled_md := content ]} : store in
  process_text_file llm_mute vault untitled_md fs = (Ok None, fs).
Proof.
  intros content fs.
  apply (process_text_file_malformed_frontmatter llm_mute vault untitled_md
           content fs).
  - reflexivity.
  - reflexivity.
  - intros pre s part2 rest fm Hsplit. vm_compute in Hsplit.
    injection Hsplit as <- <- <- <-. vm_compute. discriminate.
Defined.

(** ** Sync of an edited document *)

Lemma sync_file_false env config filepath entry_type tags force_focus :
  _sync_file env config filepath entry_type tags force_focus = Ok false →
  match upload_file env filepath (basename filepath) with
  | Some fid => Py.truthy fid
  | None => false
  end = false.
Proof.
  unfold _sync_file.
  destruct (upload_file env filepath (basename filepath)) as [fid|]; [|done].
  destruct (Py.truthy fid); simpl; [|done].
  destruct (content_types_get config entry_type); [|done].
  by destruct (if ytruthy force_focus then _ else _).
Qed.

(** X8.  [sync_existing_file] never raises, and the only thing it can do to
    the files is to add a copy of the document to the retry root; it does
    that only when the upload failed, and never when the retry root already
    is where the document lives. *)
Theorem sync_existing_file_outcome (env : Env) (config : PipelineConfig)
    (filepath : string) (fs : store) :
  let out := sync_existing_file env config filepath fs in
  let target := join (text_input_dir config) (basename filepath) in
  out.1 = Ok () ∧
  (out.2 = fs ∨
   ∃ content,
     fs !! filepath = Some content ∧
     filepath ≠ target ∧
     normpath env filepath ≠ normpath env target ∧
     match upload_file env filepath (basename filepath) with
     | Some fid => Py.truthy fid
     | None => false
     end = false ∧
     out.2 = <[target := content]> fs).
Proof.
  intros out target.
  assert (∃ fs', out = (Ok (), fs') ∧
            (fs' = fs ∨
             ∃ content,
               fs !! filepath = Some content ∧
               filepath ≠ target ∧
               normpath env filepath ≠ normpath env target ∧
               match upload_file env filepath (basename filepath) with
               | Some fid => Py.truthy fid
               | None => false
               end = false ∧
               fs' = <[target := content]> fs)) as (fs' & -> & Hfs').
  2: { split; [done|]. destruct Hfs' as [->|Hcopy]; [by left|by right]. }
  unfold out, sync_existing_file, try_except. cbv zeta.
  unfold bind at 1, read_file at 1.
  destruct (fs !! filepath) as [content|] eqn:Hfile;
    [|by exists fs; split; [|left]].
  destruct (Py.split_on content "---") as [|pre [|s [|part2 rest]]];
    try by exists fs; split; [|left].
  destruct (yaml_safe_load env s) as [| |fm];
    try by exists fs; split; [|left].
  unfold bind, lift.
  destruct (_sync_file env config filepath _ _ _) as [[|]|e] eqn:Hsync;
    try by exists fs; split; [|left].
  apply sync_file_false in Hsync. fold target.
  change (negb false) with true. cbv iota.
  destruct (String.eqb (normpath env filepath) (normpath env target)) eqn:Hnorm;
    simpl; [by exists fs; split; [|left]|].
  apply String.eqb_neq in Hnorm.
  unfold copy2. rewrite Hfile.
  case_decide as Hsame; simpl; [by exists fs; split; [|left]|].
  eexists. split; [done|]. right. by exists content.
Qed.

(** X9.  When the upload of an edited document fails and the document is
    not already in the retry root, [sync_existing_file] places a copy of it
    there under its own file name. *)
Theorem sync_existing_file_offloads (env : Env) (config : PipelineConfig)
    (filepath content pre s part2 : string) (rest : list string)
    (fm : Py.dict yval) (fs : store) :
  fs !! filepath = Some content →
  Py.split_on content "---" = pre :: s :: part2 :: rest →
  yaml_safe_load env s = LoadDict fm →
  upload_file env filepath (basename filepath) = None →
  let target := join (text_input_dir config) (basename filepath) in
  normpath env filepath ≠ normpath env target →
  sync_existing_file env config filepath fs
  = (Ok (), <[target := content]> fs).
Proof.
  intros Hfile Hsplit Hload Hup target Hnorm.
  unfold sync_existing_file, try_except. cbv zeta.
  unfold bind at 1, read_file at 1. rewrite Hfile, Hsplit, Hload.
  unfold bind, lift, _sync_file. cbv zeta. rewrite Hup.
  change (negb false) with true. cbv iota.
  fold target. apply String.eqb_neq in Hnorm as Hneq. rewrite Hneq. simpl.
  unfold copy2. rewrite Hfile. rewrite decide_False; [done|].
  intros Heq. apply Hnorm. by rewrite <- Heq.
Qed.

Lemma sync_existing_file_offloads_witness :
  let fs := {[ journal_1 := untitled_content ]} : store in
  sync_existing_file sync_down vault journal_1 fs
  = (Ok (), <[untitled_md := untitled_content]> fs).
Proof.
  intros fs.
  apply (sync_existing_file_offloads sync_down vault journal_1 untitled_content
           "" (Py.nl +:+ dump untitled_frontmatter)
           (Py.nl +:+ Py.nl +:+ "## Transcript" +:+ Py.nl +:+ Py.nl
              +:+ "Hello world")
           [] untitled_frontmatter fs).
  - reflexivity.
  - reflexivity.
  - reflexivity.
  - reflexivity.
  - discriminate.
Defined.

(** ** What an ingestion leaves alone *)

(** X10.  An ingestion writes its document at a path that was free and, for
    an incomplete document that did not come from a text file, a copy of it
    in the retry root; every other file keeps its content, no file is
    removed, and a complete ingestion or one of a text file changes nothing
    but the document. *)
Theorem ingestion_never_overwrites (env : Env) (config : PipelineConfig)
    (text original_filename source_path : string) (is_text_file : bool)
    (fs : store) :
  let out :=
    _run_ingestion_pipeline env config text original_filename source_path
      is_text_file fs in
  ∃ n,
    let final_path := ingestion_path env config text source_path n in
    let retry := retry_copy_path env config text source_path n in
    let doc := document_of env config text original_filename source_path n in
    fs !! final_path = None ∧
    out.2 !! final_path = Some doc ∧
    (∀ p, p ≠ final_path → p ≠ retry → out.2 !! p = fs !! p) ∧
    (∀ p, is_Some (fs !! p) → is_Some (out.2 !! p)) ∧
    (fully_completed env config text source_path || is_text_file = true →
     out = (Ok final_path, <[final_path := doc]> fs)).
Proof.
  intros out.
  destruct (run_ingestion_unfold env config text original_filename source_path
              is_text_file fs) as (n & Hn & Hrun).
  exists n. cbv zeta in *.
  apply counter_loop_Some in Hn as (_ & Hfree & _).
  fold (ingestion_path env config text source_path n) in Hfree.
  set (final_path := ingestion_path env config text source_path n) in *.
  set (retry := retry_copy_path env config text source_path n) in *.
  set (doc := document_of env config text original_filename source_path n) in *.
  fold out in Hrun. clearbody out. subst out.
  assert (∀ (fs' : store) p, is_Some (fs !! p) →
            (∀ q, q ≠ final_path → q ≠ retry → fs' !! q = fs !! q) →
            is_Some (fs' !! final_path) →
            (retry ≠ final_path → is_Some (fs' !! retry) ∨ fs' !! retry = fs !! retry) →
            is_Some (fs' !! p)) as Hkeep.
  { intros fs' p Hp Hframe Hfinal Hretry.
    destruct (decide (p = final_path)) as [->|Hp1]; [done|].
    destruct (decide (p = retry)) as [->|Hp2].
    - destruct (Hretry Hp1) as [?|Heq]; [done|by rewrite Heq].
    - by rewrite Hframe. }
  destruct (fully_completed env config text source_path || is_text_file)
    eqn:Hdone.
  - simpl. split_and!; [done|apply lookup_insert_eq| | |done].
    + intros p Hp _. by rewrite lookup_insert_ne.
    + intros p Hp. destruct (decide (p = final_path)) as [->|Hne].
      * rewrite lookup_insert_eq. by eexists.
      * by rewrite lookup_insert_ne.
  - unfold bind, copy2, ret. rewrite lookup_insert_eq.
    case_decide as Hsame; simpl.
    + split_and!; [done|apply lookup_insert_eq| | |done].
      * intros p Hp _. by rewrite lookup_insert_ne.
      * intros p Hp. destruct (decide (p = final_path)) as [->|Hne].
        -- rewrite lookup_insert_eq. by eexists.
        -- by rewrite lookup_insert_ne.
    + split_and!; [done| | | |done].
      * rewrite lookup_insert_ne by done. apply lookup_insert_eq.
      * intros p Hp1 Hp2. rewrite lookup_insert_ne by done.
        by rewrite lookup_insert_ne.
      * intros p Hp. apply Hkeep; [done| | |].
        -- intros q Hq1 Hq2. rewrite lookup_insert_ne by done.
           by rewrite lookup_insert_ne.
        -- rewrite lookup_insert_ne by done. rewrite lookup_insert_eq.
           by eexists.
        -- intros _. left. rewrite lookup_insert_eq. by eexists.
Qed.

(** ** What a repair leaves alone *)

Lemma repair_move_frame (folder : bool) (filepath official_path : string)
    (fs : store) p :
  p ≠ filepath → p ≠ official_path →
  (try_except
     (copy2_into folder filepath official_path ;; remove filepath ;;
      ret (Some official_path))
     (λ _, ret (Some filepath)) fs).2 !! p = fs !! p.
Proof.
  intros Hp1 Hp2. unfold try_except, bind, copy2_into, remove, ret.
  destruct (fs !! filepath) as [content|] eqn:Hfile; [|done].
  case_decide as Hsame; [done|]. destruct folder; [|done]. simpl.
  rewrite lookup_insert_ne by done. rewrite Hfile. simpl.
  rewrite lookup_delete_ne by done. by rewrite lookup_insert_ne.
Qed.

(** X11.  A repair touches at most two paths: the candidate itself and a
    file of the same name in a subfolder of the knowledge folder. *)
Theorem repair_touches_candidate_only (env : Env) (config : PipelineConfig)
    (filepath content : string) (fs : store) (p : string) :
  p ≠ filepath →
  (∀ subfolder,
     p ≠ join (join (paths_output config) subfolder) (basename filepath)) →
  (_run_repair_pipeline env config filepath content fs).2 !! p = fs !! p.
Proof.
  intros Hp1 Hp2. unfold _run_repair_pipeline.
  destruct (Py.split_on content "---") as [|pre [|s [|part2 rest]]]; try done.
  destruct (yaml_safe_load env s) as [| |fm]; try done.
  unfold repair_document. cbv zeta.
  destruct (repair_title env config (body_text_of part2) fm) as [[fm' ch]|];
    [|done].
  unfold bind at 1, lift at 1.
  destruct (content_types_get config _) as [tc|e]; [|done].
  cbv beta iota. unfold bind at 1.
  match goal with |- context [if ?b then write_file _ _ else ret ()] =>
    destruct b end.
  - unfold write_file at 1. cbv beta iota. unfold bind at 1, lift at 1.
    destruct (_sync_file env config filepath _ _ _) as [success|e];
      [|simpl; by rewrite lookup_insert_ne].
    match goal with |- context [if ?b then try_except _ _ else _] =>
      destruct b end.
    + rewrite repair_move_frame by done. by rewrite lookup_insert_ne.
    + simpl. by rewrite lookup_insert_ne.
  - unfold ret at 1. cbv beta iota. unfold bind at 1, lift at 1.
    destruct (_sync_file env config filepath _ _ _) as [success|e]; [|done].
    match goal with |- context [if ?b then try_except _ _ else _] =>
      destruct b end.
    + by rewrite repair_move_frame.
    + done.
Qed.

Lemma repair_touches_candidate_only_witness :
  let fs := {[ untitled_md := untitled_content; note_txt := "Hello world" ]}
              : store in
  (_run_repair_pipeline llm_mute vault untitled_md untitled_content fs).2
    !! note_txt = fs !! note_txt.
Proof.
  intros fs.
  apply (repair_touches_candidate_only llm_mute vault untitled_md
           untitled_content fs note_txt).
  - discriminate.
  - intros subfolder Heq.
    destruct (join_cases (join (paths_output vault) subfolder)
                (basename untitled_md)) as [[Hs _]|[_ (a & Ha & _)]].
    + vm_compute in Hs. discriminate.
    + rewrite Ha in Heq. apply (f_equal (λ s, last (Py.chars s))) in Heq.
      rewrite chars_app, last_app in Heq. vm_compute in Heq. discriminate.
Defined.

(** ** Repair of a document that needs none *)

Lemma title_fixed_of_not_sentinel (fm : Py.dict yval) :
  title_is_sentinel (default (YStr "Untitled") (Py.get fm "title")) = false →
  title_fixed fm = true.
Proof.
  unfold title_fixed.
  destruct (Py.get fm "title") as [[| |s|]|]; simpl; try done.
  intros H. apply orb_false_elim in H as [H _]. by rewrite H.
Qed.

(** X12.  A repair candidate that has a title and needs no analysis (its
    type asks for none, or the text already has an analysis section) is
    never rewritten: it is uploaded, and when the upload succeeded it is
    moved verbatim to its official path, provided the folder of that path
    exists (the repair does not create it) and the path is not the
    candidate itself; otherwise, and when the upload failed, it stays where
    it is; an exception of the sync leaves the files as they were. *)
Theorem repair_keeps_complete_document (env : Env) (config : PipelineConfig)
    (filepath content pre s part2 : string) (rest : list string)
    (fm : Py.dict yval) (tc : option type_data) (fs : store) :
  fs !! filepath = Some content →
  Py.split_on content "---" = pre :: s :: part2 :: rest →
  yaml_safe_load env s = LoadDict fm →
  title_is_sentinel (default (YStr "Untitled") (Py.get fm "title")) = false →
  content_types_get config (default (YStr "journal_entry") (Py.get fm "type"))
    = Ok tc →
  default false (enable_analysis <$> tc) = false
    ∨ Py.contains content "## Analysis" = true →
  let official_dir :=
    join (paths_output config)
      (default "Personal Diary" (tc ≫= target_subfolder)) in
  let official := join official_dir (basename filepath) in
  let out := _run_repair_pipeline env config filepath content fs in
  match _sync_file env config filepath
          (default (YStr "journal_entry") (Py.get fm "type"))
          (default (YSeq []) (Py.get fm "tags"))
          (default (YBool false) (Py.get fm "focus")) with
  | Ok true =>
      out = if isdir env official_dir && bool_decide (filepath ≠ official)
            then (Ok (Some official),
                  delete filepath (<[official := content]> fs))
            else (Ok (Some filepath), fs)
  | Ok false => out = (Ok (Some filepath), fs)
  | Raise e => out = (Raise e, fs)
  end.
Proof.
  intros Hfile Hsplit Hload Hsent Htc Hana official_dir official out.
  assert (out = (let* success :=
                   lift (_sync_file env config filepath
                           (default (YStr "journal_entry") (Py.get fm "type"))
                           (default (YSeq []) (Py.get fm "tags"))
                           (default (YBool false) (Py.get fm "focus"))) in
                 if success then
                   try_except
                     (copy2_into (isdir env official_dir) filepath official ;;
                      remove filepath ;;
                      ret (Some official))
                     (λ _, ret (Some filepath))
                 else ret (Some filepath)) fs) as ->.
  { unfold out, _run_repair_pipeline. rewrite Hsplit, Hload.
    unfold repair_document, repair_title. cbv zeta. rewrite Hsent.
    cbv iota. unfold bind at 1, lift at 1. rewrite Htc. cbv beta iota.
    rewrite (title_fixed_of_not_sentinel fm Hsent).
    assert ((if default false (enable_analysis <$> tc)
                  && negb (Py.contains content "## Analysis")
             then
               if Py.truthy
                    match default (YStr "journal_entry") (Py.get fm "type") with
                    | YStr s0 => _run_analysis env config s0 (body_text_of part2)
                    | _ => ""
                    end
               then
                 analysis_section
                   match default (YStr "journal_entry") (Py.get fm "type") with
                   | YStr s0 => _run_analysis env config s0 (body_text_of part2)
                   | _ => ""
                   end
               else ""
             else "") = "") as ->.
    { destruct Hana as [-> | ->]; [done|]. by rewrite andb_false_r. }
    assert (negb (default false (enable_analysis <$> tc))
            || Py.contains content "## Analysis" || Py.truthy "" = true) as ->.
    { destruct Hana as [-> | ->]; [done|]. by rewrite orb_true_r. }
    change (false || Py.truthy "") with false. cbv iota.
    unfold bind at 1, ret at 1. cbv beta iota. fold official_dir official.
    unfold bind, lift.
    by destruct (_sync_file env config filepath _ _ _) as [[|]|e]. }
  unfold bind, lift.
  destruct (_sync_file env config filepath _ _ _) as [[|]|e]; [|done|done].
  unfold try_except, copy2_into, remove, ret. rewrite Hfile.
  case_decide as Hsame.
  { rewrite bool_decide_false by (by intros ?). by rewrite andb_false_r. }
  rewrite bool_decide_true by done. rewrite andb_true_r.
  destruct (isdir env official_dir); [|done]. simpl.
  rewrite lookup_insert_ne by done. by rewrite Hfile.
Qed.

Lemma repair_keeps_complete_document_witness :
  let fs := {[ untitled_md := titled_content ]} : store in
  let fs' := {[ untitled_md := titled_content; older_md := "" ]} : store in
  _run_repair_pipeline online vault untitled_md titled_content fs
  = (Ok (Some untitled_md), fs) ∧
  _run_repair_pipeline (with_folders [diary_dir] online) vault untitled_md
    titled_content fs'
  = (Ok (Some diary_1),
     delete untitled_md (<[diary_1 := titled_content]> fs')).
Proof.
  intros fs fs'. split.
  - exact (repair_keeps_complete_document online vault untitled_md
             titled_content ""
             (Py.nl +:+ dump titled_frontmatter)
             (Py.nl +:+ Py.nl +:+ "## Transcript" +:+ Py.nl +:+ Py.nl
                +:+ "Hello world")
             [] titled_frontmatter None fs
             eq_refl eq_refl eq_refl eq_refl eq_refl (or_introl eq_refl)).
  - exact (repair_keeps_complete_document (with_folders [diary_dir] online)
             vault untitled_md titled_content ""
             (Py.nl +:+ dump titled_frontmatter)
             (Py.nl +:+ Py.nl +:+ "## Transcript" +:+ Py.nl +:+ Py.nl
                +:+ "Hello world")
             [] titled_frontmatter None fs'
             eq_refl eq_refl eq_refl eq_refl eq_refl (or_introl eq_refl)).
Defined.

(** ** The type a repair looks up *)

Lemma repair_document_returns env config filepath content part2 body fm tc
    (fs : store) p :
  content_types_get config (default (YStr "journal_entry") (Py.get fm "type"))
    = Ok tc →
  (repair_document env config filepath content part2 body fm fs).1
    = Ok (Some p) →
  p = filepath ∨
  p = join (join (paths_output config)
              (default "Personal Diary" (tc ≫= target_subfolder)))
           (basename filepath).
Proof.
  intros Htc. unfold repair_document. cbv zeta.
  destruct (repair_title env config body fm) as [[fm' ch]|];
    [|intros [= <-]; by left].
  unfold bind at 1, lift at 1. rewrite Htc. cbv beta iota. unfold bind at 1.
  assert (∀ (folder : bool) (fs' : store),
            (try_except
               (copy2_into folder filepath
                  (join (join (paths_output config)
                           (default "Personal Diary" (tc ≫= target_subfolder)))
                        (basename filepath)) ;;
                remove filepath ;;
                ret (Some (join (join (paths_output config)
                                   (default "Personal Diary"
                                      (tc ≫= target_subfolder)))
                                (basename filepath))))
               (λ _, ret (Some filepath)) fs').1 = Ok (Some p) →
            p = filepath ∨
            p = join (join (paths_output config)
                        (default "Personal Diary" (tc ≫= target_subfolder)))
                     (basename filepath)) as Hmove.
  { intros folder fs'. unfold try_except, bind, copy2_into, remove, ret.
    destruct (fs' !! filepath) as [c|] eqn:Hfile; [|intros [= <-]; by left].
    case_decide as Hsame; [intros [= <-]; by left|].
    destruct folder; [|intros [= <-]; by left]. simpl.
    rewrite lookup_insert_ne by done. rewrite Hfile. simpl.
    intros [= <-]. by right. }
  match goal with |- context [if ?b then write_file _ _ else ret ()] =>
    destruct b end.
  - unfold write_file at 1. cbv beta iota. unfold bind at 1, lift at 1.
    destruct (_sync_file env config filepath _ _ _) as [success|e]; [|done].
    match goal with |- context [if ?b then try_except _ _ else _] =>
      destruct b end; [apply Hmove|intros [= <-]; by left].
  - unfold ret at 1. cbv beta iota. unfold bind at 1, lift at 1.
    destruct (_sync_file env config filepath _ _ _) as [success|e]; [|done].
    match goal with |- context [if ?b then try_except _ _ else _] =>
      destruct b end; [apply Hmove|intros [= <-]; by left].
Qed.

Lemma sync_file_without_types env config filepath label tags force_focus :
  Py.get (content_types config) label = None →
  _sync_file env (without_types config) filepath (YStr label) tags force_focus
  = _sync_file env config filepath (YStr label) tags force_focus.
Proof.
  intros Hnone. unfold _sync_file, content_types_get. cbv beta iota.
  reflexivity.
Qed.

(** X13.  The repair looks the content type up under the [type] written in
    the front-matter.  When that label is not a key of the configured
    content types, the repair returns what it would return, and leaves the
    files as it would leave them, if no content type were configured: no
    analysis is asked for, and the only path a repaired document can be
    moved to lies in the subfolder [Personal Diary], whatever subfolder its
    content type has (it is moved there when that folder exists, and stays
    in the retry root when it does not). *)
Theorem repair_looks_up_type_by_label (env : Env) (config : PipelineConfig)
    (filepath content pre s part2 : string) (rest : list string)
    (fm : Py.dict yval) (label : string) (fs : store) :
  Py.split_on content "---" = pre :: s :: part2 :: rest →
  yaml_safe_load env s = LoadDict fm →
  Py.get fm "type" = Some (YStr label) →
  Py.get (content_types config) label = None →
  let out := _run_repair_pipeline env config filepath content fs in
  out = _run_repair_pipeline env (without_types config) filepath content fs ∧
  ∀ p, out.1 = Ok (Some p) →
       p = filepath ∨
       p = join (join (paths_output config) "Personal Diary")
             (basename filepath).
Proof.
  intros Hsplit Hload Hlabel Hnone out. split.
  - unfold out, _run_repair_pipeline. rewrite Hsplit, Hload.
    unfold repair_document. cbv zeta. rewrite Hlabel.
    change (repair_title env (without_types config))
      with (repair_title env config).
    destruct (repair_title env config (body_text_of part2) fm) as [[fm' ch]|];
      [|done].
    change (default (YStr "journal_entry") (Some (YStr label)))
      with (YStr label).
    rewrite !sync_file_without_types by done.
    unfold content_types_get. cbv beta iota. rewrite Hnone.
    reflexivity.
  - intros p Hp. unfold out, _run_repair_pipeline in Hp.
    rewrite Hsplit, Hload in Hp.
    apply (repair_document_returns _ _ _ _ _ _ _ None) in Hp; [done|].
    rewrite Hlabel. simpl. by rewrite Hnone.
Qed.

Lemma repair_looks_up_type_by_label_witness :
  let fs := {[ untitled_md := untitled_content; older_md := "";
               journal_2 := "" ]} : store in
  let env := with_folders [diary_dir; "/vault/KNOWLEDGE/Journal"] llm_mute in
  let out := _run_repair_pipeline env vault untitled_md untitled_content fs in
  (out = _run_repair_pipeline env (without_types vault) untitled_md
           untitled_content fs ∧
   ∀ p, out.1 = Ok (Some p) → p = untitled_md ∨ p = diary_1) ∧
  out.1 = Ok (Some diary_1) ∧
  (Py.get (content_types vault) "journal" ≫= target_subfolder) = Some "Journal" ∧
  (_run_repair_pipeline llm_mute vault untitled_md untitled_content
     {[ untitled_md := untitled_content ]}).1 = Ok (Some untitled_md).
Proof.
  intros fs env out. split; [|split_and!; [vm_compute|..]; reflexivity].
  exact (repair_looks_up_type_by_label env vault untitled_md
           untitled_content ""
           (Py.nl +:+ dump untitled_frontmatter)
           (Py.nl +:+ Py.nl +:+ "## Transcript" +:+ Py.nl +:+ Py.nl
              +:+ "Hello world")
           [] untitled_frontmatter "Journal" fs
           eq_refl eq_refl eq_refl eq_refl).
Defined.

(** ** From a partial ingestion to the repair *)

Lemma render_startswith env fm body tail :
  Py.startswith (render env fm body tail) "---" = true.
Proof. reflexivity. Qed.

(** X14.  An ingestion of a recording that ends incomplete leaves a copy of
    the document in the retry root (or raises [SameFileError] when the
    document already lies there).  The document starts with the
    front-matter marker, so when [process_text_file] later picks the copy
    up it runs the repair pipeline on it and does not ingest it again. *)
Theorem partial_document_is_repaired (env : Env) (config : PipelineConfig)
    (text original_filename source_path : string) (fs : store) :
  fully_completed env config text source_path = false →
  let out :=
    _run_ingestion_pipeline env config text original_filename source_path
      false fs in
  ∃ n,
    let final_path := ingestion_path env config text source_path n in
    let retry := retry_copy_path env config text source_path n in
    let doc := document_of env config text original_filename source_path n in
    (final_path ≠ retry →
     out = (Ok final_path, <[retry := doc]> (<[final_path := doc]> fs))) ∧
    (final_path = retry →
     out = (Raise SameFileError, <[final_path := doc]> fs)) ∧
    ∀ fs' : store,
      fs' !! retry = Some doc →
      process_text_file env config retry fs'
      = try_except (_run_repair_pipeline env config retry doc)
          (λ _, ret None) fs'.
Proof.
  intros Hpartial out.
  destruct (run_ingestion_unfold env config text original_filename source_path
              false fs) as (n & _ & Hrun).
  exists n. cbv zeta in *. fold out in Hrun. rewrite Hpartial in Hrun.
  simpl in Hrun. rewrite Hrun. clear Hrun out.
  split_and!.
  - intros Hne. unfold bind, copy2, ret. rewrite lookup_insert_eq.
    by rewrite decide_False.
  - intros Heq. unfold bind, copy2, ret. rewrite lookup_insert_eq.
    by rewrite decide_True.
  - intros fs' Hcopy. unfold process_text_file, try_except. cbv zeta.
    unfold bind at 1, read_file at 1. rewrite Hcopy.
    unfold document_of, _construct_markdown. cbv zeta.
    by rewrite render_startswith.
Qed.

Lemma partial_document_is_repaired_witness :
  let fs := {[ memo_m4a := "RIFF" ]} : store in
  let out :=
    _run_ingestion_pipeline llm_down vault "Hello world" "memo.m4a" memo_m4a
      false fs in
  ∃ n,
    let final_path := ingestion_path llm_down vault "Hello world" memo_m4a n in
    let retry := retry_copy_path llm_down vault "Hello world" memo_m4a n in
    let doc := document_of llm_down vault "Hello world" "memo.m4a" memo_m4a n in
    (final_path ≠ retry →
     out = (Ok final_path, <[retry := doc]> (<[final_path := doc]> fs))) ∧
    (final_path = retry →
     out = (Raise SameFileError, <[final_path := doc]> fs)) ∧
    ∀ fs' : store,
      fs' !! retry = Some doc →
      process_text_file llm_down vault retry fs'
      = try_except (_run_repair_pipeline llm_down vault retry doc)
          (λ _, ret None) fs'.
Proof.
  intros fs.
  apply (partial_document_is_repaired llm_down vault "Hello world" "memo.m4a"
           memo_m4a fs).
  reflexivity.
Defined.

End PipelineExtra.

(* ===================================================================== *)
(** * Further properties of the orchestration ([main.py]) *)
(* ===================================================================== *)

Module MainExtra.
Import Main PyFacts Scenarios Fixtures MainSpec.

(** ** The in-flight set *)

Lemma processing_files_unchanged l s s' :
  step l s = Some s' →
  worker_of l = None →
  processing_files s' = processing_files s ∧ workers s' = workers s.
Proof.
  intros Hstep Hl. destruct l; simpl in Hstep, Hl; try done.
  - by simplify_eq.
  - by simplify_eq.
  - by simplify_eq.
  - destruct (to_process s); [|done].
    destruct (monitor_collect now (debouncer s)). by simplify_eq.
  - destruct (to_process s); [done|]. by simplify_eq.
  - destruct (scan_files s); [|done]. by simplify_eq.
  - destruct (scan_files s); [done|]. by simplify_eq.
  - by simplify_eq.
Qed.

(** X15.  Only the worker changes [processing_files] and the stage of a
    worker: the watchdog handlers, the debounce monitor, the scanner and
    [main] leave both as they are, and a change of the in-flight set is the
    worker adding the path of the job it took or removing the path of the
    job it finished. *)
Theorem processing_files_owned_by_worker (l : label) (s s' : State) :
  step l s = Some s' →
  (worker_of l = None →
   processing_files s' = processing_files s ∧ workers s' = workers s) ∧
  (processing_files s' ≠ processing_files s →
   ∃ i j,
     (l = WorkerMark i ∧ workers s !! i = Some (Dequeued j) ∧
      processing_files s' = {[ j.2 ]} ∪ processing_files s) ∨
     (l = WorkerRelease i ∧ workers s !! i = Some (Cooldown j) ∧
      processing_files s' = processing_files s ∖ {[ j.2 ]})).
Proof.
  intros Hstep. destruct l; simpl in Hstep.
  - simplify_eq. by split.
  - simplify_eq. by split.
  - simplify_eq. by split.
  - destruct (to_process s); [|done].
    destruct (monitor_collect now (debouncer s)). simplify_eq. by split.
  - destruct (to_process s); [done|]. simplify_eq. by split.
  - destruct (scan_files s); [|done]. simplify_eq. by split.
  - destruct (scan_files s); [done|]. simplify_eq. by split.
  - simplify_eq. by split.
  - destruct (workers s !! i) as [[| | |]|]; try done.
    destruct (job_queue s); [done|]. simplify_eq. by split.
  - destruct (workers s !! i) as [[|j| |]|] eqn:E; try done.
    simplify_eq. split; [done|]. intros _. exists i, j. by left.
  - destruct (workers s !! i) as [[| |j|]|]; try done.
    simplify_eq. by split.
  - destruct (workers s !! i) as [[| | |j]|] eqn:E; try done.
    simplify_eq. split; [done|]. intros _. exists i, j. by right.
Qed.

Lemma processing_files_owned_by_worker_witness :
  (worker_of (WorkerMark 0) = None →
   processing_files note_running = processing_files note_dequeued ∧
   workers note_running = workers note_dequeued) ∧
  (processing_files note_running ≠ processing_files note_dequeued →
   ∃ i j,
     (WorkerMark 0 = WorkerMark i ∧
      workers note_dequeued !! i = Some (Dequeued j) ∧
      processing_files note_running
      = {[ j.2 ]} ∪ processing_files note_dequeued) ∨
     (WorkerMark 0 = WorkerRelease i ∧
      workers note_dequeued !! i = Some (Cooldown j) ∧
      processing_files note_running
      = processing_files note_dequeued ∖ {[ j.2 ]})).
Proof.
  apply (processing_files_owned_by_worker (WorkerMark 0) note_dequeued
           note_running).
  reflexivity.
Defined.

(** The in-flight set as the stage of the single worker determines it. *)
Lemma in_flight_step l s s' :
  step l s = Some s' →
  (∃ w, workers s = [w] ∧
        processing_files s
        = match w with
          | Idle | Dequeued _ => ∅
          | Running j | Cooldown j => {[ j.2 ]}
          end) →
  ∃ w, workers s' = [w] ∧
       processing_files s'
       = match w with
         | Idle | Dequeued _ => ∅
         | Running j | Cooldown j => {[ j.2 ]}
         end.
Proof.
  intros Hstep (w & Hw & Hpf).
  destruct (worker_of l) as [i|] eqn:Hl.
  - destruct l; simpl in Hl; simplify_eq; simpl in Hstep; rewrite Hw in Hstep.
    + destruct i as [|i]; [|done]. simpl in Hstep.
      destruct w; try done. destruct (job_queue s) as [|j q]; [done|].
      simplify_eq. simpl. by eexists.
    + destruct i as [|i]; [|done]. simpl in Hstep.
      destruct w as [|j| |]; try done. simplify_eq. simpl. rewrite Hpf.
      eexists. split; [done|]. simpl. set_solver.
    + destruct i as [|i]; [|done]. simpl in Hstep.
      destruct w as [| |j|]; try done. simplify_eq. simpl.
      by eexists.
    + destruct i as [|i]; [|done]. simpl in Hstep.
      destruct w as [| | |j]; try done. simplify_eq. simpl. rewrite Hpf.
      eexists. split; [done|]. simpl. set_solver.
  - destruct (processing_files_unchanged l s s' Hstep Hl) as [-> ->].
    by exists w.
Qed.

(** X16.  In every state of an execution of [main], the in-flight set holds
    at most one path: it is empty while the worker waits for a job or has
    not yet marked the job it took, and it holds exactly the path of the
    job while the worker is in the [try] block or in the cooldown.  So the
    in-flight tests of the scanner, of the monitor and of the vault handler
    can only ever skip the file being processed. *)
Theorem in_flight_set_is_the_current_job (batch : string) (s : State) :
  reachable batch s →
  ∃ w, workers s = [w] ∧
       processing_files s
       = match w with
         | Idle | Dequeued _ => ∅
         | Running j | Cooldown j => {[ j.2 ]}
         end.
Proof.
  induction 1 as [|s l s' _ IH Hstep].
  - by exists Idle.
  - by eapply in_flight_step.
Qed.

Lemma in_flight_set_is_the_current_job_witness :
  ∃ s w,
    steps [MainPut note_job; WorkerGet 0; WorkerMark 0]
      (initial "/vault/_INPUT_TEXT") = Some s ∧
    workers s = [w] ∧
    processing_files s
    = match w with
      | Idle | Dequeued _ => ∅
      | Running j | Cooldown j => {[ j.2 ]}
      end.
Proof.
  exists note_running.
  assert (steps [MainPut note_job; WorkerGet 0; WorkerMark 0]
            (initial "/vault/_INPUT_TEXT") = Some note_running) as Hsteps.
  { reflexivity. }
  destruct (in_flight_set_is_the_current_job "/vault/_INPUT_TEXT" note_running)
    as (w & Hw & Hpf).
  { eapply reachable_steps; [apply reachable_initial|exact Hsteps]. }
  by exists w.
Defined.

(** ** The extensions of the handlers *)

Lemma prefix_app a b : String.prefix a b = true → ∃ r, b = a +:+ r.
Proof.
  revert b. induction a as [|c a IH]; intros b; [by exists b|].
  destruct b as [|d b]; [done|].
  change (String.prefix (String c a) (String d b))
    with (if Ascii.ascii_dec c d then String.prefix a b else false).
  destruct (Ascii.ascii_dec c d) as [->|]; [|done].
  intros [r ->]%IH. by exists r.
Qed.

Lemma endswith_rev s p :
  Py.endswith s p = true → ∃ r, String.rev s = String.rev p +:+ r.
Proof. apply prefix_app. Qed.

(** X17.  No file name has both a text and an audio extension, so a file
    event is never queued both as an audio job and as a text job, even when
    the two input folders are the same directory. *)
Theorem handlers_never_both (event : fs_event) :
  (∀ f, text_extension f = true → audio_extension f = false) ∧
  (AudioHandler event = [] ∨ InputTextHandler event = []).
Proof.
  assert (∀ f, text_extension f = true → audio_extension f = false) as Hext.
  { intros f. unfold text_extension, audio_extension.
    intros [Ht|Ht]%orb_true_iff.
    all: apply endswith_rev in Ht as [r Hr].
    all: apply not_true_is_false; intros [[Ha|Ha]%orb_true_iff|Ha]%orb_true_iff.
    all: apply endswith_rev in Ha as [r' Hr'].
    all: rewrite Hr in Hr'; vm_compute in Hr'; discriminate. }
  split; [done|].
  destruct event as [d src|d src dest|d src]; simpl; [| |by left].
  - destruct (negb d); simpl; [|by left].
    destruct (text_extension src) eqn:E; [left|by right].
    by rewrite (Hext _ E).
  - destruct (negb d); simpl; [|by left].
    destruct (text_extension dest) eqn:E; [left|by right].
    by rewrite (Hext _ E).
Qed.

(** ** Cancelling a debounce entry *)(** ** Cancelling a debounce entry *)

Lemma run_without_schedule trace st p :
  Py.wf (pending st.1) →
  Py.get (pending st.1) p = None →
  Forall (λ c, ∀ now k, c ≠ Schedule now p k) trace →
  Py.get (pending (run trace st).1) p = None ∧
  jobs_for p (run trace st).2 = jobs_for p st.2.
Proof.
  intros Hwf Hnone Htrace. revert st Hwf Hnone.
  induction Htrace as [|c trace Hc _ IH]; intros st Hwf Hnone; [done|].
  change (run (c :: trace) st) with (run trace (call_step c st)).
  assert (Py.get (pending (call_step c st).1) p = None ∧
          jobs_for p (call_step c st).2 = jobs_for p st.2) as [Hnone' Hjobs].
  { destruct c as [now q k|q|now busy].
    - simpl. split; [|done]. rewrite get_set_ne; [done|].
      intros ->. by apply (Hc now k).
    - simpl. split; [|done]. case_bool_decide; [|done].
      destruct (decide (q = p)) as [->|Hne]; [by apply get_del_eq|].
      by rewrite get_del_ne.
    - pose proof (tick_effect now busy st p Hwf) as Htick.
      cbv zeta in Htick. by rewrite Hnone in Htick. }
  destruct (IH (call_step c st)) as [H1 H2];
    [by apply call_step_wf|done|]. by rewrite H2.
Qed.

(** X18.  After [cancel_task] for a path, no tick of the monitor submits a
    job for that path until [schedule] is called for it again, whatever is
    scheduled or cancelled for other paths in between; this is what the
    worker relies on when it cancels the entry of the document a pipeline
    call returned. *)
Theorem cancel_prevents_submit (trace : list call)
    (st : DebounceManager * list job) (p : string) :
  Py.wf (pending st.1) →
  Forall (λ c, ∀ now k, c ≠ Schedule now p k) trace →
  let st' := run trace (call_step (Cancel p) st) in
  (p ≠ "" → worker_finish (Returned (Some p)) st.1 = (call_step (Cancel p) st).1) ∧
  Py.get (pending st'.1) p = None ∧
  jobs_for p st'.2 = jobs_for p st.2.
Proof.
  intros Hwf Htrace st'. split.
  - intros Hp. simpl. apply truthy_spec in Hp. by rewrite Hp.
  - destruct (run_without_schedule trace (call_step (Cancel p) st) p)
      as [H1 H2]; [by apply call_step_wf| |done|done].
    simpl. case_bool_decide as Hin; [by apply get_del_eq|].
    destruct (Py.get (pending st.1) p) eqn:E; [|done].
    exfalso. apply Hin. by eexists.
Qed.

Lemma cancel_prevents_submit_witness :
  let st := run [Schedule 0 "note.md" sync_update]
              (DebounceManager_init 15, []) in
  let st' := run [Schedule 1 "other.md" sync_update; Tick 20 (λ _, false)]
               (call_step (Cancel "note.md") st) in
  Py.get (pending st'.1) "note.md" = None ∧
  jobs_for "note.md" st'.2 = [] ∧
  jobs_for "other.md" st'.2 = [(sync_update, "other.md")].
Proof.
  intros st st'. split_and!.
  - apply (cancel_prevents_submit
             [Schedule 1 "other.md" sync_update; Tick 20 (λ _, false)] st
             "note.md").
    + repeat constructor. set_solver.
    + repeat constructor; intros now k; discriminate.
  - reflexivity.
  - reflexivity.
Defined.

(** X19.  [cancel_task] covers only the modification events handled before
    it: when the event for the document a pipeline call created is handled
    while the call still runs, the worker's cancellation removes the entry;
    when it is handled after the call returned, the entry stays pending and
    will lead to a sync job for the document.  The path of the created
    document is not in [processing_files], which holds the source path. *)
Theorem cancel_covers_earlier_events_only (s : State) (i : nat) (j : job)
    (p : string) (now : Q) :
  workers s !! i = Some (Running j) →
  p ≠ "" →
  Py.endswith (Py.lower p) ".md" = true →
  p ∉ processing_files s →
  Py.wf (pending (debouncer s)) →
  (∃ s', steps [KnowledgeEvent now (Modified false p);
                WorkerFinish i (Returned (Some p))] s = Some s' ∧
         Py.get (pending (debouncer s')) p = None) ∧
  (∃ s', steps [WorkerFinish i (Returned (Some p));
                KnowledgeEvent now (Modified false p)] s = Some s' ∧
         Py.get (pending (debouncer s')) p
         = Some ((now + delay (debouncer s))%Q, sync_update)).
Proof.
  intros Hrun Hp Hmd Hidle Hwf. apply truthy_spec in Hp. split.
  - simpl. rewrite Hrun, Hmd, Hp. rewrite bool_decide_false by done.
    simpl. eexists. split; [reflexivity|]. simpl.
    rewrite bool_decide_true.
    + apply get_del_eq. by apply wf_set.
    + rewrite get_set_eq. by eexists.
  - simpl. rewrite Hrun, Hmd, Hp. simpl. rewrite bool_decide_false by done.
    eexists. split; [reflexivity|]. simpl. apply get_set_eq.
Qed.

Lemma cancel_covers_earlier_events_only_witness :
  (∃ s', steps [KnowledgeEvent 3 (Modified false journal_1);
                WorkerFinish 0 (Returned (Some journal_1))] note_running
         = Some s' ∧
         Py.get (pending (debouncer s')) journal_1 = None) ∧
  (∃ s', steps [WorkerFinish 0 (Returned (Some journal_1));
                KnowledgeEvent 3 (Modified false journal_1)] note_running
         = Some s' ∧
         Py.get (pending (debouncer s')) journal_1
         = Some ((3 + delay (debouncer note_running))%Q, sync_update)).
Proof.
  apply (cancel_covers_earlier_events_only note_running 0 note_job journal_1 3).
  - reflexivity.
  - discriminate.
  - reflexivity.
  - vm_compute. set_solver.
  - constructor.
Defined.

(** ** The try block of the worker *)

(** X20.  The pipeline call of the worker is skipped exactly when the file
    of the job is gone, and then no file changes; only an audio job can
    end in the [except] branch, as [process_text_file] and
    [sync_existing_file] catch what they raise; and a sync job never
    cancels a debounce entry, as it creates no file. *)
Theorem try_block_outcomes (env : Pipeline.Env) (config : PipelineConfig)
    (j : job) (fs : OS.store) :
  let out := try_block env config j fs in
  (out.1 = Skipped ↔ fs !! j.2 = None) ∧
  (fs !! j.2 = None → out.2 = fs) ∧
  (j.1 ≠ audio → ∀ e, out.1 ≠ Raised e) ∧
  (j.1 = sync_update → ∀ d, worker_finish out.1 d = d).
Proof.
  intros out. destruct j as [k p]. simpl.
  destruct (fs !! p) as [content|] eqn:Hfile.
  - assert (∃ o fs', out = (o, fs') ∧ o ≠ Skipped ∧
              (k ≠ audio → ∀ e, o ≠ Raised e) ∧
              (k = sync_update → ∀ d, worker_finish o d = d))
      as (o & fs' & -> & Hskip & Hraise & Hsync).
    { pose proof (try_block_sync_update env config p fs) as Hsync.
      unfold out, try_block, dispatch, OS.exists_ in *. simpl in *.
      rewrite Hfile in *.
      rewrite bool_decide_true in * by by eexists.
      destruct k; simpl.
      - destruct (Pipeline.process_audio env config p fs) as [[r|e] fs'];
          eexists _, _; split_and!; done.
      - destruct (PipelineExtra.process_text_file_ok env config p fs) as [r Hr].
        destruct (Pipeline.process_text_file env config p fs) as [[r'|e] fs'];
          [|done]. eexists _, _; split_and!; done.
      - destruct (OS.bind _ _ fs) as [[r|e] fs'];
          destruct Hsync as [Hsync|Hsync]; simpl in Hsync; simplify_eq.
        eexists _, _; split_and!; done. }
    simpl. split_and!; [|done|done|done].
    split; [done|]. intros Hnone. by rewrite Hnone in Hfile.
  - unfold out, try_block, OS.exists_. simpl. rewrite Hfile.
    rewrite bool_decide_false by by intros [? ?].
    simpl. split_and!; done.
Qed.

(** ** One tick of the monitor *)

(** X21.  One tick of [_monitor] splits the pending entries by their fire
    time: the entries due at the tick are removed and submitted in the
    order in which their paths were first scheduled (those in flight are
    dropped), and the entries not yet due stay pending in their order.
    The deletions made while the loop runs over the snapshot do not disturb
    it, as the paths of a dict are distinct. *)
Theorem monitor_tick_partitions (now : Q) (busy : string → bool)
    (self : DebounceManager) :
  Py.wf (pending self) →
  _monitor now busy self
  = (flat_map (λ entry, monitor_emit (busy entry.1) entry)
       (due_of now (pending self)),
     {| delay := delay self; pending := keep_of now (pending self) |}) ∧
  Py.wf (keep_of now (pending self)) ∧
  (∀ p, Py.get (keep_of now (pending self)) p
        = Py.get (pending self) p
            ≫= (λ v, if Qle_bool v.1 now then None else Some v)).
Proof.
  intros Hwf. split_and!.
  - unfold _monitor. by rewrite monitor_collect_spec.
  - by apply wf_filter.
  - intros p. unfold keep_of. rewrite get_filter by done.
    destruct (Py.get (pending self) p) as [[e k]|]; [|done].
    simpl. unfold is_due. simpl. by destruct (Qle_bool e now).
Qed.

Lemma monitor_tick_partitions_witness :
  let self :=
    {| delay := 15;
       pending := [("a.md", (10%Q, sync_update)); ("b.md", (30%Q, sync_update));
                   ("c.md", (20%Q, sync_update))] |} in
  _monitor 20 (λ _, false) self
  = ([(sync_update, "a.md"); (sync_update, "c.md")],
     {| delay := 15; pending := [("b.md", (30%Q, sync_update))] |}).
Proof.
  intros self.
  apply (proj1 (monitor_tick_partitions 20 (λ _, false) self
                  ltac:(repeat constructor; set_solver))).
Defined.

End MainExtra.

(* ===================================================================== *)
(** * Further properties of the text tools ([text_tools.py]) *)
(* ===================================================================== *)

Module TextToolsExtra.
Import TextTools FilenameDate PyFacts.

Local Arguments isdigit : simpl never.

(** ** The date of a file name *)

Lemma search_here w l g : match_here w l = Some g → search w l = Some g.
Proof. intros H. destruct l; simpl; by rewrite H. Qed.

Lemma search_tail w c l g :
  search w l = Some g → ∃ g', search w (c :: l) = Some g'.
Proof.
  intros H. simpl. destruct (match_here w (c :: l)); by eexists.
Qed.

Lemma search_drop w k l g :
  search w (drop k l) = Some g → ∃ g', search w l = Some g'.
Proof.
  revert l g. induction k as [|k IH]; intros l g H.
  - rewrite drop_0 in H. by eexists.
  - destruct l as [|c l]; [by eexists|]. simpl in H.
    destruct (IH l g H) as [g' Hg']. by eapply search_tail.
Qed.

(** Where the pattern with a four-digit year matches, the pattern with a
    two-digit year matches two characters further on, with the last two
    digits of the year. *)
Lemma match_here_long_short l y mo d h mi :
  match_here 4 l = Some (y, mo, d, h, mi) →
  match_here 2 (drop 2 l) = Some (drop 2 y, mo, d, h, mi).
Proof.
  intros H.
  do 15 (destruct l as [|? l]; [by vm_compute in H|]).
  unfold match_here in *. simpl in *.
  repeat match type of H with
         | context [isdigit ?c] =>
             destruct (isdigit c); simpl in H; [|discriminate]
         end.
  case_bool_decide as Hsep; simpl in H; [|discriminate].
  repeat match type of H with
         | context [isdigit ?c] =>
             destruct (isdigit c); simpl in H; [|discriminate]
         end.
  by simplify_eq.
Qed.

Lemma search_long_short l g :
  search 4 l = Some g → ∃ g', search 2 l = Some g'.
Proof.
  induction l as [|c l IH]; simpl.
  - by destruct (match_here 4 []).
  - destruct (match_here 4 (c :: l)) as [[[[[y mo] d] h] mi]|] eqn:E.
    + intros _. apply match_here_long_short in E.
      apply search_here in E. by apply search_drop in E.
    + intros H. destruct (IH H) as [g' Hg'].
      destruct (match_here 2 (c :: l)); by eexists.
Qed.

(** X22.  The branch of [_get_date_from_filename] for a stamp with a
    four-digit year never decides: wherever that pattern matches, the
    pattern with a two-digit year matches too and is tried first.  So the
    function answers [(None, None)] exactly when the short pattern has no
    match, and every date it returns starts with the fixed century [20],
    followed by the last two digits of the year of such a stamp. *)
Theorem long_stamp_never_decides (filepath : string) :
  let filename := Py.chars (OS.basename filepath) in
  (∀ l y mo d h mi,
     match_here 4 l = Some (y, mo, d, h, mi) →
     match_here 2 (drop 2 l) = Some (drop 2 y, mo, d, h, mi)) ∧
  (search 2 filename = None ↔ _get_date_from_filename filepath = (None, None)) ∧
  (∀ date time, _get_date_from_filename filepath = (Some date, time) →
     Py.startswith date "20" = true).
Proof.
  intros filename. split; [apply match_here_long_short|].
  unfold _get_date_from_filename. fold filename.
  destruct (search 2 filename) as [[[[[y mo] d] h] mi]|] eqn:E2.
  - split; [by split|]. intros date time [= <- _].
    match goal with |- Py.startswith ("20" +:+ ?r) _ = _ => generalize r end.
    intros r. by destruct r.
  - destruct (search 4 filename) as [g|] eqn:E4.
    + apply search_long_short in E4 as [g' Hg']. congruence.
    + split; [by split|]. by intros date time.
Qed.

Example century_of_long_stamp :
  _get_date_from_filename "/vault/INPUT/19990314_101500.m4a"
  = (Some "2099-03-14", Some "10:15").
Proof. reflexivity. Qed.

(** ** The excerpt the classification reads *)

(** X23.  The classification reads the first 500 characters of the text
    only: whatever follows them, keywords included, does not change the
    content type.  Stated for an ASCII text, whose bytes are the characters
    that [text[:500]] counts. *)
Theorem classification_reads_excerpt_only (config : PipelineConfig)
    (text suffix : string) :
  Forall (λ c, Ascii.nat_of_ascii c < 128) (Py.chars text) →
  500 ≤ length (Py.chars text) →
  determine_content_type config (text +:+ suffix)
  = determine_content_type config text.
Proof.
  intros _ Hlen.
  unfold determine_content_type, intro_text_of, Py.slice_to.
  by rewrite chars_app, take_app_le.
Qed.

Lemma classification_reads_excerpt_only_witness :
  determine_content_type Scenarios.vault (Fixtures.filler +:+ " meeting")
  = determine_content_type Scenarios.vault Fixtures.filler ∧
  determine_content_type Scenarios.vault " meeting" = "meeting" ∧
  determine_content_type Scenarios.vault Fixtures.filler = "journal".
Proof.
  split_and!.
  - apply (classification_reads_excerpt_only Scenarios.vault Fixtures.filler
             " meeting").
    + unfold Fixtures.filler. rewrite chars_str. apply Forall_replicate.
      vm_compute. lia.
    + unfold Fixtures.filler. rewrite chars_str, length_replicate. lia.
  - vm_compute. reflexivity.
  - vm_compute. reflexivity.
Defined.

(** ** The keys the classification returns *)

Lemma content_type_loop_key intro items d0 :
  match content_type_loop intro items d0 with
  | inl k => k ∈ Py.keys items
  | inr d => d = d0 ∨ ∃ k, d = Some k ∧ k ∈ Py.keys items
  end.
Proof.
  revert d0. unfold Py.keys.
  induction items as [|[k td] items IH]; intros d0; csimpl; [by left|].
  destruct (keywords_match intro td); [set_solver|].
  specialize (IH (if is_default td then Some k else d0)).
  destruct (content_type_loop intro items _) as [k'|d]; [set_solver|].
  destruct IH as [->|(k' & -> & Hk')].
  - destruct (is_default td); [right; exists k; set_solver|by left].
  - right. exists k'. set_solver.
Qed.

(** X24.  The classification returns a key of the configured content types
    whenever there is one: it answers ["unknown"] only for an empty
    configuration.  So for a non-empty configuration the settings of the
    returned type are always found. *)
Theorem classification_returns_configured_key (config : PipelineConfig)
    (text : string) :
  let k := determine_content_type config text in
  (k ∈ Py.keys (content_types config)
   ∨ (content_types config = [] ∧ k = "unknown")) ∧
  (content_types config ≠ [] → is_Some (Py.get (content_types config) k)).
Proof.
  intros k.
  assert (k ∈ Py.keys (content_types config)
          ∨ (content_types config = [] ∧ k = "unknown")) as Hk.
  { unfold k, determine_content_type. cbv zeta.
    assert (first_key_or_unknown config ∈ Py.keys (content_types config)
            ∨ (content_types config = []
               ∧ first_key_or_unknown config = "unknown")) as Hfirst.
    { unfold first_key_or_unknown, Py.keys.
      destruct (content_types config) as [|[k0 td0] items]; csimpl;
        [by right|left; set_solver]. }
    pose proof (content_type_loop_key (intro_text_of text)
                  (content_types config) None) as Hloop.
    destruct (content_type_loop _ _ None) as [k'|[k'|]]; [by left| |done].
    destruct (Py.truthy k'); [|done].
    destruct Hloop as [?|(k'' & [= <-] & Hin)]; [done|by left]. }
  split; [done|]. intros Hne.
  destruct Hk as [Hin|[Hnil _]]; [|done].
  destruct (Py.get (content_types config) k) eqn:E; [by eexists|].
  by apply get_None_keys in E.
Qed.

End TextToolsExtra.

(* ===================================================================== *)
(** * Properties of the path normalization ([config_loader.py]) *)
(* ===================================================================== *)

Module ConfigLoaderExtra.
Import ConfigLoader PyFacts PipelineSpec Fixtures.

Lemma startswith_app_slash a b :
  Py.startswith a "/" = true → Py.startswith (a +:+ b) "/" = true.
Proof.
  rewrite !startswith_slash, chars_app. by destruct (Py.chars a).
Qed.

Lemma isabs_join base name : isabs base = true → isabs (OS.join base name) = true.
Proof.
  unfold isabs, OS.join. intros Hbase.
  destruct (Py.startswith name "/") eqn:E; [done|].
  destruct (negb (Py.truthy base) || Py.endswith base "/");
    by apply startswith_app_slash.
Qed.

Lemma contains_app_r a v sub :
  Py.contains v sub = true → Py.contains (a +:+ v) sub = true.
Proof.
  intros H. induction a as [|c a IH]; [done|].
  change (String c a +:+ v) with (String c (a +:+ v)).
  change (Py.contains (String c (a +:+ v)) sub)
    with (String.prefix sub (String c (a +:+ v)) || Py.contains (a +:+ v) sub).
  rewrite IH. apply orb_true_r.
Qed.

Lemma contains_join base name sub :
  Py.contains name sub = true → Py.contains (OS.join base name) sub = true.
Proof.
  intros H. unfold OS.join.
  destruct (Py.startswith name "/"); [done|].
  destruct (negb (Py.truthy base) || Py.endswith base "/").
  - by apply contains_app_r.
  - apply contains_app_r. by apply (contains_app_r "/").
Qed.

(** X25.  With an absolute [base], every path [resolve] returns is
    absolute, whether it comes from a configured folder, from the fallback
    key or from the default folder name; so are the four normalized paths
    of the loaded configuration. *)
Theorem absolute_base_gives_absolute_paths (y : settings) :
  isabs (base_of (paths y)) = true →
  (∀ p_name fallback_key,
     isabs (resolve (paths y) p_name fallback_key) = true) ∧
  let config := load_config y in
  isabs (input_of (paths y)) = true ∧
  isabs (paths_archive config) = true ∧
  isabs (paths_output config) = true ∧
  isabs (paths_batch config) = true.
Proof.
  intros Hbase.
  assert (∀ p_name fallback_key,
            isabs (resolve (paths y) p_name fallback_key) = true) as Hres.
  { intros p_name fallback_key. unfold resolve. cbv zeta.
    match goal with |- isabs (match ?raw with _ => _ end) = true =>
      destruct raw as [r|] end.
    - destruct (isabs r) eqn:Hr.
      + by rewrite andb_false_r.
      + rewrite andb_true_r.
        assert (Py.truthy (base_of (paths y)) = true) as ->.
        { by destruct (base_of (paths y)). }
        by apply isabs_join.
    - destruct (String.eqb p_name "input_text_folder"); by apply isabs_join. }
  split; [done|]. simpl. unfold input_of. by rewrite !Hres.
Qed.

Lemma absolute_base_gives_absolute_paths_witness :
  let config := load_config legacy_settings in
  isabs (input_of (paths legacy_settings)) = true ∧
  isabs (paths_archive config) = true ∧
  isabs (paths_output config) = true ∧
  isabs (paths_batch config) = true.
Proof.
  apply (absolute_base_gives_absolute_paths legacy_settings).
  reflexivity.
Defined.

(** X26.  A configuration that names the retry root only by the former key
    [batch_sync_folder], with a folder name that contains [_BATCH_SYNC]:
    [paths['batch']], which [main] hands to the scanner and to the text
    handler, is that folder, but the pipeline replaces it by
    [<base>/_INPUT_TEXT] for its own use, so the retry copies it writes go
    to a folder other than the one scanned. *)
Theorem legacy_batch_folder_moves_retry_root (y : settings) (legacy : string) :
  raw_of (paths y) "input_text_folder" = None →
  raw_of (paths y) "batch_sync_folder" = Some legacy →
  Py.contains legacy "_BATCH_SYNC" = true →
  let config := load_config y in
  paths_batch config
  = (if Py.truthy (paths_base config) && negb (isabs legacy)
     then OS.join (paths_base config) legacy else legacy) ∧
  Main.scan_folder (Main.initial (paths_batch config)) = paths_batch config ∧
  Pipeline.text_input_dir config = OS.join (paths_base config) "_INPUT_TEXT" ∧
  (Py.contains (OS.join (paths_base config) "_INPUT_TEXT") "_BATCH_SYNC" = false →
   Pipeline.text_input_dir config ≠ paths_batch config).
Proof.
  intros Hnew Hold Hlegacy config.
  assert (paths_batch config
          = (if Py.truthy (paths_base config) && negb (isabs legacy)
             then OS.join (paths_base config) legacy else legacy)) as Hbatch.
  { unfold config, load_config, resolve. simpl. by rewrite Hnew, Hold. }
  assert (Py.contains (paths_batch config) "_BATCH_SYNC" = true) as Hcontains.
  { rewrite Hbatch. destruct (_ && _); [by apply contains_join|done]. }
  assert (Pipeline.text_input_dir config
          = OS.join (paths_base config) "_INPUT_TEXT") as Hdir.
  { unfold Pipeline.text_input_dir. by rewrite Hcontains, orb_true_r. }
  split_and!; [done|done|done|].
  intros Hfree Heq. rewrite Hdir in Heq. rewrite Heq in Hfree. congruence.
Qed.

Lemma legacy_batch_folder_moves_retry_root_witness :
  let config := load_config legacy_settings in
  paths_batch config = "/vault/_BATCH_SYNC" ∧
  Main.scan_folder (Main.initial (paths_batch config)) = paths_batch config ∧
  Pipeline.text_input_dir config = "/vault/_INPUT_TEXT" ∧
  (Py.contains "/vault/_INPUT_TEXT" "_BATCH_SYNC" = false →
   Pipeline.text_input_dir config ≠ paths_batch config).
Proof.
  exact (legacy_batch_folder_moves_retry_root legacy_settings "_BATCH_SYNC"
           eq_refl eq_refl eq_refl).
Defined.

Lemma truthy_app_r a b : Py.truthy b = true → Py.truthy (a +:+ b) = true.
Proof.
  rewrite !truthy_spec. intros Hb Heq. apply Hb.
  apply (f_equal Py.chars) in Heq. rewrite chars_app in Heq.
  apply chars_inj. by destruct (Py.chars a), (Py.chars b).
Qed.

Lemma truthy_join base name :
  Py.truthy name = true → Py.truthy (OS.join base name) = true.
Proof.
  intros H. unfold OS.join.
  destruct (Py.startswith name "/"); [done|].
  destruct (negb (Py.truthy base) || Py.endswith base "/").
  - by apply truthy_app_r.
  - apply truthy_app_r. by apply (truthy_app_r "/").
Qed.

(** X27.  None of the four normalized paths of a loaded configuration is
    empty, so the pipeline never takes the retry root for missing; it uses
    [paths['batch']] itself, the folder [main] scans and watches, unless
    that path contains [_BATCH_SYNC]. *)
Theorem loaded_paths_never_empty (y : settings) :
  let config := load_config y in
  input_of (paths y) ≠ "" ∧
  paths_archive config ≠ "" ∧
  paths_output config ≠ "" ∧
  paths_batch config ≠ "" ∧
  (Py.contains (paths_batch config) "_BATCH_SYNC" = false →
   Pipeline.text_input_dir config = paths_batch config).
Proof.
  intros config.
  assert (∀ p_name fallback_key,
            Py.truthy (upper p_name) = true →
            Py.truthy (resolve (paths y) p_name fallback_key) = true) as Hres.
  { intros p_name fallback_key Hname. unfold resolve, raw_of. cbv zeta.
    match goal with |- Py.truthy (match ?raw with _ => _ end) = true =>
      assert (∀ r, raw = Some r → Py.truthy r = true) as Hraw;
        [|destruct raw as [r|]] end.
    - intros r.
      destruct (Py.get (paths y) p_name) as [[v|]|];
        try destruct (Py.truthy v) eqn:Hv;
        try (intros [= <-]; done);
        destruct fallback_key as [fk|]; try done;
        destruct (Py.truthy fk); try done;
        destruct (Py.get (paths y) fk) as [[w|]|]; try done;
        destruct (Py.truthy w) eqn:Hw; try done; by intros [= <-].
    - specialize (Hraw r eq_refl).
      destruct (_ && _); [by apply truthy_join|done].
    - destruct (String.eqb p_name "input_text_folder"); by apply truthy_join. }
  assert (Py.truthy (paths_batch config) = true) as Hbatch by by apply Hres.
  split_and!; try (apply truthy_spec; by apply Hres).
  intros Hfree. unfold Pipeline.text_input_dir. by rewrite Hbatch, Hfree.
Qed.

End ConfigLoaderExtra.

(* ===================================================================== *)
(** * Facts about [str.split(sep)] *)
(* ===================================================================== *)

Module SplitFacts.
Import PyFacts.

Lemma app_cons c a b : String c a +:+ b = String c (a +:+ b).
Proof. reflexivity. Qed.

Lemma length_app a b :
  String.length (a +:+ b) = String.length a + String.length b.
Proof.
  induction a as [|c a IH]; [done|]. rewrite app_cons. simpl. by rewrite IH.
Qed.

Lemma prefix_empty s : String.prefix "" s = true.
Proof. by destruct s. Qed.

Lemma prefix_cons c sep d s :
  String.prefix (String c sep) (String d s)
  = if Ascii.ascii_dec c d then String.prefix sep s else false.
Proof. reflexivity. Qed.

Lemma prefix_app_self sep b : String.prefix sep (sep +:+ b) = true.
Proof.
  induction sep as [|c sep IH]; [apply prefix_empty|].
  rewrite app_cons, prefix_cons. by destruct (Ascii.ascii_dec c c).
Qed.

(** Whether [sep] is a prefix is decided by the first [len(sep)]
    characters. *)
Lemma prefix_app_long sep u v :
  String.length sep ≤ String.length u →
  String.prefix sep (u +:+ v) = String.prefix sep u.
Proof.
  revert u. induction sep as [|c sep IH]; intros u Hlen.
  - by rewrite !prefix_empty.
  - destruct u as [|d u]; [simpl in Hlen; lia|].
    rewrite app_cons, !prefix_cons.
    destruct (Ascii.ascii_dec c d); [|done]. apply IH. simpl in Hlen. lia.
Qed.

Lemma contains_cons c s sub :
  Py.contains (String c s) sub
  = String.prefix sub (String c s) || Py.contains s sub.
Proof. reflexivity. Qed.

Lemma split_on_go_cons sep cur c s :
  Py.split_on_go sep 0 cur (String c s)
  = if String.prefix sep (String c s)
    then Py.str (rev cur) :: Py.split_on_go sep (String.length sep - 1) [] s
    else Py.split_on_go sep 0 (c :: cur) s.
Proof. reflexivity. Qed.

(** The characters of an occurrence that are still to be skipped. *)
Lemma split_on_go_skip sep x cur b :
  Py.split_on_go sep (String.length x) cur (x +:+ b)
  = Py.split_on_go sep 0 cur b.
Proof.
  induction x as [|c x IH]; [done|]. rewrite app_cons. simpl. apply IH.
Qed.

(** A text without an occurrence of the separator is one part. *)
Lemma split_on_go_none sep cur s :
  Py.contains s sep = false →
  Py.split_on_go sep 0 cur s = [Py.str (rev cur ++ Py.chars s)].
Proof.
  revert cur. induction s as [|c s IH]; intros cur Hnone.
  - simpl. by rewrite app_nil_r.
  - rewrite contains_cons in Hnone. apply orb_false_elim in Hnone as [Hp Hs].
    rewrite split_on_go_cons, Hp, (IH _ Hs). simpl.
    by rewrite <- app_assoc.
Qed.

(** The first part ends where the separator first occurs: when [a],
    followed by the separator without its last character, holds no
    occurrence, the first occurrence in [a + sep + b] is the one after
    [a]. *)
Lemma split_on_go_first init c0 cur a b :
  let sep := init +:+ String c0 "" in
  Py.contains (a +:+ init) sep = false →
  Py.split_on_go sep 0 cur (a +:+ sep +:+ b)
  = Py.str (rev cur ++ Py.chars a) :: Py.split_on_go sep 0 [] b.
Proof.
  intros sep. revert cur. induction a as [|c a IH]; intros cur Hnone.
  - change ("" +:+ sep +:+ b) with (sep +:+ b).
    change (Py.chars "") with (@nil ascii). rewrite app_nil_r.
    destruct sep as [|c1 sep1] eqn:Hsep.
    { by destruct init. }
    rewrite app_cons, split_on_go_cons, <- app_cons, prefix_app_self.
    replace (String.length (String c1 sep1) - 1) with (String.length sep1)
      by (simpl; lia).
    by rewrite split_on_go_skip.
  - rewrite app_cons, contains_cons in Hnone.
    apply orb_false_elim in Hnone as [Hp Hs].
    rewrite app_cons, split_on_go_cons.
    assert (String.prefix sep (String c (a +:+ sep +:+ b)) = false) as ->.
    { replace (String c (a +:+ sep +:+ b))
        with (String c (a +:+ init) +:+ (String c0 "" +:+ b)).
      - rewrite prefix_app_long; [done|].
        unfold sep. rewrite length_app. simpl. rewrite length_app. lia.
      - rewrite app_cons. f_equal. unfold sep. by rewrite !str_app_assoc. }
    rewrite (IH _ Hs). simpl. by rewrite <- app_assoc.
Qed.

End SplitFacts.

(* ===================================================================== *)
(** * How the repair reads a document back ([pipeline.py]) *)
(* ===================================================================== *)

Module RepairExtra.
Import OS Pipeline PyFacts Scenarios Fixtures PipelineSpec SplitFacts.

Lemma str_app_nil_r s : s +:+ "" = s.
Proof. apply chars_inj. by rewrite chars_app, app_nil_r. Qed.

Lemma split_marker cur a b :
  Py.contains (a +:+ "--") "---" = false →
  Py.split_on_go "---" 0 cur (a +:+ "---" +:+ b)
  = Py.str (rev cur ++ Py.chars a) :: Py.split_on_go "---" 0 [] b.
Proof. exact (split_on_go_first "--" "-" cur a b). Qed.

(** The parts of a document up to the transcript. *)
Lemma split_render_head env fm rest :
  Py.contains (Py.nl +:+ yaml_dump env fm +:+ "--") "---" = false →
  Py.split_on ("---" +:+ Py.nl +:+ yaml_dump env fm +:+ "---" +:+ rest) "---"
  = "" :: (Py.nl +:+ yaml_dump env fm) :: Py.split_on rest "---".
Proof.
  intros Hdump. unfold Py.split_on.
  change ("---" +:+ Py.nl +:+ yaml_dump env fm +:+ "---" +:+ rest)
    with ("" +:+ "---" +:+ Py.nl +:+ yaml_dump env fm +:+ "---" +:+ rest).
  rewrite split_marker by reflexivity. f_equal.
  rewrite <- (str_app_assoc Py.nl (yaml_dump env fm)).
  rewrite split_marker by by rewrite str_app_assoc.
  simpl. by rewrite str_chars.
Qed.

(** The transcript the repair takes from the third part. *)
Lemma body_text_of_transcript body :
  Py.contains body "## Transcript" = false →
  Py.contains body "## Analysis" = false →
  body_text_of (Py.nl +:+ Py.nl +:+ "## Transcript" +:+ Py.nl +:+ Py.nl +:+ body)
  = Py.strip body.
Proof.
  intros Htranscript Hanalysis. unfold body_text_of. cbv zeta.
  assert (Py.split_on
            (Py.nl +:+ Py.nl +:+ "## Transcript" +:+ Py.nl +:+ Py.nl +:+ body)
            "## Transcript"
          = [Py.nl +:+ Py.nl; Py.nl +:+ Py.nl +:+ body]) as ->.
  { etransitivity.
    - exact (split_on_go_first "## Transcrip" "t" [] (Py.nl +:+ Py.nl)
               (Py.nl +:+ Py.nl +:+ body) eq_refl).
    - f_equal. rewrite split_on_go_none by exact Htranscript.
      simpl. by rewrite str_chars. }
  change (1 <? length [Py.nl +:+ Py.nl; Py.nl +:+ Py.nl +:+ body]) with true.
  cbv iota.
  change (List.last [Py.nl +:+ Py.nl; Py.nl +:+ Py.nl +:+ body] "")
    with (Py.nl +:+ Py.nl +:+ body).
  unfold Py.split_on. rewrite split_on_go_none by exact Hanalysis.
  simpl. rewrite str_chars. reflexivity.
Qed.

(** X28.  What [_construct_markdown] writes for a transcript without an
    analysis is read back by the repair as it was written: splitting at
    [---] gives the empty part, the front-matter text and the transcript
    section, and the transcript taken from that section is the written one
    with the blanks around it stripped; this holds when the dumped
    front-matter and the transcript hold no [---] and the transcript holds
    neither section heading. *)
Theorem document_round_trip (env : Env) (fm : Py.dict yval) (body : string) :
  Py.contains (Py.nl +:+ yaml_dump env fm +:+ "--") "---" = false →
  Py.contains body "---" = false →
  Py.contains body "## Transcript" = false →
  Py.contains body "## Analysis" = false →
  let part2 :=
    Py.nl +:+ Py.nl +:+ "## Transcript" +:+ Py.nl +:+ Py.nl +:+ body in
  Py.split_on (render env fm body "") "---"
  = [""; Py.nl +:+ yaml_dump env fm; part2] ∧
  body_text_of part2 = Py.strip body.
Proof.
  intros Hdump Hmarker Htranscript Hanalysis part2.
  split; [|by apply body_text_of_transcript].
  unfold render. rewrite str_app_nil_r, split_render_head by done.
  do 2 f_equal. unfold Py.split_on. rewrite split_on_go_none by exact Hmarker.
  simpl. by rewrite str_chars.
Qed.

Lemma document_round_trip_witness :
  Py.split_on untitled_content "---"
  = [""; Py.nl +:+ dump untitled_frontmatter;
     Py.nl +:+ Py.nl +:+ "## Transcript" +:+ Py.nl +:+ Py.nl +:+ "Hello world"] ∧
  body_text_of (Py.nl +:+ Py.nl +:+ "## Transcript" +:+ Py.nl +:+ Py.nl
                  +:+ "Hello world")
  = "Hello world".
Proof.
  exact (document_round_trip llm_down untitled_frontmatter "Hello world"
           eq_refl eq_refl eq_refl eq_refl).
Defined.

(** ** A transcript that holds the marker *)

Lemma split_render_marker env fm b1 b2 tail :
  Py.contains (Py.nl +:+ yaml_dump env fm +:+ "--") "---" = false →
  Py.contains (b1 +:+ "--") "---" = false →
  Py.split_on (render env fm (b1 +:+ "---" +:+ b2) tail) "---"
  = "" :: (Py.nl +:+ yaml_dump env fm)
       :: (Py.nl +:+ Py.nl +:+ "## Transcript" +:+ Py.nl +:+ Py.nl +:+ b1)
       :: Py.split_on (b2 +:+ tail) "---".
Proof.
  intros Hdump Hb1. unfold render. rewrite split_render_head by done.
  do 2 f_equal. unfold Py.split_on.
  replace (Py.nl +:+ Py.nl +:+ "## Transcript" +:+ Py.nl +:+ Py.nl
             +:+ (b1 +:+ "---" +:+ b2) +:+ tail)
    with ((Py.nl +:+ Py.nl +:+ "## Transcript" +:+ Py.nl +:+ Py.nl +:+ b1)
            +:+ "---" +:+ b2 +:+ tail)
    by by rewrite !str_app_assoc.
  rewrite split_marker.
  - simpl. by rewrite str_chars.
  - rewrite !str_app_assoc. exact Hb1.
Qed.

(** X29.  A transcript that holds [---] is cut there by a repair that
    rewrites the file: the split at [---] ends the transcript section at
    the marker, so the rewritten document keeps only the text before it
    (stripped), and what followed the marker is lost.  Shown for a document
    without analysis whose title the repair sets. *)
Theorem repair_cuts_transcript_at_marker (env : Env) (config : PipelineConfig)
    (filepath b1 b2 : string) (fm fm' : Py.dict yval)
    (tc : option type_data) (fs : store) :
  let content := render env fm (b1 +:+ "---" +:+ b2) "" in
  Py.contains (Py.nl +:+ yaml_dump env fm +:+ "--") "---" = false →
  Py.contains (b1 +:+ "--") "---" = false →
  Py.contains b1 "## Transcript" = false →
  Py.contains b1 "## Analysis" = false →
  Py.contains content "## Analysis" = false →
  yaml_safe_load env (Py.nl +:+ yaml_dump env fm) = LoadDict fm →
  repair_title env config (Py.strip b1) fm = Some (fm', true) →
  content_types_get config (default (YStr "journal_entry") (Py.get fm "type"))
    = Ok tc →
  default false (enable_analysis <$> tc) = false →
  let out := _run_repair_pipeline env config filepath content fs in
  let new_content := render env fm' (Py.strip b1) "" in
  let official :=
    join (join (paths_output config)
            (default "Personal Diary" (tc ≫= target_subfolder)))
         (basename filepath) in
  out.2 !! filepath = Some new_content ∨
  (out.1 = Ok (Some official) ∧
   out.2 !! filepath = None ∧
   out.2 !! official = Some new_content).
Proof.
  intros content Hdump Hb1 Htranscript Hanalysis Hnone Hload Htitle Htc Hreq
    out new_content official.
  assert (out = (let* success :=
                   lift (_sync_file env config filepath
                           (default (YStr "journal_entry") (Py.get fm "type"))
                           (default (YSeq []) (Py.get fm "tags"))
                           (default (YBool false) (Py.get fm' "focus"))) in
                 if title_fixed fm' && success then
                   try_except
                     (copy2_into
                        (isdir env
                           (join (paths_output config)
                              (default "Personal Diary"
                                 (tc ≫= target_subfolder))))
                        filepath official ;;
                      remove filepath ;;
                      ret (Some official))
                     (λ _, ret (Some filepath))
                 else ret (Some filepath))
                  (<[filepath := new_content]> fs)) as ->.
  { unfold out, _run_repair_pipeline.
    unfold content at 1. rewrite split_render_marker by done.
    rewrite Hload, (body_text_of_transcript b1) by done.
    unfold repair_document. cbv zeta. rewrite Htitle.
    unfold bind at 1, lift at 1. rewrite Htc. cbv beta iota.
    rewrite Hreq, Hnone. simpl andb. cbv iota.
    change (true || Py.truthy "") with true. cbv iota.
    unfold bind at 1, write_file at 1. cbv beta iota.
    change (negb false || false || Py.truthy "") with true.
    by rewrite andb_true_r. }
  unfold bind, lift.
  destruct (_sync_file env config filepath _ _ _) as [success|e].
  - destruct (title_fixed fm' && success).
    + exact (repair_move_cases _ _ _ _ _).
    + left. simpl. apply lookup_insert_eq.
  - left. simpl. apply lookup_insert_eq.
Qed.

Lemma repair_cuts_transcript_at_marker_witness :
  let content :=
    render llm_mute untitled_frontmatter ("Hello " +:+ "---" +:+ " world") "" in
  let fs := {[ untitled_md := content ]} : store in
  let out := _run_repair_pipeline llm_mute vault untitled_md content fs in
  let new_content :=
    render llm_mute
      (Py.set untitled_frontmatter "title" (YStr "Recovered Entry 2025-01-01"))
      "Hello" "" in
  out.2 !! untitled_md = Some new_content ∨
  (out.1 = Ok (Some diary_1) ∧
   out.2 !! untitled_md = None ∧
   out.2 !! diary_1 = Some new_content).
Proof.
  intros content fs.
  exact (repair_cuts_transcript_at_marker llm_mute vault untitled_md
           "Hello " " world" untitled_frontmatter
           (Py.set untitled_frontmatter "title"
              (YStr "Recovered Entry 2025-01-01"))
           None fs
           eq_refl eq_refl eq_refl eq_refl eq_refl eq_refl eq_refl eq_refl
           eq_refl).
Defined.

End RepairExtra.
